(** * InfinitePlexLibrary: webhook handling and availability polling

    A shallow embedding of [src/index.ts] and [src/systems/plex.ts].

    - JSON payloads are an inductive type of JavaScript values; property reads
      raise [TypeError] on [undefined]/[null] exactly where the source reads
      without a guard, and a template literal raises it on a value that has
      no string conversion.
    - Asynchronous code is a small monad: reader for the environment that
      answers collaborator calls, state for the closure variables of a poller,
      error for exceptions, writer for the ordered list of effects.
    - The callbacks that [setInterval] fires are split at their [await]s and
      run on an event loop with a clock: a callback that is still waiting for
      an answer when the timer fires again overlaps with the next one.
    - The modules [./utils], [./systems/radarr], [./systems/sonarr],
      [./systems/tautulli], [./config] and the [axios] client are not part of
      the sources at hand: every call into them is an [Invoke] effect whose
      outcome (a returned value or a rejection) is chosen by the environment. *)

From Stdlib Require Import String Ascii List ZArith NArith Lia Bool DecimalString.
Import ListNotations.
Open Scope string_scope.

(** ** JavaScript values *)

#[local] Set Warnings "-register-all".

Inductive value : Type :=
| JUndefined
| JNull
| JBool (b : bool)
| JNum (n : Z)
| JStr (s : string)
| JArr (items : list value)
| JObj (fields : list (string * value)).

(** [JNum n] is the number that the JSON integer literal [n] parses to; a
    webhook's ids and season numbers are such numbers. A string holds the
    UTF-8 bytes of the JavaScript string; a surrogate code unit without its
    partner, for which UTF-8 has no encoding, is held as the three bytes that
    its code point would take ([ED], then [A0]..[BF], then a continuation
    byte). *)

Definition truthy (v : value) : bool :=
  match v with
  | JUndefined | JNull => false
  | JBool b => b
  | JNum n => negb (Z.eqb n 0)
  | JStr s => negb (String.eqb s "")
  | JArr _ | JObj _ => true
  end.

Definition nullish (v : value) : bool :=
  match v with
  | JUndefined | JNull => true
  | _ => false
  end.

(** [v === "lit"] for a string literal. *)
Definition is_str (v : value) (lit : string) : bool :=
  match v with
  | JStr s => String.eqb s lit
  | _ => false
  end.

Fixpoint lookup (k : string) (fields : list (string * value)) : value :=
  match fields with
  | [] => JUndefined
  | (k', v) :: rest => if String.eqb k k' then v else lookup k rest
  end.

Definition has_field (k : string) (fields : list (string * value)) : bool :=
  existsb (fun kv => String.eqb k (fst kv)) fields.

Definition string_of_Z (n : Z) : string := NilZero.string_of_int (Z.to_int n).
Definition string_of_nat (n : nat) : string := NilZero.string_of_uint (Nat.to_uint n).

Definition first_char (s : string) : value :=
  match s with
  | EmptyString => JUndefined
  | String c _ => JStr (String c EmptyString)
  end.

(** *** [Number::toString] on the numbers of integer literals *)

(** The double nearest to [n >= 0], ties to the even significand. *)
Definition nearest_double (n : Z) : Z :=
  let size := (Z.log2 n + 1)%Z in
  if (size <=? 53)%Z then n
  else
    let drop := (size - 53)%Z in
    let kept := Z.shiftr n drop in
    let rest := (n - Z.shiftl kept drop)%Z in
    let half := Z.shiftl 1 (drop - 1) in
    let up := ((half <? rest) || ((half =? rest) && Z.odd kept))%Z in
    Z.shiftl (if up then kept + 1 else kept)%Z drop.

Definition decimal_length (n : Z) : Z := Z.of_nat (String.length (string_of_Z n)).

(** The shortest significand [s], with its power of ten, such that
    [s * 10^e] still reads as the double [d]; of two candidates of one
    length the nearer, of two equally near the even one. [len] is the number
    of digits of [d], [k] the number of digits tried. *)
Fixpoint shortest (fuel : nat) (k len d : Z) : Z * Z :=
  match fuel with
  | O => (d, 0%Z)
  | Datatypes.S fuel' =>
      if (len <=? k)%Z then (d, 0%Z)
      else
        let scale := (10 ^ (len - k))%Z in
        let lo := (d / scale)%Z in
        let hi := (lo + 1)%Z in
        let fits := fun s => (nearest_double (s * scale) =? d)%Z in
        let below := (d - lo * scale)%Z in
        let above := (hi * scale - d)%Z in
        if fits lo && fits hi then
          if (below <? above)%Z then (lo, (len - k)%Z)
          else if (above <? below)%Z then (hi, (len - k)%Z)
          else (if Z.even lo then lo else hi, (len - k)%Z)
        else if fits lo then (lo, (len - k)%Z)
        else if fits hi then (hi, (len - k)%Z)
        else shortest fuel' (k + 1)%Z len d
  end.

Fixpoint zeros (n : nat) : string :=
  match n with
  | O => ""
  | Datatypes.S n' => String "0" (zeros n')
  end.

Fixpoint strip_zeros (s : string) : string :=
  match s with
  | EmptyString => EmptyString
  | String c rest =>
      match strip_zeros rest with
      | EmptyString => if Ascii.eqb c "0" then EmptyString else String c EmptyString
      | kept => String c kept
      end
  end.

(** The text of a number: plain digits below [10^21], exponent notation from
    there on, [Infinity] beyond the largest double. *)
Definition number_to_string (n : Z) : string :=
  if (n =? 0)%Z then "0"
  else
    let sign := if (n <? 0)%Z then "-" else "" in
    let d := nearest_double (Z.abs n) in
    if (2 ^ 1024 <=? d)%Z then sign ++ "Infinity"
    else
      let '(s, e) := shortest 17 1 (decimal_length d) d in
      let size := (decimal_length s + e)%Z in
      if (size <=? 21)%Z then sign ++ string_of_Z s ++ zeros (Z.to_nat e)
      else
        sign ++
        match strip_zeros (string_of_Z s) with
        | String c EmptyString => String c EmptyString
        | String c rest => String c ("." ++ rest)
        | EmptyString => EmptyString
        end ++ "e+" ++ string_of_Z (size - 1).

Arguments number_to_string : simpl never.

(** The string that a template literal [`${v}`] interpolates, where there is
    one. The payloads are parsed JSON, so no property of an object is a
    function: an object with a key [toString] of its own has neither a
    [toString] nor a [valueOf] that yields a primitive, and the conversion
    throws a [TypeError] ([None]); so does that of an array that holds such an
    object. *)
Fixpoint to_string (v : value) : option string :=
  match v with
  | JUndefined => Some "undefined"
  | JNull => Some "null"
  | JBool true => Some "true"
  | JBool false => Some "false"
  | JNum n => Some (number_to_string n)
  | JStr s => Some s
  | JArr items =>
      (fix join_items (xs : list value) : option string :=
         match xs with
         | [] => Some ""
         | x :: rest =>
             match (if nullish x then Some "" else to_string x), join_items rest with
             | Some s, Some r =>
                 Some (match rest with [] => s | _ :: _ => s ++ "," ++ r end)
             | _, _ => None
             end
         end) items
  | JObj fields =>
      if has_field "toString" fields then None else Some "[object Object]"
  end.

(** The value has a string conversion. *)
Definition converts (v : value) : bool :=
  match to_string v with
  | Some _ => true
  | None => false
  end.

(** [Number(v)]. [Finite n] is, like [JNum n], the number that the integer
    literal [n] parses to. The number of a string of decimal digits is
    computed; that of any other string is left to the runtime's parser. *)
Inductive numeric : Type :=
| Finite (n : Z)
| NaN
| Parsed (text : string).

Definition number_of_string (s : string) : numeric :=
  if String.eqb s "" then Finite 0
  else
    match NilZero.uint_of_string s with
    | Some digits => Finite (Z.of_uint digits)
    | None => Parsed s
    end.

(** An object is converted through its string, so [Number] throws where the
    string conversion does ([None]). *)
Definition Number_of (v : value) : option numeric :=
  match v with
  | JUndefined => Some NaN
  | JNull => Some (Finite 0)
  | JBool b => Some (Finite (if b then 1 else 0))
  | JNum n => Some (Finite n)
  | JStr s => Some (number_of_string s)
  | JArr _ | JObj _ =>
      match to_string v with
      | Some s => Some (number_of_string s)
      | None => None
      end
  end.

(** ** Exceptions, effects and the environment *)

(** [TypeError]: raised by the runtime itself (a property read on
    [undefined]/[null], a non-string handed to [path], a call of a
    non-function, a value without string conversion in a template literal).
    [URIError]: raised by [encodeURIComponent]. [Rejection]: the [Error] a
    collaborator rejects with; like the two others it has a [message]. *)
Inductive exn : Type :=
| TypeError (what : string)
| URIError (what : string)
| Rejection (message : string).

Inductive call : Type :=
| EnsureDirectoryExists (dir : string)
| CreateDummyFile (template target : string)
| CreateSymlink (source target : string)
| CleanUpDummyFile (dir : string)
| RemoveDummyFolder (dir : string)
| CheckMovieInRadarr (tmdbId : value) (url apiKey : value)
| SearchMovieInRadarr (id : value) (url apiKey : value)
| AddMovieToRadarr (tmdbId : value) (rootFolder : value) (qualityProfileId : numeric)
    (monitored searchForMovie : bool) (url apiKey : value) (tags : list string)
| GetMovieStatus (movieId : Z)
| IsMovieDownloading (movieId : Z)
| TerminateStreamByFile (file : string)
| GetEpisodesBySeriesId (seriesId seasonNumber : Z)
| AxiosGet (url : string)
| AxiosPut (url : string).

(** The parts of a console line. [Lit]: text, of the source or of an
    interpolated value. The text of [JSON.stringify], of an error's message
    and of a further argument of [console.log], which the console formats by
    itself, is the runtime's. *)
Inductive frag : Type :=
| Lit (s : string)
| Inspect (v : value)
| Stringify (v : value)
| ErrMessage (e : exn)
| ErrObject (e : exn).

Inductive effect : Type :=
| ConsoleLog (line : list frag)
| ConsoleError (line : list frag)
| Invoke (c : call).

Definition trace := list effect.

Inductive outcome : Type :=
| Returned (v : value)
| Raised (e : exn).

Record env : Type := {
  respond : call -> outcome;
  (** [new Intl.DateTimeFormat("nl-NL", ...).format(new Date())] *)
  currentDate : string
}.

(** ** The monad of asynchronous code *)

Inductive result (A : Type) : Type :=
| Ok (a : A)
| Throw (e : exn).
Arguments Ok {A} a.
Arguments Throw {A} e.

Definition M (S A : Type) : Type := env -> S -> result A * S * trace.

Section Monad.
Context {S : Type}.

Definition ret {A} (a : A) : M S A := fun _ s => (Ok a, s, []).

Definition bind {A B} (m : M S A) (k : A -> M S B) : M S B :=
  fun w s =>
    match m w s with
    | (Ok a, s1, t1) =>
        match k a w s1 with
        | (r, s2, t2) => (r, s2, (t1 ++ t2)%list)
        end
    | (Throw e, s1, t1) => (Throw e, s1, t1)
    end.

Definition throw {A} (e : exn) : M S A := fun _ s => (Throw e, s, []).

Definition try_catch {A} (m : M S A) (handler : exn -> M S A) : M S A :=
  fun w s =>
    match m w s with
    | (Ok a, s1, t1) => (Ok a, s1, t1)
    | (Throw e, s1, t1) =>
        match handler e w s1 with
        | (r, s2, t2) => (r, s2, (t1 ++ t2)%list)
        end
    end.

Definition emit (e : effect) : M S unit := fun _ s => (Ok tt, s, [e]).

(** [await collaborator(args)] *)
Definition invoke (c : call) : M S value :=
  fun w s =>
    match respond w c with
    | Returned v => (Ok v, s, [Invoke c])
    | Raised e => (Throw e, s, [Invoke c])
    end.

Definition ask_date : M S string := fun w s => (Ok (currentDate w), s, []).

Definition get_state : M S S := fun _ s => (Ok s, s, []).
Definition modify (f : S -> S) : M S unit := fun _ s => (Ok tt, f s, []).
End Monad.

Notation "x <- m ;; k" := (bind m (fun x => k))
  (at level 61, m at next level, right associativity).
Notation "m ;; k" := (bind m (fun _ => k))
  (at level 61, right associativity).

Section Runtime.
Context {S : Type}.

(** [v.k] for the keys this program reads, none of which names a member
    of a built-in prototype: only an object has them. *)
Definition prop (v : value) (k : string) : M S value :=
  match v with
  | JUndefined | JNull => throw (TypeError k)
  | JObj fields => ret (lookup k fields)
  | _ => ret JUndefined
  end.

(** [v?.k] *)
Definition prop_opt (v : value) (k : string) : M S value :=
  if nullish v then ret JUndefined else prop v k.

(** [v[0]] *)
Definition index0 (v : value) : M S value :=
  match v with
  | JUndefined | JNull => throw (TypeError "0")
  | JArr items => ret (nth 0 items JUndefined)
  | JStr s => ret (first_char s)
  | JObj fields => ret (lookup "0" fields)
  | _ => ret JUndefined
  end.

(** The argument check of [path.basename] and [path.join]. *)
Definition validateString (v : value) : M S string :=
  match v with
  | JStr s => ret s
  | _ => throw (TypeError "path")
  end.

(** [`${v}`] inside a template literal. *)
Definition interpolate (v : value) : M S string :=
  match to_string v with
  | Some s => ret s
  | None => throw (TypeError "Cannot convert object to primitive value")
  end.

(** [Number(v)] *)
Definition toNumber (v : value) : M S numeric :=
  match Number_of v with
  | Some n => ret n
  | None => throw (TypeError "Cannot convert object to primitive value")
  end.

(** A URL with an encoded component, where the encoding succeeds. *)
Definition built (url : option string) : M S string :=
  match url with
  | Some u => ret u
  | None => throw (URIError "URI malformed")
  end.
End Runtime.

(** ** [path] *)

Class PathLib : Type := {
  path_basename : string -> string;
  path_join : list string -> string
}.

(** ** [config] *)

(** [./config] is not among the sources: its fields are parameters. The paths
    and the media server's settings are strings; the optional block of the
    secondary backend holds any value ([undefined] when not configured). *)
Record Config : Type := {
  MOVIE_FOLDER_DUMMY : string;
  SERIES_FOLDER_DUMMY : string;
  PLEX_MOVIE_FOLDER : string;
  DUMMY_FILE_LOCATION : string;
  PLEX_URL : string;
  PLEX_TOKEN : string;
  PLEX_LIBRARY_ID : string;
  PLEX_MOVIES_LIBRARY_ID : string;
  PLEX_SERIES_LIBRARY_ID : string;
  RADARR_4K_URL : value;
  RADARR_4K_API_KEY : value;
  RADARR_4K_MOVIE_FOLDER : value;
  RADARR_4K_QUALITY_PROFILE_ID : value
}.

(** ** [encodeURIComponent] *)

Definition unreserved (c : ascii) : bool :=
  let n := nat_of_ascii c in
  (((65 <=? n) && (n <=? 90)) || ((97 <=? n) && (n <=? 122))
   || ((48 <=? n) && (n <=? 57))
   || existsb (Nat.eqb n) [45; 95; 46; 33; 126; 42; 39; 40; 41])%nat.

Definition hex_digit (n : nat) : ascii :=
  if (n <? 10)%nat then ascii_of_nat (48 + n) else ascii_of_nat (55 + n).

(** Every byte that is not an unreserved character becomes [%XX]. *)
Fixpoint percent_encode (s : string) : string :=
  match s with
  | EmptyString => EmptyString
  | String c rest =>
      if unreserved c then String c (percent_encode rest)
      else
        let n := nat_of_ascii c in
        String "%" (String (hex_digit (n / 16)) (String (hex_digit (n mod 16))
          (percent_encode rest)))
  end.

(** The string holds a surrogate without its partner: the byte [ED] followed
    by a byte of [A0]..[BF]. *)
Fixpoint lone_surrogate (s : string) : bool :=
  match s with
  | EmptyString => false
  | String a rest =>
      match rest with
      | EmptyString => false
      | String b _ =>
          ((nat_of_ascii a =? 237) && (160 <=? nat_of_ascii b)
           && (nat_of_ascii b <=? 191))%nat
          || lone_surrogate rest
      end
  end.

(** [encodeURIComponent] throws a [URIError] on a lone surrogate ([None]). *)
Definition encodeURIComponent (s : string) : option string :=
  if lone_surrogate s then None else Some (percent_encode s).

Definition newline : string := String (ascii_of_nat 10) EmptyString.

(** ** [src/systems/plex.ts] *)

Section Plex.
Context {S : Type} (config : Config).

Definition is_num (v : value) (n : Z) : bool :=
  match v with
  | JNum m => Z.eqb m n
  | _ => false
  end.

(** The variable parts of the two URLs are set apart by text of the source,
    so no surrogate finds its partner across them. *)
Definition refresh_url (folderPath : string) : option string :=
  match encodeURIComponent folderPath with
  | Some path =>
      Some (PLEX_URL config ++ "/library/sections/" ++ PLEX_LIBRARY_ID config
              ++ "/refresh?X-Plex-Token=" ++ PLEX_TOKEN config
              ++ "&path=" ++ path)
  | None => None
  end.

Definition notifyPlexFolderRefresh (folderPath : string) : M S unit :=
  try_catch
    (emit (ConsoleLog [Lit "🔄 Starting Plex folder scan for folder: "; Lit folderPath]) ;;
     url <- built (refresh_url folderPath) ;;
     response <- invoke (AxiosGet url) ;;
     status <- prop response "status" ;;
     if is_num status 200 then
       emit (ConsoleLog [Lit "✅ Plex folder scan started for folder: "; Lit folderPath])
     else
       text <- interpolate status ;;
       emit (ConsoleError [Lit "❌ Error starting Plex folder scan: Status "; Lit text]))
    (fun error =>
       emit (ConsoleError [Lit "❌ Error communicating with the Plex API:"; ErrObject error])).

Definition description_url (ratingKey movieDescription newDescription currentDate : string)
  : option string :=
  let combinedDescription :=
    "[" ++ currentDate ++ "]: " ++ newDescription ++ newline ++ movieDescription in
  match encodeURIComponent combinedDescription with
  | Some summary =>
      Some (PLEX_URL config ++ "/library/metadata/" ++ ratingKey ++ "?summary.value="
              ++ summary ++ "&X-Plex-Token=" ++ PLEX_TOKEN config)
  | None => None
  end.

Definition updatePlexDescription (ratingKey movieDescription newDescription : string)
  : M S unit :=
  try_catch
    (currentDate <- ask_date ;;
     url <- built (description_url ratingKey movieDescription newDescription currentDate) ;;
     response <- invoke (AxiosPut url) ;;
     data <- prop response "data" ;;
     emit (ConsoleLog [Lit "✅ Description successfully updated for Plex ID ";
                       Lit ratingKey; Lit "."; Inspect data]))
    (fun error =>
       emit (ConsoleError [Lit "❌ Error updating the description for Plex ID ";
                           Lit ratingKey; Lit ":"; ErrMessage error])).
End Plex.

(** ** [src/index.ts]: the event dispatcher *)

Definition DEBUG_MODE : bool := true.

(** The relative path that marks a placeholder, a literal of the source. *)
Definition PLACEHOLDER : string := "dummy.mp4".

Section Dispatcher.
Context {S : Type} {P : PathLib} (config : Config).

Definition debugLog (message : list frag) : M S unit :=
  if DEBUG_MODE then emit (ConsoleLog (Lit "🐛 [DEBUG] " :: message)) else ret tt.

(** A call site of [index.ts] hands [notifyPlexFolderRefresh] a second
    argument, the library id; the function declares one parameter, so the
    argument is evaluated and dropped. *)
Definition call_notifyPlexFolderRefresh (folderPath libraryId : string) : M S unit :=
  notifyPlexFolderRefresh config folderPath.

(** [const [a, b] = v] *)
Definition destructure2 (v : value) : M S (value * value) :=
  match v with
  | JArr items => ret (nth 0 items JUndefined, nth 1 items JUndefined)
  | JStr s =>
      ret (first_char s,
           match s with String _ rest => first_char rest | EmptyString => JUndefined end)
  | _ => throw (TypeError "iterator")
  end.

Definition handleMovieAdded (event : value) : M S unit :=
  movie <- prop event "movie" ;;
  movieFolderV <- prop movie "folderPath" ;;
  movieFolder <- validateString movieFolderV ;;
  let movieFolderDummy := path_join [MOVIE_FOLDER_DUMMY config; path_basename movieFolder] in
  let plexFolder := path_join [PLEX_MOVIE_FOLDER config; path_basename movieFolder] in
  title <- prop movie "title" ;;
  titleText <- interpolate title ;;
  debugLog [Lit "Processing MovieAdded event: "; Lit titleText] ;;
  invoke (EnsureDirectoryExists movieFolderDummy) ;;
  let dummyLink := path_join [movieFolderDummy; PLACEHOLDER] in
  invoke (CreateDummyFile (DUMMY_FILE_LOCATION config) dummyLink) ;;
  invoke (CreateSymlink dummyLink plexFolder) ;;
  call_notifyPlexFolderRefresh movieFolder (PLEX_MOVIES_LIBRARY_ID config).

(** The secondary backend block of the movie [Download] case. *)
Definition secondaryBackend (movie : value) : M S unit :=
  if truthy (RADARR_4K_URL config) then
    tmdbId <- prop movie "tmdbId" ;;
    answer <- invoke (CheckMovieInRadarr tmdbId (RADARR_4K_URL config)
                        (RADARR_4K_API_KEY config)) ;;
    pair <- destructure2 answer ;;
    let '(exists_, movieDetails) := pair in
    if truthy exists_ then
      hasFile <- prop movieDetails "hasFile" ;;
      placeholder <-
        (if negb (truthy hasFile) then ret true
         else
           movieFile <- prop movieDetails "movieFile" ;;
           relativePath <- prop_opt movieFile "relativePath" ;;
           ret (is_str relativePath PLACEHOLDER)) ;;
      if placeholder : bool then
        debugLog [Lit "Movie not available in 4K instance. Initiating search..."] ;;
        id <- prop movieDetails "id" ;;
        invoke (SearchMovieInRadarr id (RADARR_4K_URL config) (RADARR_4K_API_KEY config)) ;;
        ret tt
      else ret tt
    else
      debugLog [Lit "Movie not found in 4K instance. Adding movie..."] ;;
      tmdbId' <- prop movie "tmdbId" ;;
      qualityProfileId <- toNumber (RADARR_4K_QUALITY_PROFILE_ID config) ;;
      invoke (AddMovieToRadarr tmdbId' (RADARR_4K_MOVIE_FOLDER config)
                qualityProfileId true true
                (RADARR_4K_URL config) (RADARR_4K_API_KEY config)
                ["infiniteplexlibrary"]) ;;
      ret tt
  else ret tt.

Definition handleDownloadMovie (movie : value) : M S unit :=
  movieFolderV <- prop movie "folderPath" ;;
  movieFolder <- validateString movieFolderV ;;
  let movieFolderDummy := path_join [MOVIE_FOLDER_DUMMY config; path_basename movieFolder] in
  title <- prop movie "title" ;;
  titleText <- interpolate title ;;
  debugLog [Lit "Processing Download event for movie: "; Lit titleText] ;;
  invoke (CleanUpDummyFile movieFolder) ;;
  invoke (RemoveDummyFolder movieFolderDummy) ;;
  secondaryBackend movie ;;
  call_notifyPlexFolderRefresh movieFolder (PLEX_MOVIES_LIBRARY_ID config).

Definition handleDownloadSeries (event series : value) : M S unit :=
  episodes <- prop event "episodes" ;;
  episode <- index0 episodes ;;
  seasonNumber <- prop episode "seasonNumber" ;;
  seriesFolderV <- prop series "path" ;;
  seriesFolder <- validateString seriesFolderV ;;
  season <- interpolate seasonNumber ;;
  let dummySeasonFolder :=
    path_join [SERIES_FOLDER_DUMMY config; path_basename seriesFolder;
               "Season " ++ season] in
  title <- prop series "title" ;;
  titleText <- interpolate title ;;
  seasonText <- interpolate seasonNumber ;;
  debugLog [Lit "Processing Download event for series: "; Lit titleText;
            Lit ", Season "; Lit seasonText] ;;
  invoke (CleanUpDummyFile dummySeasonFolder) ;;
  invoke (RemoveDummyFolder dummySeasonFolder) ;;
  call_notifyPlexFolderRefresh seriesFolder (PLEX_SERIES_LIBRARY_ID config).

Definition handleGrab (event : value) : M S unit :=
  movie <- prop event "movie" ;;
  if truthy movie then
    title <- prop movie "title" ;;
    titleText <- interpolate title ;;
    release <- prop event "release" ;;
    releaseTitle <- prop release "title" ;;
    releaseText <- interpolate releaseTitle ;;
    debugLog [Lit "Grabbed movie: "; Lit titleText; Lit " (Release: ";
              Lit releaseText; Lit ")"]
  else
    series <- prop event "series" ;;
    if truthy series then
      title <- prop series "title" ;;
      titleText <- interpolate title ;;
      episodes <- prop event "episodes" ;;
      episode <- index0 episodes ;;
      seasonNumber <- prop episode "seasonNumber" ;;
      seasonText <- interpolate seasonNumber ;;
      episode' <- index0 episodes ;;
      episodeNumber <- prop episode' "episodeNumber" ;;
      episodeText <- interpolate episodeNumber ;;
      debugLog [Lit "Grabbed episode: "; Lit titleText; Lit " (Season ";
                Lit seasonText; Lit ", Episode "; Lit episodeText; Lit ")"]
    else ret tt.

Definition handleRename (event : value) : M S unit :=
  movie <- prop event "movie" ;;
  if truthy movie then
    title <- prop movie "title" ;;
    titleText <- interpolate title ;;
    debugLog [Lit "Renamed movie: "; Lit titleText]
  else
    series <- prop event "series" ;;
    if truthy series then
      title <- prop series "title" ;;
      titleText <- interpolate title ;;
      debugLog [Lit "Renamed series: "; Lit titleText]
    else ret tt.

Definition handleEvent (event : value) : M S unit :=
  debugLog [Lit "Handling event: "; Stringify event] ;;
  eventType <- prop event "eventType" ;;
  if is_str eventType "MovieAdded" then handleMovieAdded event
  else if is_str eventType "Download" then
    movie <- prop event "movie" ;;
    if truthy movie then handleDownloadMovie movie
    else
      series <- prop event "series" ;;
      if truthy series then handleDownloadSeries event series else ret tt
  else if is_str eventType "Grab" then handleGrab event
  else if is_str eventType "Rename" then handleRename event
  else if is_str eventType "MovieDelete" then
    movie <- prop event "movie" ;;
    title <- prop movie "title" ;;
    titleText <- interpolate title ;;
    debugLog [Lit "Deleted movie: "; Lit titleText]
  else if is_str eventType "SeriesDelete" then
    series <- prop event "series" ;;
    title <- prop series "title" ;;
    titleText <- interpolate title ;;
    debugLog [Lit "Deleted series: "; Lit titleText]
  else if is_str eventType "HealthIssue" then
    message <- prop event "message" ;;
    messageText <- interpolate message ;;
    debugLog [Lit "Health issue detected: "; Lit messageText]
  else if is_str eventType "Test" then
    debugLog [Lit "Test webhook received:"]
  else
    kind <- interpolate eventType ;;
    debugLog [Lit "Unhandled event type: "; Lit kind].

(** ** The two endpoints *)

Record response : Type := { status : nat; body : string }.

(** A handler that returns has sent its response; a handler that throws (its
    [catch] block can) rejects, and nothing is sent. *)

(** [app.post("/radarr-webhook", ...)] *)
Definition radarr_webhook (event : value) : M S response :=
  debugLog [Lit "Radarr Webhook received:"] ;;
  debugLog [Stringify event] ;;
  missing <- (if negb (truthy event) then ret true
              else eventType <- prop event "eventType" ;; ret (negb (truthy eventType))) ;;
  if missing : bool then
    debugLog [Lit "No valid event received."] ;;
    ret {| status := 400; body := "Invalid event: missing eventType." |}
  else
    try_catch
      (handleEvent event ;;
       ret {| status := 200; body := "Webhook processed successfully." |})
      (fun error =>
         eventType <- prop event "eventType" ;;
         kind <- interpolate eventType ;;
         debugLog [Lit "Error processing "; Lit kind; Lit " event: ";
                   ErrMessage error] ;;
         ret {| status := 500; body := "Internal Server Error" |}).

(** [app.post("/sonarr-webhook", ...)] *)
Definition sonarr_webhook (event : value) : M S response :=
  debugLog [Lit "Sonarr Webhook received:"] ;;
  debugLog [Stringify event] ;;
  missing <- (if negb (truthy event) then ret true
              else eventType <- prop event "eventType" ;; ret (negb (truthy eventType))) ;;
  if missing : bool then
    debugLog [Lit "No valid event received."] ;;
    ret {| status := 400; body := "Invalid event: missing eventType." |}
  else
    try_catch
      (handleEvent event ;;
       ret {| status := 200; body := "Webhook processed successfully." |})
      (fun error =>
         eventType <- prop event "eventType" ;;
         kind <- interpolate eventType ;;
         debugLog [Lit "Error processing "; Lit kind; Lit " event: ";
                   ErrMessage error] ;;
         ret {| status := 500; body := "Internal Server Error" |}).
End Dispatcher.

(** ** [src/index.ts]: the availability pollers *)

Definition maxRetries : nat := 60.

(** The delay handed to [setInterval], in milliseconds. *)
Definition intervalDelay : N := 5000.

(** Which of the two [resolve()] sites of a poller ran. *)
Inductive site : Type :=
| WhenAvailable
| WhenExhausted.

(** The closure of one poller: the counter, the timer handle and the calls
    of [resolve] so far, oldest first (the promise settles at the first). *)
Record poller : Type := {
  attempts : nat;
  intervalActive : bool;
  resolveCalls : list site
}.

Definition started : poller :=
  {| attempts := 0; intervalActive := true; resolveCalls := [] |}.

Definition incrementAttempts : M poller unit :=
  modify (fun p => {| attempts := Datatypes.S (attempts p);
                      intervalActive := intervalActive p;
                      resolveCalls := resolveCalls p |}).

Definition clearInterval : M poller unit :=
  modify (fun p => {| attempts := attempts p;
                      intervalActive := false;
                      resolveCalls := resolveCalls p |}).

Definition resolve (s : site) : M poller unit :=
  modify (fun p => {| attempts := attempts p;
                      intervalActive := intervalActive p;
                      resolveCalls := (resolveCalls p ++ [s])%list |}).

(** *** One callback, run from its first statement to its last *)

Section Pollers.
Context (config : Config).

(** [movie && movie.hasFile && movie.movieFile?.relativePath !== "dummy.mp4"] *)
Definition movieAvailable (movie : value) : M poller bool :=
  if truthy movie then
    hasFile <- prop movie "hasFile" ;;
    if truthy hasFile then
      movieFile <- prop movie "movieFile" ;;
      relativePath <- prop_opt movieFile "relativePath" ;;
      ret (negb (is_str relativePath PLACEHOLDER))
    else ret false
  else ret false.

(** The callback of [setInterval] in [monitorAvailability], with every
    [await] answered on the spot. *)
Definition movieTick (movieId : Z) (originalFilePath : string) : M poller unit :=
  incrementAttempts ;;
  movie <- invoke (GetMovieStatus movieId) ;;
  downloading <- invoke (IsMovieDownloading movieId) ;;
  (if truthy downloading then
     debugLog [Lit "Movie ID "; Lit (number_to_string movieId);
               Lit " is currently downloading. Waiting for completion..."]
   else ret tt) ;;
  available <- movieAvailable movie ;;
  (if available : bool then
     debugLog [Lit "🎉 Movie is now available!"] ;;
     invoke (TerminateStreamByFile originalFilePath) ;;
     clearInterval ;;
     resolve WhenAvailable
   else ret tt) ;;
  p <- get_state ;;
  if (maxRetries <=? attempts p)%nat then
    debugLog [Lit "⏰ Time limit exceeded. Movie is not available yet."] ;;
    clearInterval ;;
    resolve WhenExhausted
  else ret tt.

(** [!ep.hasFile || (ep.episodeFile && ep.episodeFile.relativePath === "dummy.mp4")] *)
Definition episodeUnavailable (ep : value) : M poller bool :=
  hasFile <- prop ep "hasFile" ;;
  if negb (truthy hasFile) then ret true
  else
    episodeFile <- prop ep "episodeFile" ;;
    if truthy episodeFile then
      relativePath <- prop episodeFile "relativePath" ;;
      ret (is_str relativePath PLACEHOLDER)
    else ret false.

Fixpoint filterM (keep : value -> M poller bool) (items : list value)
  : M poller (list value) :=
  match items with
  | [] => ret []
  | x :: rest =>
      b <- keep x ;;
      kept <- filterM keep rest ;;
      ret (if b : bool then x :: kept else kept)
  end.

(** [episodes.filter(...)]: only an array has the method. *)
Definition unavailableEpisodes (episodes : value) : M poller (list value) :=
  match episodes with
  | JArr items => filterM episodeUnavailable items
  | _ => throw (TypeError "filter")
  end.

(** The callback of [setInterval] in [monitorSeasonAvailability], with every
    [await] answered on the spot. *)
Definition seasonTick (seriesId seasonNumber : Z) (ratingKey seasonDescription : string)
  : M poller unit :=
  incrementAttempts ;;
  episodes <- invoke (GetEpisodesBySeriesId seriesId seasonNumber) ;;
  unavailable <- unavailableEpisodes episodes ;;
  (if (length unavailable =? 0)%nat then
     debugLog [Lit "🎉 All episodes for Season "; Lit (number_to_string seasonNumber);
               Lit " are now available!"] ;;
     clearInterval ;;
     resolve WhenAvailable
   else
     debugLog [Lit "Waiting for "; Lit (string_of_nat (length unavailable));
               Lit " episodes to be available..."] ;;
     updatePlexDescription config ratingKey seasonDescription
       ("Waiting for " ++ string_of_nat (length unavailable) ++ " episodes...")) ;;
  p <- get_state ;;
  if (maxRetries <=? attempts p)%nat then
    debugLog [Lit "⏰ Time limit exceeded. Not all episodes are available yet."] ;;
    clearInterval ;;
    resolve WhenExhausted
  else ret tt.
End Pollers.

(** *** The same callbacks, split at their [await]s *)

(** What is left of an [async] function: nothing, a rejection, statements
    that run without giving way ([Sync]; their outcome goes to what follows,
    so that a [catch] can come after them), or an [await] of a collaborator's
    answer. No [Sync] below holds an [invoke]. *)
Inductive proc : Type :=
| Finish
| Reject (e : exn)
| Sync (A : Type) (m : M poller A) (k : result A -> proc)
| Await (c : call) (k : outcome -> proc).

(** Statements outside a [try]: a throw rejects the function. *)
Definition sync {A : Type} (m : M poller A) (k : A -> proc) : proc :=
  Sync A m (fun r => match r with Ok a => k a | Throw e => Reject e end).

(** [await collaborator(args)] outside a [try]. *)
Definition await (c : call) (k : value -> proc) : proc :=
  Await c (fun o => match o with Returned v => k v | Raised e => Reject e end).

(** [q; next] *)
Fixpoint andThen (q next : proc) : proc :=
  match q with
  | Finish => next
  | Reject e => Reject e
  | Sync A m k => Sync A m (fun r => andThen (k r) next)
  | Await c k => Await c (fun o => andThen (k o) next)
  end.

(** [try { q } catch (error) { handler }] *)
Fixpoint catching (q : proc) (handler : exn -> proc) : proc :=
  match q with
  | Finish => Finish
  | Reject e => handler e
  | Sync A m k => Sync A m (fun r => catching (k r) handler)
  | Await c k => Await c (fun o => catching (k o) handler)
  end.

Section Callbacks.
Context (config : Config).

Definition updatePlexDescriptionAsync (ratingKey movieDescription newDescription : string)
  : proc :=
  catching
    (sync (currentDate <- ask_date ;;
           built (description_url config ratingKey movieDescription newDescription
                    currentDate))
       (fun url =>
     await (AxiosPut url) (fun response =>
     sync (data <- prop response "data" ;;
           emit (ConsoleLog [Lit "✅ Description successfully updated for Plex ID ";
                             Lit ratingKey; Lit "."; Inspect data]))
       (fun _ => Finish))))
    (fun error =>
       sync (emit (ConsoleError [Lit "❌ Error updating the description for Plex ID ";
                                 Lit ratingKey; Lit ":"; ErrMessage error]))
         (fun _ => Finish)).

(** The callback of [setInterval] in [monitorAvailability]. *)
Definition movieCallback (movieId : Z) (originalFilePath : string) : proc :=
  sync incrementAttempts (fun _ =>
  await (GetMovieStatus movieId) (fun movie =>
  await (IsMovieDownloading movieId) (fun downloading =>
  sync ((if truthy downloading then
           debugLog [Lit "Movie ID "; Lit (number_to_string movieId);
                     Lit " is currently downloading. Waiting for completion..."]
         else ret tt) ;;
        movieAvailable movie)
    (fun available =>
  andThen
    (if available : bool then
       sync (debugLog [Lit "🎉 Movie is now available!"]) (fun _ =>
       await (TerminateStreamByFile originalFilePath) (fun _ =>
       sync (clearInterval ;; resolve WhenAvailable) (fun _ => Finish)))
     else Finish)
    (sync (p <- get_state ;;
           if (maxRetries <=? attempts p)%nat then
             debugLog [Lit "⏰ Time limit exceeded. Movie is not available yet."] ;;
             clearInterval ;;
             resolve WhenExhausted
           else ret tt)
       (fun _ => Finish)))))).

(** The callback of [setInterval] in [monitorSeasonAvailability]. *)
Definition seasonCallback (seriesId seasonNumber : Z)
    (ratingKey seasonDescription : string) : proc :=
  sync incrementAttempts (fun _ =>
  await (GetEpisodesBySeriesId seriesId seasonNumber) (fun episodes =>
  sync (unavailableEpisodes episodes) (fun unavailable =>
  andThen
    (if (length unavailable =? 0)%nat then
       sync (debugLog [Lit "🎉 All episodes for Season ";
                       Lit (number_to_string seasonNumber);
                       Lit " are now available!"] ;;
             clearInterval ;;
             resolve WhenAvailable)
         (fun _ => Finish)
     else
       sync (debugLog [Lit "Waiting for "; Lit (string_of_nat (length unavailable));
                       Lit " episodes to be available..."])
         (fun _ =>
       updatePlexDescriptionAsync ratingKey seasonDescription
         ("Waiting for " ++ string_of_nat (length unavailable) ++ " episodes...")))
    (sync (p <- get_state ;;
           if (maxRetries <=? attempts p)%nat then
             debugLog [Lit "⏰ Time limit exceeded. Not all episodes are available yet."] ;;
             clearInterval ;;
             resolve WhenExhausted
           else ret tt)
       (fun _ => Finish))))).
End Callbacks.

(** A callback with every [await] answered on the spot. *)
Fixpoint atomically (q : proc) (w : env) (p : poller) : result unit * poller * trace :=
  match q with
  | Finish => (Ok tt, p, [])
  | Reject e => (Throw e, p, [])
  | Sync _ m k =>
      match m w p with
      | (r, p1, t1) =>
          match atomically (k r) w p1 with
          | (r', p2, t2) => (r', p2, (t1 ++ t2)%list)
          end
      end
  | Await c k =>
      match atomically (k (respond w c)) w p with
      | (r', p2, t2) => (r', p2, Invoke c :: t2)
      end
  end.

(** The [await]s on its way, and the time their answers take together, when
    nothing else touches the closure meanwhile. *)
Fixpoint awaits (q : proc) (w : env) (p : poller) : nat :=
  match q with
  | Finish | Reject _ => 0
  | Sync _ m k =>
      match m w p with
      | (r, p1, _) => awaits (k r) w p1
      end
  | Await c k => Datatypes.S (awaits (k (respond w c)) w p)
  end.

Fixpoint duration (q : proc) (w : env) (latency : call -> N) (p : poller) : N :=
  match q with
  | Finish | Reject _ => 0%N
  | Sync _ m k =>
      match m w p with
      | (r, p1, _) => duration (k r) w latency p1
      end
  | Await c k => (latency c + duration (k (respond w c)) w latency p)%N
  end.

(** *** The timer and the event loop *)

(** Where a callback stops when it is run: at its end, at a rejection, or at
    its next [await]. *)
Inductive paused : Type :=
| Ended
| Rejected (e : exn)
| Blocked (c : call) (k : outcome -> proc).

Fixpoint advance (q : proc) (w : env) (p : poller) : paused * poller * trace :=
  match q with
  | Finish => (Ended, p, [])
  | Reject e => (Rejected e, p, [])
  | Sync _ m k =>
      match m w p with
      | (r, p1, t1) =>
          match advance (k r) w p1 with
          | (z, p2, t2) => (z, p2, (t1 ++ t2)%list)
          end
      end
  | Await c k => (Blocked c k, p, [Invoke c])
  end.

(** A callback that waits: when its answer is due, which firing started it,
    and how it goes on (the answer is in). *)
Record job : Type := {
  jobDue : N;
  jobFiring : nat;
  jobRest : proc
}.

(** The event loop around one poller: its closure, which all callbacks
    share, the callbacks that wait, the number of firings so far, the effects
    so far, and the rejection that ended it. *)
Record loop : Type := {
  closure : poller;
  waiting : list job;
  fired : nat;
  output : trace;
  failure : option exn
}.

Definition start (prologue : trace) : loop :=
  {| closure := started; waiting := []; fired := 0; output := prologue;
     failure := None |}.

(** What a poller left behind. [crashed]: a callback rejected; nothing
    handles the rejection, and the runtime of the image ([node:18], started
    without flags) ends the process on it. [outstanding]: the callbacks that
    were still waiting at the end. *)
Record run : Type := {
  final : poller;
  effects : trace;
  ticks : nat;
  crashed : option exn;
  outstanding : nat
}.

Definition finished (st : loop) : run :=
  {| final := closure st; effects := output st; ticks := fired st;
     crashed := failure st; outstanding := length (waiting st) |}.

(** The job that is due first; of two due at once, the one that has waited
    longer. *)
Fixpoint earliest (js : list job) : option (job * list job) :=
  match js with
  | [] => None
  | j :: rest =>
      match earliest rest with
      | Some (j', rest') =>
          if (jobDue j' <? jobDue j)%N then Some (j', j :: rest') else Some (j, rest)
      | None => Some (j, [])
      end
  end.

Section Timer.
Variables (callback : proc) (world : nat -> env) (delay : nat -> call -> N).

(** Run the piece [q] of the callback of firing [k] at the time [now], up to
    its next [await]: the call goes out, and its answer, the one of
    [world k], is due [delay k c] milliseconds later. The statements
    themselves take no time. *)
Definition perform (now : N) (k : nat) (q : proc) (st : loop) : loop :=
  match advance q (world k) (closure st) with
  | (Ended, p, t) =>
      {| closure := p; waiting := waiting st; fired := fired st;
         output := (output st ++ t)%list; failure := None |}
  | (Rejected e, p, t) =>
      {| closure := p; waiting := waiting st; fired := fired st;
         output := (output st ++ t)%list; failure := Some e |}
  | (Blocked c k', p, t) =>
      {| closure := p;
         waiting := (waiting st
                     ++ [{| jobDue := (now + delay k c)%N; jobFiring := k;
                            jobRest := k' (respond (world k) c) |}])%list;
         fired := fired st;
         output := (output st ++ t)%list; failure := None |}
  end.

(** The loop takes what comes first: the answer that is due first or, while
    the interval is active, the firing [k+1] at [(k+1) * 5000] ms, which
    starts the callback anew whether or not earlier ones still wait. An
    answer due at the very instant of a firing is taken before it. The loop
    ends on a rejection, or when the interval is cleared and nothing waits. *)
Fixpoint runTimer (fuel : nat) (st : loop) : run :=
  match fuel with
  | O => finished st
  | Datatypes.S fuel' =>
      match failure st with
      | Some _ => finished st
      | None =>
          let k := Datatypes.S (fired st) in
          let nextFiring := (N.of_nat k * intervalDelay)%N in
          let fire :=
            perform nextFiring k callback
              {| closure := closure st; waiting := waiting st; fired := k;
                 output := output st; failure := None |} in
          match earliest (waiting st) with
          | Some (j, others) =>
              if intervalActive (closure st) && (nextFiring <? jobDue j)%N then
                runTimer fuel' fire
              else
                runTimer fuel'
                  (perform (jobDue j) (jobFiring j) (jobRest j)
                     {| closure := closure st; waiting := others; fired := fired st;
                        output := output st; failure := None |})
          | None =>
              if intervalActive (closure st) then runTimer fuel' fire
              else finished st
          end
      end
  end.
End Timer.

Section Monitors.
Context (config : Config).

Definition monitorAvailability (movieId : Z)
    (ratingKey originalFilePath movieDescription : string)
    (world : nat -> env) (delay : nat -> call -> N) (fuel : nat) : run :=
  runTimer (movieCallback movieId originalFilePath) world delay fuel
    (start [ConsoleLog [Lit "🐛 [DEBUG] "; Lit "Monitoring availability for movie ID ";
                        Lit (number_to_string movieId); Lit "..."]]).

Definition monitorSeasonAvailability (seriesId seasonNumber : Z)
    (ratingKey seasonDescription : string)
    (world : nat -> env) (delay : nat -> call -> N) (fuel : nat) : run :=
  runTimer (seasonCallback config seriesId seasonNumber ratingKey seasonDescription)
    world delay fuel
    (start [ConsoleLog [Lit "🐛 [DEBUG] "; Lit "Monitoring availability for Season ";
                        Lit (number_to_string seasonNumber); Lit " of Series ID ";
                        Lit (number_to_string seriesId); Lit "..."]]).
End Monitors.

(** Milliseconds between the start of a poller and its last firing. *)
Definition elapsed (r : run) : Z := Z.of_nat (ticks r) * Z.of_N intervalDelay.

(** The states of the poller's state machine, read off its closure. *)
Inductive state : Type :=
| Polling
| Satisfied
| TimedOut.

Definition state_of (p : poller) : state :=
  match resolveCalls p with
  | [] => Polling
  | WhenAvailable :: _ => Satisfied
  | WhenExhausted :: _ => TimedOut
  end.

(** ** The POSIX flavour of [path], as the container runs it *)

Module Posix.
Definition slash : ascii := "/"%char.

(** The segments between separators; [""] has the one empty segment. *)
Fixpoint segments (s : string) : list string :=
  match s with
  | EmptyString => [EmptyString]
  | String c rest =>
      if Ascii.eqb c slash then EmptyString :: segments rest
      else
        match segments rest with
        | seg :: more => String c seg :: more
        | [] => [String c EmptyString]
        end
  end.

Definition last_nonempty (segs : list string) : string :=
  fold_left (fun acc seg => if String.eqb seg "" then acc else seg) segs "".

Definition basename (p : string) : string := last_nonempty (segments p).

(** [normalizeString]: the kept segments, innermost first in [stack]. *)
Fixpoint resolveDots (allowAboveRoot : bool) (segs stack : list string) : list string :=
  match segs with
  | [] => rev stack
  | seg :: rest =>
      if String.eqb seg "" || String.eqb seg "." then
        resolveDots allowAboveRoot rest stack
      else if String.eqb seg ".." then
        match stack with
        | top :: below =>
            if String.eqb top ".." then
              resolveDots allowAboveRoot rest
                (if allowAboveRoot then ".." :: stack else stack)
            else resolveDots allowAboveRoot rest below
        | [] =>
            resolveDots allowAboveRoot rest
              (if allowAboveRoot then [".."] else [])
        end
      else resolveDots allowAboveRoot rest (seg :: stack)
  end.

Definition starts_with_slash (s : string) : bool :=
  match s with
  | String c _ => Ascii.eqb c slash
  | EmptyString => false
  end.

Fixpoint ends_with_slash (s : string) : bool :=
  match s with
  | EmptyString => false
  | String c EmptyString => Ascii.eqb c slash
  | String _ rest => ends_with_slash rest
  end.

Definition normalize (p : string) : string :=
  if String.eqb p "" then "."
  else
    let isAbsolute := starts_with_slash p in
    let trailingSeparator := ends_with_slash p in
    let kept := String.concat "/" (resolveDots (negb isAbsolute) (segments p) []) in
    if String.eqb kept "" then
      if isAbsolute then "/" else if trailingSeparator then "./" else "."
    else
      let kept := if trailingSeparator then kept ++ "/" else kept in
      if isAbsolute then "/" ++ kept else kept.

Definition join (parts : list string) : string :=
  match filter (fun part => negb (String.eqb part "")) parts with
  | [] => "."
  | nonempty => normalize (String.concat "/" nonempty)
  end.

(** What the lemmas on [join] speak of: a segment without separator, a
    segment that is a name, a stack as [resolveDots] keeps it ([..] only at
    the bottom and only where going above the root is allowed), and the
    segments [normalize] keeps. *)
Fixpoint slashfree (s : string) : bool :=
  match s with
  | EmptyString => true
  | String c rest => negb (Ascii.eqb c slash) && slashfree rest
  end.

Definition is_name (s : string) : bool :=
  negb (String.eqb s "") && negb (String.eqb s ".") && negb (String.eqb s "..").

Fixpoint wf_stack (allow : bool) (st : list string) : bool :=
  match st with
  | [] => true
  | top :: below =>
      if String.eqb top ".." then allow && forallb (String.eqb "..") below
      else is_name top && wf_stack allow below
  end.

Definition kept (p : string) : list string :=
  resolveDots (negb (starts_with_slash p)) (segments p) [].
End Posix.

#[export] Instance posix : PathLib :=
  {| path_basename := Posix.basename; path_join := Posix.join |}.

(** ** Reading traces *)

(** The collaborator calls of a trace, in order: filesystem operations and
    outbound requests; console lines are left out. *)
Fixpoint calls (t : trace) : list call :=
  match t with
  | [] => []
  | Invoke c :: rest => c :: calls rest
  | _ :: rest => calls rest
  end.

Definition is_filesystem (c : call) : bool :=
  match c with
  | EnsureDirectoryExists _ | CreateDummyFile _ _ | CreateSymlink _ _
  | CleanUpDummyFile _ | RemoveDummyFolder _ => true
  | _ => false
  end.

Definition is_secondary (c : call) : bool :=
  match c with
  | CheckMovieInRadarr _ _ _ | SearchMovieInRadarr _ _ _
  | AddMovieToRadarr _ _ _ _ _ _ _ _ => true
  | _ => false
  end.

Definition is_stop_playback (c : call) : bool :=
  match c with
  | TerminateStreamByFile _ => true
  | _ => false
  end.

Definition is_put (c : call) : bool :=
  match c with
  | AxiosPut _ => true
  | _ => false
  end.

Definition count (p : call -> bool) (t : trace) : nat := length (filter p (calls t)).

(** A body without [eventType]: no body, or a value other than an object, or
    an object without the key. *)
Definition lacks_eventType (event : value) : Prop :=
  match event with
  | JObj fields => has_field "eventType" fields = false
  | _ => True
  end.

Definition invalid_event : response :=
  {| status := 400; body := "Invalid event: missing eventType." |}.
Definition processed : response :=
  {| status := 200; body := "Webhook processed successfully." |}.
Definition internal_error : response :=
  {| status := 500; body := "Internal Server Error" |}.

(** ** The conditions the pollers wait for, as the specification words them *)

(** A status record's field; anything but an object has none. *)
Definition field (v : value) (k : string) : value :=
  match v with
  | JObj fields => lookup k fields
  | _ => JUndefined
  end.

(** Movie mode: the status has a file, and its relative path is not the
    placeholder sentinel. *)
Definition has_file (movie : value) : bool :=
  truthy movie && truthy (field movie "hasFile").

Definition relative_path (movie : value) : value :=
  field (field movie "movieFile") "relativePath".

Definition movie_ready (movie : value) : bool :=
  has_file movie && negb (is_str (relative_path movie) "dummy.mp4").

(** What the movie status and the download flag are at one firing. *)
Definition movie_status (movieId : Z) (w : env) (movie downloading : value) : Prop :=
  respond w (GetMovieStatus movieId) = Returned movie
  /\ respond w (IsMovieDownloading movieId) = Returned downloading.

(** Season mode: an episode is pending when it has no file or its file is
    the placeholder sentinel. *)
Definition pending (episode : value) : bool :=
  negb (truthy (field episode "hasFile"))
  || is_str (field (field episode "episodeFile") "relativePath") "dummy.mp4".

Definition pending_count (episodes : list value) : nat :=
  length (filter pending episodes).

(** A listing of episode records: an array without [null] entries. *)
Definition episode_records (episodes : list value) : Prop :=
  Forall (fun ep => nullish ep = false) episodes.

(** One more attempt, nothing else changed. *)
Definition bump (p : poller) : poller :=
  {| attempts := Datatypes.S (attempts p);
     intervalActive := intervalActive p;
     resolveCalls := resolveCalls p |}.

Fixpoint bumps (n : nat) (p : poller) : poller :=
  match n with
  | O => p
  | Datatypes.S n' => bumps n' (bump p)
  end.

(** The closure after a tick that found the target not ready. *)
Definition after_waiting (p : poller) : poller :=
  if (maxRetries <=? Datatypes.S (attempts p))%nat then
    {| attempts := Datatypes.S (attempts p);
       intervalActive := false;
       resolveCalls := (resolveCalls p ++ [WhenExhausted])%list |}
  else bump p.

(** The closure after a tick that found the target ready. *)
Definition after_ready (p : poller) : poller :=
  {| attempts := Datatypes.S (attempts p);
     intervalActive := false;
     resolveCalls :=
       (resolveCalls p ++ WhenAvailable
          :: (if (maxRetries <=? Datatypes.S (attempts p))%nat
              then [WhenExhausted] else []))%list |}.

(** The status line of a season still waiting for [n] episodes. *)
Definition waiting_line (n : nat) : string :=
  "Waiting for " ++ string_of_nat n ++ " episodes...".

(** ** Concrete inputs *)

Module Sample.
Definition config : Config :=
  {| MOVIE_FOLDER_DUMMY := "/infiniteplexlibrary/movies";
     SERIES_FOLDER_DUMMY := "/infiniteplexlibrary/series";
     PLEX_MOVIE_FOLDER := "/plex/movies";
     DUMMY_FILE_LOCATION := "/infiniteplexlibrary/dummy.mp4";
     PLEX_URL := "http://plex:32400";
     PLEX_TOKEN := "token";
     PLEX_LIBRARY_ID := "1";
     PLEX_MOVIES_LIBRARY_ID := "1";
     PLEX_SERIES_LIBRARY_ID := "2";
     RADARR_4K_URL := JUndefined;
     RADARR_4K_API_KEY := JUndefined;
     RADARR_4K_MOVIE_FOLDER := JUndefined;
     RADARR_4K_QUALITY_PROFILE_ID := JUndefined |}.

(** The same with the secondary backend configured. *)
Definition config4K : Config :=
  {| MOVIE_FOLDER_DUMMY := "/infiniteplexlibrary/movies";
     SERIES_FOLDER_DUMMY := "/infiniteplexlibrary/series";
     PLEX_MOVIE_FOLDER := "/plex/movies";
     DUMMY_FILE_LOCATION := "/infiniteplexlibrary/dummy.mp4";
     PLEX_URL := "http://plex:32400";
     PLEX_TOKEN := "token";
     PLEX_LIBRARY_ID := "1";
     PLEX_MOVIES_LIBRARY_ID := "1";
     PLEX_SERIES_LIBRARY_ID := "2";
     RADARR_4K_URL := JStr "http://radarr4k:7878/api/v3";
     RADARR_4K_API_KEY := JStr "key";
     RADARR_4K_MOVIE_FOLDER := JStr "/media4k";
     RADARR_4K_QUALITY_PROFILE_ID := JStr "5" |}.

Definition ok200 : value := JObj [("status", JNum 200); ("data", JStr "")].

(** Every collaborator answers; requests get a 200. *)
Definition healthy : env :=
  {| respond := fun c =>
       match c with
       | AxiosGet _ | AxiosPut _ => Returned ok200
       | CheckMovieInRadarr _ _ _ => Returned (JArr [JBool false; JNull])
       | _ => Returned JUndefined
       end;
     currentDate := "02-11-2026, 10:00" |}.

(** The secondary backend is unreachable. *)
Definition secondary_down : env :=
  {| respond := fun c =>
       match c with
       | AxiosGet _ | AxiosPut _ => Returned ok200
       | CheckMovieInRadarr _ _ _ => Raised (Rejection "connect ECONNREFUSED")
       | _ => Returned JUndefined
       end;
     currentDate := "02-11-2026, 10:00" |}.

Definition inception : list (string * value) :=
  [("title", JStr "Inception"); ("folderPath", JStr "/media/Inception (2010)");
   ("tmdbId", JNum 27205)].

Definition movie_added : list (string * value) :=
  [("eventType", JStr "MovieAdded"); ("movie", JObj inception)].

Definition movie_download : list (string * value) :=
  [("eventType", JStr "Download"); ("movie", JObj inception)].

Definition show : list (string * value) :=
  [("title", JStr "Dark"); ("path", JStr "/tv/Dark")].

Definition series_download : list (string * value) :=
  [("eventType", JStr "Download"); ("series", JObj show);
   ("episodes", JArr [JObj [("seasonNumber", JNum 2); ("episodeNumber", JNum 1)]])].

Definition series_download_no_episodes : list (string * value) :=
  [("eventType", JStr "Download"); ("series", JObj show); ("episodes", JArr [])].
Definition real_episode (n : Z) : value :=
  JObj [("episodeNumber", JNum n); ("hasFile", JBool true);
        ("episodeFile", JObj [("relativePath", JStr "Season 2/episode.mkv")])].

Definition placeholder_episode (n : Z) : value :=
  JObj [("episodeNumber", JNum n); ("hasFile", JBool true);
        ("episodeFile", JObj [("relativePath", JStr "dummy.mp4")])].

(** Ten episodes, three of them still on the placeholder. *)
Definition ten_episodes : list value :=
  [real_episode 1; real_episode 2; placeholder_episode 3; real_episode 4;
   real_episode 5; placeholder_episode 6; real_episode 7; real_episode 8;
   placeholder_episode 9; real_episode 10].

Definition season_pending : env :=
  {| respond := fun c =>
       match c with
       | AxiosGet _ | AxiosPut _ => Returned ok200
       | GetEpisodesBySeriesId _ _ => Returned (JArr ten_episodes)
       | _ => Returned JUndefined
       end;
     currentDate := "02-11-2026, 10:00" |}.

(** A movie that stays on the placeholder. *)
Definition movie_pending : env :=
  {| respond := fun c =>
       match c with
       | GetMovieStatus _ =>
           Returned (JObj [("hasFile", JBool false)])
       | IsMovieDownloading _ => Returned (JBool true)
       | _ => Returned JUndefined
       end;
     currentDate := "02-11-2026, 10:00" |}.

(** A movie whose file arrives at the 60th firing. *)
Definition movie_arrives (k : nat) : env :=
  {| respond := fun c =>
       match c with
       | GetMovieStatus _ =>
           if (k <? 60)%nat then Returned (JObj [("hasFile", JBool false)])
           else Returned (JObj [("hasFile", JBool true);
                                ("movieFile",
                                 JObj [("relativePath", JStr "Inception (2010).mkv")])])
       | IsMovieDownloading _ => Returned (JBool (k <? 60)%nat)
       | _ => Returned JUndefined
       end;
     currentDate := "02-11-2026, 10:00" |}.

(** The closure before the 60th firing. *)
Definition before_last : poller :=
  {| attempts := 59; intervalActive := true; resolveCalls := [] |}.
End Sample.

(** ** [src/systems/plex.ts]: the metadata refresh *)

Section PlexMetadata.
Context {S : Type} (config : Config).

Definition metadata_refresh_url (ratingKey : string) : string :=
  PLEX_URL config ++ "/library/metadata/" ++ ratingKey
    ++ "/refresh?X-Plex-Token=" ++ PLEX_TOKEN config.

Definition refreshPlexMetadata (ratingKey : string) : M S unit :=
  try_catch
    (let refreshUrl := metadata_refresh_url ratingKey in
     invoke (AxiosPut refreshUrl) ;;
     emit (ConsoleLog [Lit "✅ Metadata successfully refreshed for Plex ID ";
                       Lit ratingKey; Lit "."]))
    (fun error =>
       emit (ConsoleError [Lit "❌ Error refreshing metadata for Plex ID ";
                           Lit ratingKey; Lit ":"; ErrMessage error])).
End PlexMetadata.

(** ** What a computation does not do *)

(** No filesystem operation and no outbound call, whatever the environment. *)
Definition quiet {S A : Type} (m : M S A) : Prop :=
  forall w s, calls (snd (m w s)) = [].

(** The media server answered the request with status 200. *)
Definition answered_200 (w : env) (c : call) : bool :=
  match respond w c with
  | Returned r => is_num (field r "status") 200
  | Raised _ => false
  end.

(** The states of a poller's closure: still polling, or stopped with the
    promise resolved. *)
Definition polling (p : poller) : Prop :=
  intervalActive p = true /\ resolveCalls p = [].

Definition settled (p : poller) : Prop :=
  intervalActive p = false /\ resolveCalls p <> [].

(** The separators of a URL's query. *)
Definition separators : list ascii :=
  ["&"; "="; "?"; "#"; "/"; " "; "+"]%char.

(** The error of a template literal on a value without string conversion. *)
Definition cannot_convert : exn :=
  TypeError "Cannot convert object to primitive value".

(** What an endpoint makes of an outcome of the handler, for an event of the
    kind [kind]: it answers 200 when the handler returned; when the handler
    threw, its [catch] block interpolates the kind and then answers 500, or,
    where the kind has no string conversion, throws in its turn, and the
    endpoint rejects without an answer. *)
Definition reply {A : Type} (kind : value) (r : result A) : result response :=
  match r with
  | Ok _ => Ok processed
  | Throw _ => if converts kind then Ok internal_error else Throw cannot_convert
  end.

(** The calls of a rescan and of a description update: one request where the
    URL can be built, none where the encoding throws. *)
Definition rescan_calls (config : Config) (folderPath : string) : list call :=
  match refresh_url config folderPath with
  | Some url => [AxiosGet url]
  | None => []
  end.

Definition update_calls (config : Config)
    (ratingKey movieDescription newDescription currentDate : string) : list call :=
  match description_url config ratingKey movieDescription newDescription currentDate with
  | Some url => [AxiosPut url]
  | None => []
  end.

(** [v[0]] where it can be read; [undefined] stands for "nothing there". *)
Definition item0 (v : value) : value :=
  match v with
  | JArr items => nth 0 items JUndefined
  | JStr s => first_char s
  | JObj fields => lookup "0" fields
  | _ => JUndefined
  end.

(** The kinds whose case reads into a payload. *)
Definition payload_kinds : list string :=
  ["MovieAdded"; "Download"; "Grab"; "MovieDelete"; "SeriesDelete"].

(** The response to a [Grab] event, read off its payload: 200 when all that
    its log line reads is there and has a string conversion. *)
Definition grab_answer (event : value) : response :=
  if truthy (field event "movie") then
    if converts (field (field event "movie") "title")
       && negb (nullish (field event "release"))
       && converts (field (field event "release") "title")
    then processed else internal_error
  else if truthy (field event "series") then
    if converts (field (field event "series") "title")
       && negb (nullish (item0 (field event "episodes")))
       && converts (field (item0 (field event "episodes")) "seasonNumber")
       && converts (field (item0 (field event "episodes")) "episodeNumber")
    then processed else internal_error
  else processed.

(** The value that the case of a kind without payload work interpolates into
    its log line; [""] where it interpolates none. *)
Definition logged (event : value) : value :=
  let kind := field event "eventType" in
  if is_str kind "Rename" then
    if truthy (field event "movie") then field (field event "movie") "title"
    else if truthy (field event "series") then field (field event "series") "title"
    else JStr ""
  else if is_str kind "HealthIssue" then field event "message"
  else if is_str kind "Test" then JStr ""
  else kind.

(** What the secondary backend block is to call, by the answer
    [[exists, details]] of the existence check. *)
Definition secondary_calls (config : Config) (tmdbId exists_ details : value)
    (qualityProfileId : numeric) : list call :=
  CheckMovieInRadarr tmdbId (RADARR_4K_URL config) (RADARR_4K_API_KEY config)
  :: (if truthy exists_ then
        if movie_ready details then []
        else [SearchMovieInRadarr (field details "id") (RADARR_4K_URL config)
                (RADARR_4K_API_KEY config)]
      else [AddMovieToRadarr tmdbId (RADARR_4K_MOVIE_FOLDER config)
              qualityProfileId true true
              (RADARR_4K_URL config) (RADARR_4K_API_KEY config)
              ["infiniteplexlibrary"]]).

(** ** More concrete inputs *)

Module Cases.
Definition grab_without_release : value :=
  JObj [("eventType", JStr "Grab"); ("movie", JObj Sample.inception)].

Definition rename_movie : value :=
  JObj [("eventType", JStr "Rename"); ("movie", JObj Sample.inception)].

Definition delete_without_movie : value :=
  JObj [("eventType", JStr "MovieDelete")].

Definition download_without_payload : value :=
  JObj [("eventType", JStr "Download")].

Definition added_without_movie : value :=
  JObj [("eventType", JStr "MovieAdded")].

Definition first_episode : value :=
  JObj [("seasonNumber", JNum 2); ("episodeNumber", JNum 1)].

(** A [Download] event with a series payload, no [episodes], and a movie
    payload as well. *)
Definition download_with_both : list (string * value) :=
  [("eventType", JStr "Download"); ("series", JObj Sample.show);
   ("movie", JObj Sample.inception)].

(** A movie payload whose title is an object with a key [toString]: it has
    no string conversion. *)
Definition unprintable_title : list (string * value) :=
  [("title", JObj [("toString", JNum 1)]); ("folderPath", JStr "/media/Inception (2010)");
   ("tmdbId", JNum 27205)].

Definition movie_added_unprintable : list (string * value) :=
  [("eventType", JStr "MovieAdded"); ("movie", JObj unprintable_title)].

(** The status fetch is rejected. *)
Definition status_down : env :=
  {| respond := fun c =>
       match c with
       | GetMovieStatus _ => Raised (Rejection "connect ECONNREFUSED")
       | _ => Returned JUndefined
       end;
     currentDate := "02-11-2026, 10:00" |}.

Definition ready_movie : value :=
  JObj [("hasFile", JBool true);
        ("movieFile", JObj [("relativePath", JStr "Inception (2010).mkv")])].

(** The movie is ready and the stop-playback call is rejected. *)
Definition stop_down : env :=
  {| respond := fun c =>
       match c with
       | GetMovieStatus _ => Returned ready_movie
       | TerminateStreamByFile _ => Raised (Rejection "connect ECONNREFUSED")
       | _ => Returned JUndefined
       end;
     currentDate := "02-11-2026, 10:00" |}.

(** The episode listing comes back as [null]. *)
Definition listing_null : env :=
  {| respond := fun c =>
       match c with
       | GetEpisodesBySeriesId _ _ => Returned JNull
       | _ => Returned JUndefined
       end;
     currentDate := "02-11-2026, 10:00" |}.

(** Every call is answered after 100 ms. *)
Definition prompt : nat -> call -> N := fun _ _ => 100%N.

(** The status fetch of the 60th firing takes 7000 ms. *)
Definition slow_status : nat -> call -> N :=
  fun k c =>
    match c with
    | GetMovieStatus _ => if (k =? 60)%nat then 7000%N else 100%N
    | _ => 100%N
    end.

(** The stop-playback call of the 60th firing takes 7000 ms. *)
Definition slow_stop : nat -> call -> N :=
  fun k c =>
    match c with
    | TerminateStreamByFile _ => if (k =? 60)%nat then 7000%N else 100%N
    | _ => 100%N
    end.

(** The description update of the 60th firing takes 7000 ms. *)
Definition slow_update : nat -> call -> N :=
  fun k c =>
    match c with
    | AxiosPut _ => if (k =? 60)%nat then 7000%N else 100%N
    | _ => 100%N
    end.

(** The movie's file arrives at the 60th firing, and the stop-playback call
    is rejected. *)
Definition movie_arrives_stop_down (k : nat) : env :=
  {| respond := fun c =>
       match c with
       | TerminateStreamByFile _ => Raised (Rejection "connect ECONNREFUSED")
       | _ => respond (Sample.movie_arrives k) c
       end;
     currentDate := "02-11-2026, 10:00" |}.

(** A movie whose file arrives at the third firing. *)
Definition movie_arrives_third (k : nat) : env :=
  {| respond := fun c =>
       match c with
       | GetMovieStatus _ =>
           if (k <? 3)%nat then Returned (JObj [("hasFile", JBool false)])
           else Returned ready_movie
       | _ => Returned JUndefined
       end;
     currentDate := "02-11-2026, 10:00" |}.

(** A season whose last episodes arrive at the second firing. *)
Definition season_arrives_second (k : nat) : env :=
  {| respond := fun c =>
       match c with
       | GetEpisodesBySeriesId _ _ =>
           if (k <? 2)%nat then Returned (JArr Sample.ten_episodes)
           else Returned (JArr [Sample.real_episode 1; Sample.real_episode 2])
       | AxiosPut _ => Returned Sample.ok200
       | _ => Returned JUndefined
       end;
     currentDate := "02-11-2026, 10:00" |}.
End Cases.

(** The loop after the callback of firing [k] went through alone, with the
    outcome [o]: nothing waits, and a rejection has ended the loop. *)
Definition landed (k : nat) (before : trace) (o : result unit * poller * trace) : loop :=
  match o with
  | (r, p, t) =>
      {| closure := p; waiting := []; fired := k; output := (before ++ t)%list;
         failure := match r with Ok _ => None | Throw e => Some e end |}
  end.

(** The environment lets the call return. *)
Definition returns (w : env) (c : call) : Prop := exists v, respond w c = Returned v.

(** * Properties *)

Lemma calls_app (t1 t2 : trace) : calls (t1 ++ t2)%list = (calls t1 ++ calls t2)%list.
Proof.
  induction t1 as [|e t1 IH]; [reflexivity|].
  destruct e; simpl; rewrite IH; reflexivity.
Qed.

Lemma lookup_absent (k : string) (fields : list (string * value)) :
  has_field k fields = false -> lookup k fields = JUndefined.
Proof.
  induction fields as [|[k' v] fields IH]; simpl; [reflexivity|].
  destruct (String.eqb k k'); simpl; [discriminate|exact IH].
Qed.

(** ** Facts on POSIX paths *)

Module PosixFacts.
Import Posix.

#[local] Arguments String.eqb : simpl never.

Lemma append_assoc (a b c : string) : (a ++ b) ++ c = a ++ (b ++ c).
Proof. induction a as [|x a IH]; simpl; [|rewrite IH]; reflexivity. Qed.

Lemma segments_nonempty (s : string) : segments s <> [].
Proof.
  destruct s as [|c s]; simpl; [discriminate|].
  destruct (Ascii.eqb c slash); [discriminate|].
  destruct (segments s); discriminate.
Qed.

Lemma segments_app (u v : string) :
  segments (u ++ String slash v) = (segments u ++ segments v)%list.
Proof.
  induction u as [|c u IH]; simpl.
  - reflexivity.
  - destruct (Ascii.eqb c slash); [rewrite IH; reflexivity|].
    rewrite IH. destruct (segments u) eqn:E; [|reflexivity].
    destruct (segments_nonempty u E).
Qed.

Lemma segments_slashfree (s : string) : slashfree s = true -> segments s = [s].
Proof.
  induction s as [|c s IH]; simpl; [reflexivity|].
  destruct (Ascii.eqb c slash); simpl; [discriminate|].
  intros H. rewrite (IH H). reflexivity.
Qed.

Lemma segments_all_slashfree (s : string) :
  Forall (fun x => slashfree x = true) (segments s).
Proof.
  induction s as [|c s IH]; simpl; [repeat constructor|].
  destruct (Ascii.eqb c slash) eqn:E; [constructor; [reflexivity|exact IH]|].
  destruct (segments s) as [|seg more]; [repeat constructor; simpl; rewrite E; reflexivity|].
  inversion IH; subst. constructor; [simpl; rewrite E; assumption|assumption].
Qed.

Lemma segments_concat (l : list string) :
  l <> [] -> Forall (fun x => slashfree x = true) l ->
  segments (String.concat "/" l) = l.
Proof.
  induction l as [|x l IH]; [congruence|].
  intros _ F. inversion F as [|? ? Hx Hl]; subst.
  destruct l as [|y l]; simpl.
  - apply segments_slashfree, Hx.
  - change (segments (x ++ String slash (String.concat "/" (y :: l))) = x :: y :: l).
    rewrite segments_app, segments_slashfree by exact Hx.
    rewrite IH; [reflexivity|discriminate|exact Hl].
Qed.

Lemma resolveDots_app (allow : bool) (s1 s2 st : list string) :
  resolveDots allow (s1 ++ s2) st = resolveDots allow s2 (rev (resolveDots allow s1 st)).
Proof.
  revert st; induction s1 as [|seg s1 IH]; intros st; simpl.
  - rewrite rev_involutive. reflexivity.
  - destruct (String.eqb seg "" || String.eqb seg "."); [apply IH|].
    destruct (String.eqb seg ".."); [|apply IH].
    destruct st as [|top below]; [apply IH|].
    destruct (String.eqb top ".."); apply IH.
Qed.

Lemma all_dots_wf (allow : bool) (st : list string) :
  allow = true -> forallb (String.eqb "..") st = true -> wf_stack allow st = true.
Proof.
  intros Ha. induction st as [|x st IH]; simpl; [reflexivity|].
  intros H. apply andb_prop in H. destruct H as [Hx Hst].
  rewrite String.eqb_sym, Hx, Ha, Hst. reflexivity.
Qed.

Lemma wf_stack_tail (allow : bool) (x : string) (st : list string) :
  wf_stack allow (x :: st) = true -> wf_stack allow st = true.
Proof.
  simpl. destruct (String.eqb x "..").
  - intros H. apply andb_prop in H. destruct H. apply all_dots_wf; assumption.
  - intros H. apply andb_prop in H. apply H.
Qed.

Lemma wf_stack_suffix (allow : bool) (a b : list string) :
  wf_stack allow (a ++ b) = true -> wf_stack allow b = true.
Proof.
  induction a as [|x a IH]; [trivial|].
  intros H. apply IH. exact (wf_stack_tail allow x _ H).
Qed.

Lemma resolveDots_wf (allow : bool) (segs st : list string) :
  wf_stack allow st = true -> wf_stack allow (rev (resolveDots allow segs st)) = true.
Proof.
  revert st; induction segs as [|seg segs IH]; intros st H; simpl.
  - rewrite rev_involutive. exact H.
  - destruct (String.eqb seg "") eqn:E1; simpl; [apply IH, H|].
    destruct (String.eqb seg ".") eqn:E2; simpl; [apply IH, H|].
    destruct (String.eqb seg "..") eqn:E3.
    + destruct st as [|top below]; [|destruct (String.eqb top "..") eqn:E4].
      * apply IH. destruct allow; reflexivity.
      * apply IH. destruct allow; [|exact H].
        apply String.eqb_eq in E4. subst top.
        simpl in H; rewrite ?String.eqb_refl in H; simpl in H.
        simpl; rewrite ?String.eqb_refl; simpl; exact H.
      * apply IH. exact (wf_stack_tail allow top below H).
    + apply IH. simpl. rewrite E3. unfold is_name. rewrite E1, E2, E3, H. reflexivity.
Qed.

Lemma resolveDots_kept (allow : bool) (l st : list string) :
  wf_stack allow (rev l ++ st) = true ->
  resolveDots allow l st = (rev st ++ l)%list.
Proof.
  revert st; induction l as [|x l IH]; intros st H; simpl.
  - rewrite app_nil_r. reflexivity.
  - simpl in H. rewrite <- app_assoc in H. simpl in H.
    pose proof (wf_stack_suffix allow _ _ H) as Hx. simpl in Hx.
    destruct (String.eqb x "..") eqn:E3.
    + apply andb_prop in Hx. destruct Hx as [Ha Hdots]. subst allow.
      apply String.eqb_eq in E3. subst x. simpl.
      destruct st as [|top below].
      * rewrite (IH [".."] H). reflexivity.
      * simpl in Hdots. apply andb_prop in Hdots. destruct Hdots as [Ht _].
        rewrite String.eqb_sym, Ht. rewrite (IH (".." :: top :: below) H).
        simpl. rewrite <- !app_assoc. reflexivity.
    + apply andb_prop in Hx. destruct Hx as [Hn _]. unfold is_name in Hn.
      apply andb_prop in Hn. destruct Hn as [Hn _].
      apply andb_prop in Hn. destruct Hn as [N1 N2].
      apply negb_true_iff in N1, N2. rewrite N1, N2. simpl.
      rewrite (IH (x :: st) H). simpl. rewrite <- app_assoc. reflexivity.
Qed.

Lemma resolveDots_slashfree (allow : bool) (segs st : list string) :
  Forall (fun x => slashfree x = true) segs ->
  Forall (fun x => slashfree x = true) st ->
  Forall (fun x => slashfree x = true) (resolveDots allow segs st).
Proof.
  revert st; induction segs as [|seg segs IH]; intros st Hs Hst; simpl.
  - apply Forall_rev, Hst.
  - inversion Hs; subst.
    destruct (String.eqb seg "" || String.eqb seg "."); [apply IH; assumption|].
    destruct (String.eqb seg "..").
    + destruct st as [|top below]; [|destruct (String.eqb top "..")].
      * apply IH; [assumption|]. destruct allow; repeat constructor.
      * apply IH; [assumption|]. destruct allow; [constructor; [reflexivity|]|]; assumption.
      * apply IH; [assumption|]. inversion Hst; assumption.
    + apply IH; [assumption|]. constructor; assumption.
Qed.

Lemma wf_stack_nonempty (allow : bool) (st : list string) :
  wf_stack allow st = true -> Forall (fun x => x <> "") st.
Proof.
  induction st as [|x st IH]; intros H; constructor.
  - simpl in H. destruct (String.eqb_spec x "..") as [E|_]; [subst; discriminate|].
    apply andb_prop in H. destruct H as [Hn _]. unfold is_name in Hn.
    intros E. subst x. discriminate Hn.
  - apply IH. exact (wf_stack_tail allow x st H).
Qed.

Lemma append_empty (a b : string) : a ++ b = "" -> a = "".
Proof. destruct a; [reflexivity|discriminate]. Qed.

Lemma concat_empty (l : list string) :
  Forall (fun x => x <> "") l -> String.concat "/" l = "" -> l = [].
Proof.
  destruct l as [|x l]; [reflexivity|].
  intros F E. inversion F as [|? ? Hx _]; subst. exfalso. apply Hx.
  destruct l as [|y l]; simpl in E; [exact E|exact (append_empty _ _ E)].
Qed.

Lemma starts_with_slash_app (a b : string) :
  a <> "" -> starts_with_slash (a ++ b) = starts_with_slash a.
Proof. destruct a; [congruence|reflexivity]. Qed.

Lemma ends_with_slash_app (a b : string) :
  b <> "" -> ends_with_slash (a ++ b) = ends_with_slash b.
Proof.
  intros Hb. induction a as [|c a IH]; [reflexivity|].
  simpl. rewrite IH. destruct (a ++ b) eqn:E; [|reflexivity].
  pose proof (append_empty _ _ E) as Ea. subst a. simpl in E. congruence.
Qed.

Lemma ends_with_slash_slashfree (s : string) :
  slashfree s = true -> ends_with_slash s = false.
Proof.
  induction s as [|c s IH]; [reflexivity|].
  simpl. intros H. apply andb_prop in H. destruct H as [Hc Hs].
  destruct s; [apply negb_true_iff, Hc|apply IH, Hs].
Qed.

Lemma starts_with_slash_concat (x : string) (l : list string) :
  x <> "" -> slashfree x = true -> starts_with_slash (String.concat "/" (x :: l)) = false.
Proof.
  intros Hx Hf.
  assert (H : starts_with_slash x = false).
  { destruct x as [|c x]; [congruence|]. simpl in Hf. apply andb_prop in Hf.
    simpl. apply negb_true_iff, Hf. }
  destruct l as [|y l]; simpl; [exact H|].
  rewrite starts_with_slash_app; assumption.
Qed.

Section Normalize.
Variable p : string.
Hypothesis nonempty : p <> "".

Lemma kept_wf : wf_stack (negb (starts_with_slash p)) (rev (kept p)) = true.
Proof. apply resolveDots_wf. reflexivity. Qed.

Lemma kept_slashfree : Forall (fun x => slashfree x = true) (kept p).
Proof. apply resolveDots_slashfree; [apply segments_all_slashfree|constructor]. Qed.

Lemma kept_nonempty : Forall (fun x => x <> "") (kept p).
Proof.
  rewrite <- (rev_involutive (kept p)). apply Forall_rev.
  exact (wf_stack_nonempty _ _ kept_wf).
Qed.

Lemma kept_fixed : resolveDots (negb (starts_with_slash p)) (kept p) [] = kept p.
Proof.
  apply (resolveDots_kept _ (kept p) []). rewrite app_nil_r. exact kept_wf.
Qed.

(** The path normalized with a file name appended. *)
Lemma normalize_file (name : string) :
  is_name name = true -> slashfree name = true ->
  normalize (p ++ String slash name)
  = (if starts_with_slash p then "/" else "") ++ String.concat "/" (kept p ++ [name]).
Proof.
  intros Hname Hfree. unfold normalize.
  assert (Hn : name <> "") by (intros E; subst; discriminate Hname).
  destruct (String.eqb_spec (p ++ String slash name) "") as [E|_];
    [destruct (nonempty (append_empty _ _ E))|].
  rewrite starts_with_slash_app by exact nonempty.
  rewrite ends_with_slash_app by discriminate.
  replace (ends_with_slash (String slash name)) with false
    by (destruct name; [congruence|symmetry; apply (ends_with_slash_slashfree _ Hfree)]).
  rewrite segments_app, (segments_slashfree name Hfree), resolveDots_app.
  fold (kept p).
  assert (Hstep : resolveDots (negb (starts_with_slash p)) [name] (rev (kept p))
                  = (kept p ++ [name])%list).
  { unfold is_name in Hname. apply andb_prop in Hname. destruct Hname as [H12 H3].
    apply andb_prop in H12. destruct H12 as [H1 H2].
    apply negb_true_iff in H1, H2, H3.
    simpl. rewrite H1, H2, H3. simpl. rewrite rev_involutive. reflexivity. }
  rewrite Hstep.
  destruct (String.eqb_spec (String.concat "/" (kept p ++ [name])) "") as [E|_].
  - apply concat_empty in E; [destruct (kept p); discriminate|].
    apply Forall_app. split; [exact kept_nonempty|repeat constructor; exact Hn].
  - destruct (starts_with_slash p); reflexivity.
Qed.

(** Normalizing is idempotent in what a later [normalize] reads. *)
Lemma normalize_fixed :
  normalize p <> ""
  /\ starts_with_slash (normalize p) = starts_with_slash p
  /\ kept (normalize p) = kept p.
Proof.
  assert (G : normalize p <> ""
              /\ starts_with_slash (normalize p) = starts_with_slash p
              /\ resolveDots (negb (starts_with_slash p)) (segments (normalize p)) []
                 = kept p).
  2:{ destruct G as [G1 [G2 G3]]. repeat split; try assumption.
      unfold kept at 1. rewrite G2. exact G3. }
  unfold normalize.
  destruct (String.eqb_spec p "") as [E|_]; [contradiction|].
  fold (kept p).
  destruct (String.eqb_spec (String.concat "/" (kept p)) "") as [E|NE].
  - apply concat_empty in E; [|exact kept_nonempty]. rewrite E.
    destruct (starts_with_slash p); simpl.
    + repeat split. discriminate.
    + destruct (ends_with_slash p); repeat split; discriminate.
  - assert (Hk : kept p <> []) by (intros E; rewrite E in NE; apply NE; reflexivity).
    assert (Hseg : forall trailing : bool,
               resolveDots (negb (starts_with_slash p))
                 (segments (if trailing then String.concat "/" (kept p) ++ "/"
                            else String.concat "/" (kept p))) [] = kept p).
    { intros [|].
      - change (String.concat "/" (kept p) ++ "/")
          with (String.concat "/" (kept p) ++ String slash "").
        rewrite segments_app, segments_concat by (exact Hk || exact kept_slashfree).
        rewrite resolveDots_app, kept_fixed. simpl. apply rev_involutive.
      - rewrite segments_concat by (exact Hk || exact kept_slashfree).
        exact kept_fixed. }
    assert (Hstart : forall trailing : bool,
               starts_with_slash (if trailing then String.concat "/" (kept p) ++ "/"
                                  else String.concat "/" (kept p)) = false).
    { pose proof kept_slashfree as F. pose proof kept_nonempty as N.
      destruct (kept p) as [|x l]; [congruence|].
      inversion F; inversion N; subst.
      intros [|]; [rewrite starts_with_slash_app by exact NE|];
        apply starts_with_slash_concat; assumption. }
    assert (Hne : forall trailing : bool,
               (if trailing then String.concat "/" (kept p) ++ "/"
                else String.concat "/" (kept p)) <> "").
    { intros [|]; [intros E; apply NE; exact (append_empty _ _ E)|exact NE]. }
    generalize (ends_with_slash p). intros trailing.
    specialize (Hseg trailing). specialize (Hstart trailing). specialize (Hne trailing).
    destruct (starts_with_slash p); simpl.
    + repeat split; [discriminate|exact Hseg].
    + repeat split; assumption.
Qed.
End Normalize.

Lemma normalize_normalized_file (p name : string) :
  p <> "" -> is_name name = true -> slashfree name = true ->
  normalize (normalize p ++ String slash name) = normalize (p ++ String slash name).
Proof.
  intros Hp Hname Hfree.
  destruct (normalize_fixed p Hp) as [Hne [Hstart Hkept]].
  rewrite (normalize_file (normalize p) Hne name Hname Hfree).
  rewrite (normalize_file p Hp name Hname Hfree).
  rewrite Hstart, Hkept. reflexivity.
Qed.

Lemma normalize_name (name : string) :
  is_name name = true -> slashfree name = true -> normalize name = name.
Proof.
  intros Hname Hfree.
  assert (Hn : name <> "") by (intros E; subst; discriminate Hname).
  unfold normalize.
  destruct (String.eqb_spec name "") as [E|_]; [contradiction|].
  assert (Hs : starts_with_slash name = false).
  { destruct name as [|c r]; [congruence|]. simpl in Hfree. apply andb_prop in Hfree.
    simpl. apply negb_true_iff, Hfree. }
  rewrite Hs, (ends_with_slash_slashfree name Hfree), (segments_slashfree name Hfree).
  unfold is_name in Hname. apply andb_prop in Hname. destruct Hname as [H12 H3].
  apply andb_prop in H12. destruct H12 as [H1 H2].
  apply negb_true_iff in H1, H2, H3.
  simpl. rewrite H1, H2, H3. simpl. rewrite H1. reflexivity.
Qed.

(** Joining a file name onto a joined folder is joining all three. *)
Lemma join_nested_file (a b name : string) :
  is_name name = true -> slashfree name = true ->
  join [join [a; b]; name] = join [a; b; name].
Proof.
  intros Hname Hfree.
  assert (Hn : name <> "") by (intros E; subst; discriminate Hname).
  assert (Hlast : forall x, x <> "" ->
            join [x; name] = normalize (x ++ String slash name)).
  { intros x Hx. unfold join. simpl.
    destruct (String.eqb_spec x "") as [E|_]; [contradiction|].
    destruct (String.eqb_spec name "") as [E|_]; [contradiction|]. reflexivity. }
  assert (Hnorm : forall y, y <> "" ->
            join [normalize y; name] = normalize (y ++ String slash name)).
  { intros y Hy. destruct (normalize_fixed y Hy) as [Hne _].
    rewrite (Hlast _ Hne). apply normalize_normalized_file; assumption. }
  unfold join at 2 3. simpl.
  destruct (String.eqb_spec name "") as [E|_]; [contradiction|].
  destruct (String.eqb_spec a "") as [Ea|Ha], (String.eqb_spec b "") as [Eb|Hb]; simpl.
  - rewrite (Hlast "." ltac:(discriminate)).
    rewrite (normalize_file "." ltac:(discriminate) name Hname Hfree).
    rewrite (normalize_name name Hname Hfree). reflexivity.
  - apply Hnorm, Hb.
  - apply Hnorm, Ha.
  - rewrite Hnorm; [rewrite append_assoc; reflexivity|].
    intros E. apply Ha. exact (append_empty _ _ E).
Qed.

End PosixFacts.

Section Endpoints.
Context {S : Type} {P : PathLib} (config : Config).

Lemma eventType_of_lacking (event : value) (w : env) (s : S) :
  lacks_eventType event -> truthy event = true ->
  prop event "eventType" w s = (Ok JUndefined, s, []).
Proof.
  destruct event; simpl; try discriminate; try reflexivity.
  intros H _. rewrite (lookup_absent _ _ H). reflexivity.
Qed.

(** C1. A webhook body that is absent or has no [eventType] gets status 400
    with the fixed text from both endpoints, and neither endpoint performs a
    filesystem operation or an outbound call: the trace holds console lines
    only. *)
Theorem missing_eventType_is_400 (event : value) (w : env) (s : S) :
  lacks_eventType event ->
  (fst (fst (radarr_webhook config event w s)) = Ok invalid_event
   /\ calls (snd (radarr_webhook config event w s)) = [])
  /\ (fst (fst (sonarr_webhook config event w s)) = Ok invalid_event
      /\ calls (snd (sonarr_webhook config event w s)) = []).
Proof.
  intros H.
  unfold radarr_webhook, sonarr_webhook, bind, debugLog; simpl.
  destruct (truthy event) eqn:T; simpl.
  - rewrite (eventType_of_lacking event w s H T). simpl. repeat split.
  - repeat split.
Qed.

(** C8. On equal inputs the two endpoints answer with the same response and
    issue the same sequence of filesystem operations and outbound calls; the
    whole traces coincide after the first console line, which names the
    endpoint. *)
Theorem endpoints_agree (event : value) (w : env) (s : S) :
  fst (fst (radarr_webhook config event w s)) = fst (fst (sonarr_webhook config event w s))
  /\ snd (fst (radarr_webhook config event w s)) = snd (fst (sonarr_webhook config event w s))
  /\ calls (snd (radarr_webhook config event w s)) = calls (snd (sonarr_webhook config event w s))
  /\ tl (snd (radarr_webhook config event w s)) = tl (snd (sonarr_webhook config event w s)).
Proof.
  unfold radarr_webhook, sonarr_webhook.
  match goal with
  | |- context [bind (debugLog [Lit "Radarr Webhook received:"]) ?k] => set (rest := k)
  end.
  unfold bind, debugLog; simpl.
  destruct (rest tt w s) as [[r s'] t]; simpl.
  repeat split.
Qed.

(** C9, amended. A [Download] event of the series variant (no movie
    payload, a series payload) whose [episodes] is absent or the empty list
    makes the handler throw a [TypeError] before any cleanup or rescan: the
    trace has no collaborator call, and both endpoints answer 500. With a
    movie payload the movie branch is taken instead. *)
Theorem series_download_without_episodes
    (fields : list (string * value)) (w : env) (s : S) :
  lookup "eventType" fields = JStr "Download" ->
  truthy (lookup "movie" fields) = false ->
  truthy (lookup "series" fields) = true ->
  lookup "episodes" fields = JUndefined \/ lookup "episodes" fields = JArr [] ->
  (exists what t,
      handleEvent config (JObj fields) w s = (Throw (TypeError what), s, t)
      /\ calls t = [])
  /\ (fst (fst (radarr_webhook config (JObj fields) w s)) = Ok internal_error
      /\ calls (snd (radarr_webhook config (JObj fields) w s)) = [])
  /\ (fst (fst (sonarr_webhook config (JObj fields) w s)) = Ok internal_error
      /\ calls (snd (sonarr_webhook config (JObj fields) w s)) = []).
Proof.
  intros Hty Hmovie Hseries Hepisodes.
  unfold radarr_webhook, sonarr_webhook, handleEvent, handleDownloadSeries,
    try_catch, bind, debugLog; simpl.
  rewrite Hty, Hmovie, Hseries; simpl.
  destruct Hepisodes as [He|He]; rewrite He; simpl.
  - split; [exists "0"; eexists; split; reflexivity|]. repeat split.
  - split; [exists "seasonNumber"; eexists; split; reflexivity|]. repeat split.
Qed.
End Endpoints.

Section Rescan.
Context {S : Type} (config : Config).

(** A rescan never throws and issues its one request where the URL can be
    built, whatever the media server answers. *)
Lemma notifyPlexFolderRefresh_calls (folderPath : string) (w : env) (s : S) :
  exists t,
    notifyPlexFolderRefresh config folderPath w s = (Ok tt, s, t)
    /\ calls t = rescan_calls config folderPath.
Proof.
  unfold notifyPlexFolderRefresh, rescan_calls, try_catch, bind, invoke, emit, built; simpl.
  destruct (refresh_url config folderPath) as [url|]; simpl;
    [|eexists; split; reflexivity].
  destruct (respond w (AxiosGet url)) as [v|e]; simpl.
  - destruct v; simpl; try (eexists; split; reflexivity).
    destruct (is_num (lookup "status" fields) 200); simpl;
      [eexists; split; reflexivity|].
    unfold interpolate.
    destruct (to_string (lookup "status" fields)); simpl; eexists; split; reflexivity.
  - eexists; split; reflexivity.
Qed.

Lemma rescan_calls_of_url (folderPath url : string) :
  refresh_url config folderPath = Some url ->
  rescan_calls config folderPath = [AxiosGet url].
Proof. intros E. unfold rescan_calls. rewrite E. reflexivity. Qed.
End Rescan.

Lemma interpolate_of_text {S : Type} (v : value) (text : string) (w : env) (s : S) :
  to_string v = Some text -> interpolate v w s = (Ok text, s, []).
Proof. intros E. unfold interpolate. rewrite E. reflexivity. Qed.

Lemma converts_text (v : value) : converts v = true -> exists text, to_string v = Some text.
Proof.
  unfold converts. destruct (to_string v) as [text|]; [|discriminate].
  intros _. exists text. reflexivity.
Qed.

Lemma interpolate_fails {S : Type} (v : value) (w : env) (s : S) :
  converts v = false -> interpolate v w s = (Throw cannot_convert, s, []).
Proof.
  unfold converts, interpolate. destruct (to_string v); [discriminate|reflexivity].
Qed.

Section MovieAdded.
Context {S : Type} {P : PathLib} (config : Config).

(** The calls of the [MovieAdded] case, for any implementation of [path],
    with the paths as the source computes them. *)
Lemma movie_added_calls
    (fields movie : list (string * value)) (folder url : string) (w : env) (s : S) :
  lookup "eventType" fields = JStr "MovieAdded" ->
  lookup "movie" fields = JObj movie ->
  lookup "folderPath" movie = JStr folder ->
  converts (lookup "title" movie) = true ->
  refresh_url config folder = Some url ->
  (forall c, is_filesystem c = true -> returns w c) ->
  let dummyFolder := path_join [MOVIE_FOLDER_DUMMY config; path_basename folder] in
  let dummyFile := path_join [dummyFolder; "dummy.mp4"] in
  let libraryFolder := path_join [PLEX_MOVIE_FOLDER config; path_basename folder] in
  exists t,
    handleEvent config (JObj fields) w s = (Ok tt, s, t)
    /\ calls t = [EnsureDirectoryExists dummyFolder;
                  CreateDummyFile (DUMMY_FILE_LOCATION config) dummyFile;
                  CreateSymlink dummyFile libraryFolder;
                  AxiosGet url].
Proof.
  intros Hty Hmovie Hfolder Htitle Hurl Hfs dummyFolder dummyFile libraryFolder.
  destruct (converts_text _ Htitle) as [text Etext].
  destruct (Hfs (EnsureDirectoryExists dummyFolder) eq_refl) as [v1 E1].
  destruct (Hfs (CreateDummyFile (DUMMY_FILE_LOCATION config) dummyFile) eq_refl)
    as [v2 E2].
  destruct (Hfs (CreateSymlink dummyFile libraryFolder) eq_refl) as [v3 E3].
  destruct (notifyPlexFolderRefresh_calls config folder w s) as [tn [En Cn]].
  rewrite (rescan_calls_of_url config folder url Hurl) in Cn.
  unfold handleEvent, handleMovieAdded, call_notifyPlexFolderRefresh,
    bind, debugLog, invoke, PLACEHOLDER; simpl.
  rewrite Hty; simpl. rewrite Hmovie; simpl. rewrite Hfolder; simpl.
  rewrite (interpolate_of_text _ text w s Etext); simpl.
  fold dummyFolder. fold dummyFile. fold libraryFolder.
  rewrite E1, E2, E3, En; simpl.
  eexists; split; [reflexivity|]. simpl. rewrite Cn. reflexivity.
Qed.
End MovieAdded.

(** C2, amended. A [MovieAdded] event whose movie payload has the folder
    path [folder], a path without lone surrogate, and a title with a string
    conversion, handled while the filesystem operations succeed, issues
    exactly these calls in this order: create the directory [join(dummyRoot,
    basename(folder))], create the dummy file [join(dummyRoot,
    basename(folder), "dummy.mp4")] from the template, create the symlink at
    [join(libraryRoot, basename(folder))] for that dummy file, request one
    rescan for [folder]. [join] and [basename] are those of POSIX [path]. *)
Theorem movie_added_effects {S : Type} (config : Config)
    (fields movie : list (string * value)) (folder url : string) (w : env) (s : S) :
  lookup "eventType" fields = JStr "MovieAdded" ->
  lookup "movie" fields = JObj movie ->
  lookup "folderPath" movie = JStr folder ->
  converts (lookup "title" movie) = true ->
  refresh_url config folder = Some url ->
  (forall c, is_filesystem c = true -> returns w c) ->
  let dummyFolder := Posix.join [MOVIE_FOLDER_DUMMY config; Posix.basename folder] in
  let dummyFile :=
    Posix.join [MOVIE_FOLDER_DUMMY config; Posix.basename folder; "dummy.mp4"] in
  let libraryFolder := Posix.join [PLEX_MOVIE_FOLDER config; Posix.basename folder] in
  exists t,
    handleEvent (P := posix) config (JObj fields) w s = (Ok tt, s, t)
    /\ calls t = [EnsureDirectoryExists dummyFolder;
                  CreateDummyFile (DUMMY_FILE_LOCATION config) dummyFile;
                  CreateSymlink dummyFile libraryFolder;
                  AxiosGet url]
    /\ url = PLEX_URL config ++ "/library/sections/" ++ PLEX_LIBRARY_ID config
             ++ "/refresh?X-Plex-Token=" ++ PLEX_TOKEN config
             ++ "&path=" ++ percent_encode folder.
Proof.
  intros Hty Hmovie Hfolder Htitle Hurl Hfs dummyFolder dummyFile libraryFolder.
  destruct (movie_added_calls (P := posix) config fields movie folder url w s
              Hty Hmovie Hfolder Htitle Hurl Hfs) as [t [E C]].
  exists t. split; [exact E|]. split.
  - rewrite C. simpl path_join. simpl path_basename.
    rewrite (PosixFacts.join_nested_file _ _ "dummy.mp4" eq_refl eq_refl).
    reflexivity.
  - unfold refresh_url, encodeURIComponent in Hurl.
    destruct (lone_surrogate folder); [discriminate|].
    injection Hurl as <-. reflexivity.
Qed.

(** C2, counterexample. The title of the movie payload is an object with a
    key [toString]: the template literal of the log line throws before
    anything is created, no call is issued and the endpoint answers 500. *)
Lemma movie_added_with_unprintable_title :
  lookup "folderPath" Cases.unprintable_title = JStr "/media/Inception (2010)"
  /\ fst (fst (handleEvent (S := unit) Sample.config (JObj Cases.movie_added_unprintable)
                 Sample.healthy tt))
     = Throw cannot_convert
  /\ calls (snd (handleEvent (S := unit) Sample.config (JObj Cases.movie_added_unprintable)
                   Sample.healthy tt)) = []
  /\ fst (fst (radarr_webhook (S := unit) Sample.config (JObj Cases.movie_added_unprintable)
                 Sample.healthy tt))
     = Ok internal_error.
Proof. repeat split. Qed.

Section DownloadMovie.
Context {S : Type} {P : PathLib} (config : Config).

Ltac split_cases :=
  repeat (simpl;
    match goal with
    | |- context [match respond ?w ?c with _ => _ end] =>
        destruct (respond w c) as [?v|?e]
    | |- context [match Number_of ?v with _ => _ end] =>
        destruct (Number_of v)
    | |- context [if ?b then _ else _] => destruct b
    | |- context [match ?v with _ => _ end] =>
        match type of v with value => destruct v end
    end).

(** The secondary backend block keeps the state and issues calls to the
    secondary backend only, whether it completes or throws. *)
Lemma secondaryBackend_calls (movie : list (string * value)) (w : env) (s : S) :
  exists r t,
    secondaryBackend config (JObj movie) w s = (r, s, t)
    /\ Forall (fun c => is_secondary c = true) (calls t).
Proof.
  unfold secondaryBackend, destructure2, prop_opt, prop, bind, debugLog, invoke,
    toNumber, ret, throw.
  destruct (truthy (RADARR_4K_URL config));
    [|do 2 eexists; split; [reflexivity|constructor]].
  simpl.
  destruct (respond w _) as [answer|e];
    [|do 2 eexists; split; [reflexivity|repeat constructor]].
  destruct answer as [| | | |str|items|fs];
    try (do 2 eexists; split; [reflexivity|repeat constructor]).
  - generalize (first_char str),
      (match str with String _ rest => first_char rest | EmptyString => JUndefined end).
    intros exists_ movieDetails.
    split_cases; do 2 eexists; (split; [reflexivity|simpl; repeat constructor]).
  - generalize (nth 0 items JUndefined), (nth 1 items JUndefined).
    intros exists_ movieDetails.
    split_cases; do 2 eexists; (split; [reflexivity|simpl; repeat constructor]).
Qed.

Lemma secondary_is_no_request (cs : list call) (url : string) :
  Forall (fun c => is_secondary c = true) cs -> ~ In (AxiosGet url) cs.
Proof.
  intros F H. rewrite Forall_forall in F. specialize (F _ H). discriminate.
Qed.

(** C6, amended. For a [Download] event with a movie payload whose folder
    path is a string without lone surrogate and whose title has a string
    conversion: when the removal of the dummy file, the removal of the dummy
    folder and the secondary backend block complete, handling completes and
    its last call is the rescan for the movie's folder, after the two
    removals and after whatever the secondary block called; when one of them
    throws, handling throws and no rescan is issued. *)
Theorem download_movie_rescan
    (fields movie : list (string * value)) (folder url : string) (w : env) (s : S) :
  lookup "eventType" fields = JStr "Download" ->
  lookup "movie" fields = JObj movie ->
  lookup "folderPath" movie = JStr folder ->
  converts (lookup "title" movie) = true ->
  refresh_url config folder = Some url ->
  let dummyFolder := path_join [MOVIE_FOLDER_DUMMY config; path_basename folder] in
  exists secondary ts,
    secondaryBackend config (JObj movie) w s = (secondary, s, ts)
    /\ Forall (fun c => is_secondary c = true) (calls ts)
    /\ (returns w (CleanUpDummyFile folder) ->
        returns w (RemoveDummyFolder dummyFolder) ->
        secondary = Ok tt ->
        exists t,
          handleEvent config (JObj fields) w s = (Ok tt, s, t)
          /\ calls t = (CleanUpDummyFile folder :: RemoveDummyFolder dummyFolder
                        :: calls ts ++ [AxiosGet url])%list)
    /\ (~ (returns w (CleanUpDummyFile folder)
           /\ returns w (RemoveDummyFolder dummyFolder)
           /\ secondary = Ok tt) ->
        exists e t,
          handleEvent config (JObj fields) w s = (Throw e, s, t)
          /\ forall u, ~ In (AxiosGet u) (calls t)).
Proof.
  intros Hty Hmovie Hfolder Htitle Hurl dummyFolder.
  destruct (converts_text _ Htitle) as [text Etext].
  destruct (secondaryBackend_calls movie w s) as [rs [ts [Es Fs]]].
  destruct (notifyPlexFolderRefresh_calls config folder w s) as [tn [En Cn]].
  rewrite (rescan_calls_of_url config folder url Hurl) in Cn.
  exists rs, ts. split; [exact Es|]. split; [exact Fs|].
  unfold handleEvent, handleDownloadMovie, call_notifyPlexFolderRefresh,
    bind, debugLog, invoke; simpl.
  rewrite Hty; simpl. rewrite Hmovie; simpl. rewrite Hfolder; simpl.
  rewrite (interpolate_of_text _ text w s Etext); simpl.
  fold dummyFolder.
  destruct (respond w (CleanUpDummyFile folder)) as [v1|e1] eqn:E1; simpl.
  2:{ split.
      - intros [v Hv]. congruence.
      - intros _. do 2 eexists; split; [reflexivity|]. simpl.
        intros u [H|[]]; discriminate. }
  destruct (respond w (RemoveDummyFolder dummyFolder)) as [v2|e2] eqn:E2; simpl.
  2:{ split.
      - intros _ [v Hv]. congruence.
      - intros _. do 2 eexists; split; [reflexivity|]. simpl.
        intros u [H|[H|[]]]; discriminate. }
  rewrite Es. destruct rs as [[]|e]; simpl.
  - rewrite En; simpl. split.
    + intros _ _ _. eexists; split; [reflexivity|].
      simpl. rewrite !calls_app, Cn. reflexivity.
    + intros Hnot. exfalso. apply Hnot.
      split; [exists v1; exact E1|]. split; [exists v2; exact E2|reflexivity].
  - split.
    + intros _ _ Hok. discriminate Hok.
    + intros _. do 2 eexists; split; [reflexivity|]. simpl.
      intros u [H|[H|H]]; try discriminate.
      exact (secondary_is_no_request _ _ Fs H).
Qed.
End DownloadMovie.

(** C6, counterexample. With the secondary backend configured and
    unreachable, handling a movie [Download] removes the placeholder, fails at
    the existence check and issues no rescan; the endpoint answers 500. *)
Lemma download_movie_without_rescan :
  fst (fst (handleEvent (S := unit) Sample.config4K (JObj Sample.movie_download)
              Sample.secondary_down tt))
    = Throw (Rejection "connect ECONNREFUSED")
  /\ calls (snd (handleEvent (S := unit) Sample.config4K (JObj Sample.movie_download)
                   Sample.secondary_down tt))
     = [CleanUpDummyFile "/media/Inception (2010)";
        RemoveDummyFolder "/infiniteplexlibrary/movies/Inception (2010)";
        CheckMovieInRadarr (JNum 27205) (JStr "http://radarr4k:7878/api/v3") (JStr "key")]
  /\ fst (fst (radarr_webhook (S := unit) Sample.config4K (JObj Sample.movie_download)
                 Sample.secondary_down tt))
     = Ok internal_error.
Proof. repeat split. Qed.

(** C6, an instance: the secondary backend answers that the movie is unknown,
    the movie is added there, and the rescan comes last. *)
Lemma download_movie_rescan_witness :
  exists t,
    handleEvent (S := unit) Sample.config4K (JObj Sample.movie_download)
      Sample.healthy tt = (Ok tt, tt, t)
    /\ calls t
       = [CleanUpDummyFile "/media/Inception (2010)";
          RemoveDummyFolder "/infiniteplexlibrary/movies/Inception (2010)";
          CheckMovieInRadarr (JNum 27205) (JStr "http://radarr4k:7878/api/v3") (JStr "key");
          AddMovieToRadarr (JNum 27205) (JStr "/media4k") (Finite 5) true true
            (JStr "http://radarr4k:7878/api/v3") (JStr "key") ["infiniteplexlibrary"];
          AxiosGet "http://plex:32400/library/sections/1/refresh?X-Plex-Token=token&path=%2Fmedia%2FInception%20(2010)"].
Proof.
  destruct (download_movie_rescan (S := unit) Sample.config4K Sample.movie_download
              Sample.inception "/media/Inception (2010)"
              "http://plex:32400/library/sections/1/refresh?X-Plex-Token=token&path=%2Fmedia%2FInception%20(2010)"
              Sample.healthy tt eq_refl eq_refl eq_refl eq_refl eq_refl)
    as [secondary [ts [Es [_ [Hok _]]]]].
  cbv in Es. injection Es as <- <-.
  destruct Hok as [t [E C]].
  - exists JUndefined. reflexivity.
  - exists JUndefined. reflexivity.
  - reflexivity.
  - exists t. split; [exact E|exact C].
Defined.

(** C7, in general: whatever library id the caller hands over, the request
    goes to the section [PLEX_LIBRARY_ID] of the configuration. *)
Lemma rescan_section_is_configured {S : Type} (config : Config)
    (folderPath libraryId path : string) (w : env) (s : S) :
  encodeURIComponent folderPath = Some path ->
  calls (snd (call_notifyPlexFolderRefresh config folderPath libraryId w s))
  = [AxiosGet (PLEX_URL config ++ "/library/sections/" ++ PLEX_LIBRARY_ID config
               ++ "/refresh?X-Plex-Token=" ++ PLEX_TOKEN config
               ++ "&path=" ++ path)].
Proof.
  intros Hpath. unfold call_notifyPlexFolderRefresh.
  destruct (notifyPlexFolderRefresh_calls config folderPath w s) as [t [E C]].
  rewrite E. cbn [snd]. rewrite C. unfold rescan_calls, refresh_url.
  rewrite Hpath. reflexivity.
Qed.

(** C7, at the failing input. The series library is section 2 and
    [PLEX_LIBRARY_ID] is 1: the rescan that a series [Download] requests with
    the series library id goes to section 1. *)
Theorem series_rescan_section :
  PLEX_SERIES_LIBRARY_ID Sample.config = "2"
  /\ calls (snd (call_notifyPlexFolderRefresh (S := unit) Sample.config "/tv/Dark"
                   (PLEX_SERIES_LIBRARY_ID Sample.config) Sample.healthy tt))
     = [AxiosGet "http://plex:32400/library/sections/1/refresh?X-Plex-Token=token&path=%2Ftv%2FDark"]
  /\ calls (snd (handleEvent (S := unit) Sample.config (JObj Sample.series_download)
                   Sample.healthy tt))
     = [CleanUpDummyFile "/infiniteplexlibrary/series/Dark/Season 2";
        RemoveDummyFolder "/infiniteplexlibrary/series/Dark/Season 2";
        AxiosGet "http://plex:32400/library/sections/1/refresh?X-Plex-Token=token&path=%2Ftv%2FDark"].
Proof. repeat split. Qed.

(** ** The timer *)

Lemma count_app (f : call -> bool) (t1 t2 : trace) :
  count f (t1 ++ t2)%list = count f t1 + count f t2.
Proof.
  unfold count. rewrite calls_app, filter_app, length_app. reflexivity.
Qed.

Lemma attempts_bumps (n : nat) (p : poller) : attempts (bumps n p) = n + attempts p.
Proof.
  revert p; induction n as [|n IH]; intros p; simpl; [reflexivity|].
  rewrite IH. simpl. lia.
Qed.

Lemma intervalActive_bumps (n : nat) (p : poller) :
  intervalActive (bumps n p) = intervalActive p.
Proof. revert p; induction n as [|n IH]; intros p; simpl; [|rewrite IH]; reflexivity. Qed.

Lemma resolveCalls_bumps (n : nat) (p : poller) :
  resolveCalls (bumps n p) = resolveCalls p.
Proof. revert p; induction n as [|n IH]; intros p; simpl; [|rewrite IH]; reflexivity. Qed.

Section TimerFacts.
Variables (callback : proc) (world : nat -> env) (delay : nat -> call -> N).

(** Nothing waits and the interval is cleared: the loop has ended. *)
Lemma runTimer_quiet (fuel k : nat) (p : poller) (before : trace) :
  intervalActive p = false ->
  runTimer callback world delay fuel
    {| closure := p; waiting := []; fired := k; output := before; failure := None |}
  = {| final := p; effects := before; ticks := k; crashed := None; outstanding := 0 |}.
Proof. intros H. destruct fuel; simpl; [|rewrite H]; reflexivity. Qed.

(** A rejection has ended the loop. *)
Lemma runTimer_failed (fuel : nat) (st : loop) (e : exn) :
  failure st = Some e -> runTimer callback world delay fuel st = finished st.
Proof. intros H. destruct fuel; simpl; [|rewrite H]; reflexivity. Qed.

Lemma runTimer_fire (fuel k : nat) (p : poller) (before : trace) :
  intervalActive p = true ->
  runTimer callback world delay (Datatypes.S fuel)
    {| closure := p; waiting := []; fired := k; output := before; failure := None |}
  = runTimer callback world delay fuel
      (perform world delay (N.of_nat (Datatypes.S k) * intervalDelay) (Datatypes.S k)
         callback
         {| closure := p; waiting := []; fired := Datatypes.S k; output := before;
            failure := None |}).
Proof. intros H. cbn [runTimer failure waiting earliest closure fired output]. rewrite H. reflexivity. Qed.

Lemma runTimer_resume (fuel k : nat) (p : poller) (before : trace) (j : job) :
  (jobDue j <= N.of_nat (Datatypes.S k) * intervalDelay)%N ->
  runTimer callback world delay (Datatypes.S fuel)
    {| closure := p; waiting := [j]; fired := k; output := before; failure := None |}
  = runTimer callback world delay fuel
      (perform world delay (jobDue j) (jobFiring j) (jobRest j)
         {| closure := p; waiting := []; fired := k; output := before; failure := None |}).
Proof.
  intros H. cbn [runTimer failure waiting earliest closure fired output].
  apply N.ltb_ge in H. rewrite H, andb_false_r. reflexivity.
Qed.

Lemma perform_sync (A : Type) (m : M poller A) (kont : result A -> proc)
    (now : N) (k i : nat) (p p1 : poller) (r : result A) (t1 before : trace)
    (js : list job) :
  m (world k) p = (r, p1, t1) ->
  perform world delay now k (Sync A m kont)
    {| closure := p; waiting := js; fired := i; output := before; failure := None |}
  = perform world delay now k (kont r)
      {| closure := p1; waiting := js; fired := i; output := (before ++ t1)%list;
         failure := None |}.
Proof.
  intros E. unfold perform. cbn [advance closure waiting fired output]. rewrite E.
  destruct (advance (kont r) (world k) p1) as [[z p2] t2].
  destruct z; rewrite app_assoc; reflexivity.
Qed.

(** A callback that is alone on the loop and whose answers all come in
    before the next firing goes through as if every [await] were answered on
    the spot. *)
Lemma resume_alone (q : proc) :
  forall (now : N) (k : nat) (p : poller) (before : trace) (fuel : nat),
    (now + duration q (world k) (delay k) p
     < N.of_nat (Datatypes.S k) * intervalDelay)%N ->
    runTimer callback world delay (awaits q (world k) p + fuel)
      (perform world delay now k q
         {| closure := p; waiting := []; fired := k; output := before; failure := None |})
    = runTimer callback world delay fuel
        (landed k before (atomically q (world k) p)).
Proof.
  induction q as [|e|A m kont IH|c kont IH]; intros now k p before fuel Hd.
  - reflexivity.
  - reflexivity.
  - cbn [awaits duration atomically] in *.
    destruct (m (world k) p) as [[r p1] t1] eqn:E.
    rewrite (perform_sync A m kont now k k p p1 r t1 before [] E).
    rewrite (IH r now k p1 (before ++ t1)%list fuel Hd).
    destruct (atomically (kont r) (world k) p1) as [[r' p2] t2].
    unfold landed. rewrite app_assoc. reflexivity.
  - cbn [awaits duration atomically] in *.
    unfold perform at 1. cbn [advance closure waiting fired output app].
    cbn [Nat.add].
    rewrite runTimer_resume by (cbn [jobDue]; lia).
    cbn [jobDue jobFiring jobRest].
    rewrite (IH (respond (world k) c) (now + delay k c)%N k p
               (before ++ [Invoke c])%list fuel) by lia.
    destruct (atomically (kont (respond (world k) c)) (world k) p) as [[r' p2] t2].
    unfold landed. rewrite <- app_assoc. reflexivity.
Qed.

(** A firing on a loop where nothing waits. *)
Lemma firing_alone (k : nat) (p : poller) (before : trace) (fuel : nat) :
  intervalActive p = true ->
  (duration callback (world (Datatypes.S k)) (delay (Datatypes.S k)) p < intervalDelay)%N ->
  runTimer callback world delay
    (Datatypes.S (awaits callback (world (Datatypes.S k)) p + fuel))
    {| closure := p; waiting := []; fired := k; output := before; failure := None |}
  = runTimer callback world delay fuel
      (landed (Datatypes.S k) before (atomically callback (world (Datatypes.S k)) p)).
Proof.
  intros Hact Hd. rewrite runTimer_fire by exact Hact.
  apply resume_alone. rewrite (Nat2N.inj_succ (Datatypes.S k)). lia.
Qed.

(** Firings [k+1 .. k+n], each of a callback that goes through alone, leaves
    the poller waiting and contributes [c] calls of the kind [f] on [a]
    awaits: the loop goes on from firing [k+n]. *)
Lemma runTimer_waiting (f : call -> bool) (c a : nat) (n : nat) :
  forall (k : nat) (p : poller) (before : trace) (fuel : nat),
    intervalActive p = true ->
    (forall j q, k < j <= k + n -> intervalActive q = true ->
                 resolveCalls q = resolveCalls p ->
                 attempts q + k = attempts p + (j - 1) ->
                 exists t,
                   atomically callback (world j) q = (Ok tt, bump q, t)
                   /\ count f t = c
                   /\ awaits callback (world j) q = a
                   /\ (duration callback (world j) (delay j) q < intervalDelay)%N) ->
    exists t,
      count f t = n * c
      /\ runTimer callback world delay (n * Datatypes.S a + fuel)
           {| closure := p; waiting := []; fired := k; output := before; failure := None |}
         = runTimer callback world delay fuel
             {| closure := bumps n p; waiting := []; fired := k + n;
                output := (before ++ t)%list; failure := None |}.
Proof.
  induction n as [|n IH]; intros k p before fuel Hact Hticks.
  - exists []. split; [reflexivity|]. rewrite Nat.add_0_r, app_nil_r. reflexivity.
  - destruct (Hticks (Datatypes.S k) p) as [t1 [E1 [C1 [A1 D1]]]];
      [lia|exact Hact|reflexivity|lia|].
    destruct (IH (Datatypes.S k) (bump p) (before ++ t1)%list fuel) as [t2 [C2 E2]].
    + exact Hact.
    + intros j q Hj Hq Hr Ha. apply Hticks; [lia|exact Hq|exact Hr|].
      simpl in Ha. lia.
    + exists (t1 ++ t2)%list. split; [rewrite count_app, C1, C2; simpl; lia|].
      replace (Datatypes.S n * Datatypes.S a + fuel)
        with (Datatypes.S (awaits callback (world (Datatypes.S k)) p
                           + (n * Datatypes.S a + fuel))) by (rewrite A1; lia).
      rewrite (firing_alone k p before _ Hact D1), E1.
      unfold landed. rewrite E2.
      replace (Datatypes.S k + n) with (k + Datatypes.S n) by lia.
      rewrite app_assoc. reflexivity.
Qed.

(** A firing that goes through alone and clears the interval is the last
    one, whatever fuel is left. *)
Lemma runTimer_last (k : nat) (p p' : poller) (t before : trace) (fuel : nat) :
  intervalActive p = true ->
  atomically callback (world (Datatypes.S k)) p = (Ok tt, p', t) ->
  intervalActive p' = false ->
  (duration callback (world (Datatypes.S k)) (delay (Datatypes.S k)) p < intervalDelay)%N ->
  runTimer callback world delay
    (Datatypes.S (awaits callback (world (Datatypes.S k)) p + fuel))
    {| closure := p; waiting := []; fired := k; output := before; failure := None |}
  = {| final := p'; effects := (before ++ t)%list; ticks := Datatypes.S k;
       crashed := None; outstanding := 0 |}.
Proof.
  intros Hact E Hoff Hd.
  rewrite (firing_alone k p before fuel Hact Hd), E. unfold landed.
  apply runTimer_quiet, Hoff.
Qed.

(** A callback that counts one attempt per firing, clears the interval at
    the ceiling at the latest and always goes through alone stops within the
    attempts left, and more fuel changes nothing. *)
Lemma runTimer_settles (bound : nat) :
  (forall w p, polling p ->
     exists r p' t,
       atomically callback w p = (r, p', t)
       /\ attempts p' = Datatypes.S (attempts p)
       /\ match r with
          | Ok _ => (polling p' /\ attempts p' < maxRetries) \/ settled p'
          | Throw _ => polling p'
          end) ->
  (forall w p, awaits callback w p <= bound) ->
  (forall k p, (duration callback (world k) (delay k) p < intervalDelay)%N) ->
  forall n k p before,
    polling p ->
    attempts p + Datatypes.S n = maxRetries ->
    exists r,
      (forall fuel, Datatypes.S n * Datatypes.S bound <= fuel ->
         runTimer callback world delay fuel
           {| closure := p; waiting := []; fired := k; output := before; failure := None |}
         = r)
      /\ k + 1 <= ticks r <= k + Datatypes.S n
      /\ outstanding r = 0
      /\ match crashed r with
         | Some _ => polling (final r)
         | None => settled (final r)
         end.
Proof.
  intros Htick Hbound Htimely.
  assert (Hstep : forall k p before fuel,
             polling p ->
             Datatypes.S bound <= fuel ->
             runTimer callback world delay fuel
               {| closure := p; waiting := []; fired := k; output := before;
                  failure := None |}
             = runTimer callback world delay
                 (fuel - Datatypes.S (awaits callback (world (Datatypes.S k)) p))
                 (landed (Datatypes.S k) before
                    (atomically callback (world (Datatypes.S k)) p))).
  { intros k p before fuel [Hact _] Hfuel.
    pose proof (Hbound (world (Datatypes.S k)) p) as Hb.
    replace fuel with
      (Datatypes.S (awaits callback (world (Datatypes.S k)) p
                    + (fuel - Datatypes.S (awaits callback (world (Datatypes.S k)) p))))
      at 1 by lia.
    apply firing_alone; [exact Hact|apply Htimely]. }
  induction n as [|n IH]; intros k p before Hp Hleft;
    destruct (Htick (world (Datatypes.S k)) p Hp) as [r [p' [t [E [Ha Hr]]]]].
  - destruct r as [u|e].
    + destruct Hr as [[_ Hlt]|[Hoff Hdone]]; [lia|].
      exists {| final := p'; effects := (before ++ t)%list; ticks := Datatypes.S k;
                crashed := None; outstanding := 0 |}.
      split.
      * intros fuel Hfuel. rewrite (Hstep k p before fuel Hp) by lia.
        rewrite E. unfold landed. apply runTimer_quiet, Hoff.
      * cbn [ticks outstanding crashed final]. repeat split; try lia; assumption.
    + exists {| final := p'; effects := (before ++ t)%list; ticks := Datatypes.S k;
                crashed := Some e; outstanding := 0 |}.
      split.
      * intros fuel Hfuel. rewrite (Hstep k p before fuel Hp) by lia.
        rewrite E. unfold landed. erewrite runTimer_failed by reflexivity. reflexivity.
      * cbn [ticks outstanding crashed final]. repeat split; try lia; apply Hr.
  - destruct r as [u|e].
    + destruct Hr as [[Hpoll _]|[Hoff Hdone]].
      * destruct (IH (Datatypes.S k) p' (before ++ t)%list Hpoll) as [r [Hr1 [Hr2 [Hr3 Hr4]]]];
          [lia|].
        exists r. split; [|repeat split; try lia; assumption].
        intros fuel Hfuel. rewrite (Hstep k p before fuel Hp) by lia.
        rewrite E. unfold landed. apply Hr1.
        pose proof (Hbound (world (Datatypes.S k)) p). simpl in *. nia.
      * exists {| final := p'; effects := (before ++ t)%list; ticks := Datatypes.S k;
                  crashed := None; outstanding := 0 |}.
        split.
        -- intros fuel Hfuel. rewrite (Hstep k p before fuel Hp) by (simpl in *; lia).
           rewrite E. unfold landed. apply runTimer_quiet, Hoff.
        -- cbn [ticks outstanding crashed final]. repeat split; try lia; assumption.
    + exists {| final := p'; effects := (before ++ t)%list; ticks := Datatypes.S k;
                crashed := Some e; outstanding := 0 |}.
      split.
      * intros fuel Hfuel. rewrite (Hstep k p before fuel Hp) by (simpl in *; lia).
        rewrite E. unfold landed. erewrite runTimer_failed by reflexivity. reflexivity.
      * cbn [ticks outstanding crashed final]. repeat split; try lia; apply Hr.
Qed.
End TimerFacts.

(** ** Movie mode *)

(** The source's test is the specification's condition. *)
Lemma movieAvailable_ready (movie : value) (w : env) (p : poller) :
  movieAvailable movie w p = (Ok (movie_ready movie), p, []).
Proof.
  unfold movieAvailable, movie_ready, has_file, relative_path, prop_opt, prop,
    bind, ret, PLACEHOLDER.
  destruct movie as [| |b|n|str|items|fields]; simpl; try reflexivity.
  - destruct b; reflexivity.
  - destruct (negb (n =? 0)%Z); reflexivity.
  - destruct (negb (str =? "")); reflexivity.
  - destruct (truthy (lookup "hasFile" fields)); simpl; [|reflexivity].
    destruct (lookup "movieFile" fields); reflexivity.
Qed.

Section MovieMode.
Variables (movieId : Z) (ratingKey originalFilePath movieDescription : string).

Lemma movieTick_waiting (w : env) (p : poller) (movie downloading : value) :
  movie_status movieId w movie downloading ->
  movie_ready movie = false ->
  exists t,
    movieTick movieId originalFilePath w p = (Ok tt, after_waiting p, t)
    /\ count is_stop_playback t = 0.
Proof.
  intros [Hm Hd] Hready.
  unfold movieTick, bind, invoke, incrementAttempts, clearInterval, resolve,
    modify, get_state, debugLog, after_waiting, bump.
  cbn -[Nat.leb movieAvailable]. rewrite Hm, Hd.
  destruct (truthy downloading); cbn -[Nat.leb movieAvailable];
    rewrite movieAvailable_ready, Hready; cbn -[Nat.leb];
    destruct (maxRetries <=? Datatypes.S (attempts p))%nat; cbn;
    eexists; split; reflexivity.
Qed.

Lemma movieTick_ready (w : env) (p : poller) (movie downloading answer : value) :
  movie_status movieId w movie downloading ->
  movie_ready movie = true ->
  respond w (TerminateStreamByFile originalFilePath) = Returned answer ->
  exists t,
    movieTick movieId originalFilePath w p = (Ok tt, after_ready p, t)
    /\ calls t = [GetMovieStatus movieId; IsMovieDownloading movieId;
                  TerminateStreamByFile originalFilePath].
Proof.
  intros [Hm Hd] Hready Hstop.
  unfold movieTick, bind, invoke, incrementAttempts, clearInterval, resolve,
    modify, get_state, debugLog, after_ready.
  cbn -[Nat.leb movieAvailable]. rewrite Hm, Hd.
  destruct (truthy downloading); cbn -[Nat.leb movieAvailable];
    rewrite movieAvailable_ready, Hready; cbn -[Nat.leb]; rewrite Hstop;
    cbn -[Nat.leb];
    destruct (maxRetries <=? Datatypes.S (attempts p))%nat; cbn;
    rewrite <- ?app_assoc; eexists; split; reflexivity.
Qed.
End MovieMode.

Section MovieCallback.
Variables (movieId : Z) (originalFilePath : string).

(** The split callback, with every [await] answered on the spot, is the
    callback run from its first statement to its last. *)
Lemma movieCallback_atomically (w : env) (p : poller) :
  atomically (movieCallback movieId originalFilePath) w p
  = movieTick movieId originalFilePath w p.
Proof.
  unfold movieCallback, movieTick, sync, await, bind, invoke, incrementAttempts,
    clearInterval, resolve, modify, get_state, debugLog.
  cbn -[Nat.leb movieAvailable].
  destruct (respond w (GetMovieStatus movieId)) as [movie|e];
    cbn -[Nat.leb movieAvailable]; [|reflexivity].
  destruct (respond w (IsMovieDownloading movieId)) as [downloading|e];
    cbn -[Nat.leb movieAvailable]; [|reflexivity].
  destruct (truthy downloading); cbn -[Nat.leb movieAvailable];
    rewrite !movieAvailable_ready; destruct (movie_ready movie); cbn -[Nat.leb];
    try (destruct (respond w (TerminateStreamByFile originalFilePath)) as [v|e];
         cbn -[Nat.leb]);
    try (destruct (maxRetries <=? Datatypes.S (attempts p))%nat; cbn);
    reflexivity.
Qed.

Lemma movieCallback_awaits (w : env) (p : poller) :
  awaits (movieCallback movieId originalFilePath) w p <= 3.
Proof.
  unfold movieCallback, sync, await, bind, incrementAttempts, modify, debugLog.
  cbn -[Nat.leb movieAvailable].
  destruct (respond w (GetMovieStatus movieId)) as [movie|e];
    cbn -[Nat.leb movieAvailable]; [|lia].
  destruct (respond w (IsMovieDownloading movieId)) as [downloading|e];
    cbn -[Nat.leb movieAvailable]; [|lia].
  destruct (truthy downloading); cbn -[Nat.leb movieAvailable];
    rewrite !movieAvailable_ready; destruct (movie_ready movie); cbn -[Nat.leb];
    try (destruct (respond w (TerminateStreamByFile originalFilePath)) as [v|e];
         cbn -[Nat.leb]);
    try (destruct (maxRetries <=? Datatypes.S (attempts p))%nat; cbn);
    lia.
Qed.

(** What a callback costs that finds the movie not ready: two awaits. *)
Lemma movieCallback_waiting_cost (w : env) (latency : call -> N) (p : poller)
    (movie downloading : value) :
  movie_status movieId w movie downloading ->
  movie_ready movie = false ->
  awaits (movieCallback movieId originalFilePath) w p = 2
  /\ duration (movieCallback movieId originalFilePath) w latency p
     = (latency (GetMovieStatus movieId) + latency (IsMovieDownloading movieId))%N.
Proof.
  intros [Hm Hd] Hready.
  unfold movieCallback, sync, await, bind, incrementAttempts, modify, debugLog.
  cbn -[Nat.leb movieAvailable N.add]. rewrite Hm.
  cbn -[Nat.leb movieAvailable N.add]. rewrite Hd.
  destruct (truthy downloading); cbn -[Nat.leb movieAvailable N.add];
    rewrite !movieAvailable_ready, Hready; cbn -[Nat.leb N.add];
    destruct (maxRetries <=? Datatypes.S (attempts p))%nat; cbn -[N.add];
    (split; [reflexivity|lia]).
Qed.

(** What a callback costs that finds the movie ready: three awaits. *)
Lemma movieCallback_ready_cost (w : env) (latency : call -> N) (p : poller)
    (movie downloading : value) :
  movie_status movieId w movie downloading ->
  movie_ready movie = true ->
  awaits (movieCallback movieId originalFilePath) w p = 3
  /\ duration (movieCallback movieId originalFilePath) w latency p
     = (latency (GetMovieStatus movieId) + latency (IsMovieDownloading movieId)
        + latency (TerminateStreamByFile originalFilePath))%N.
Proof.
  intros [Hm Hd] Hready.
  unfold movieCallback, sync, await, bind, incrementAttempts, modify, debugLog.
  cbn -[Nat.leb movieAvailable N.add]. rewrite Hm.
  cbn -[Nat.leb movieAvailable N.add]. rewrite Hd.
  destruct (truthy downloading); cbn -[Nat.leb movieAvailable N.add];
    rewrite !movieAvailable_ready, Hready; cbn -[Nat.leb N.add];
    destruct (respond w (TerminateStreamByFile originalFilePath));
    cbn -[Nat.leb N.add];
    try (destruct (maxRetries <=? Datatypes.S (attempts p))%nat; cbn -[N.add]);
    (split; [reflexivity|lia]).
Qed.
End MovieCallback.

Lemma after_waiting_below (p : poller) :
  Datatypes.S (attempts p) < maxRetries -> after_waiting p = bump p.
Proof.
  intros H. unfold after_waiting.
  destruct (Nat.leb_spec maxRetries (Datatypes.S (attempts p))); [lia|reflexivity].
Qed.

Section MovieRuns.
Variables (movieId : Z) (ratingKey originalFilePath movieDescription : string).
Variables (world : nat -> env) (delay : nat -> call -> N).

(** The firings [1 .. n] of a movie poller that finds the movie not ready,
    each callback through before the next firing. *)
Lemma movie_poller_waits (n : nat) (before : trace) (fuel : nat) :
  n < 60 ->
  (forall j, 1 <= j <= n ->
     exists movie downloading,
       movie_status movieId (world j) movie downloading /\ movie_ready movie = false) ->
  (forall j, 1 <= j <= n ->
     (delay j (GetMovieStatus movieId) + delay j (IsMovieDownloading movieId)
      < intervalDelay)%N) ->
  exists t,
    count is_stop_playback t = 0
    /\ runTimer (movieCallback movieId originalFilePath) world delay (n * 3 + fuel)
         {| closure := started; waiting := []; fired := 0; output := before;
            failure := None |}
       = runTimer (movieCallback movieId originalFilePath) world delay fuel
           {| closure := bumps n started; waiting := []; fired := n;
              output := (before ++ t)%list; failure := None |}.
Proof.
  intros Hn Hseq Htimely.
  destruct (runTimer_waiting (movieCallback movieId originalFilePath) world delay
              is_stop_playback 0 2 n 0 started before fuel eq_refl) as [t [Ct Et]].
  { intros j q Hj Hq Hr Ha.
    destruct (Hseq j) as [movie [downloading [Hst Hnot]]]; [lia|].
    destruct (movieTick_waiting movieId originalFilePath (world j) q _ _ Hst Hnot)
      as [tj [Ej Cj]].
    destruct (movieCallback_waiting_cost movieId originalFilePath (world j) (delay j) q
                _ _ Hst Hnot) as [Aj Dj].
    exists tj. rewrite movieCallback_atomically, Ej, Dj.
    split; [rewrite after_waiting_below; [reflexivity|]|].
    - simpl in Ha. unfold maxRetries. lia.
    - split; [exact Cj|]. split; [exact Aj|]. apply Htimely. lia. }
  exists t. split; [rewrite Ct; lia|exact Et].
Qed.

(** C3, amended. If at none of the 60 firings the movie status satisfies the
    movie-mode condition, and at each of them the status fetch and the
    download check are answered, together, in less than the 5000 ms to the
    next firing, the movie poller runs exactly 60 ticks, 5 seconds apart
    (300000 ms to the last one), ends timed out with the interval cleared and
    the promise resolved by the ceiling branch, leaves no callback waiting
    and never calls stop-playback. *)
Theorem movie_poller_times_out (fuel : nat) :
  (forall k, 1 <= k <= 60 ->
     exists movie downloading,
       movie_status movieId (world k) movie downloading /\ movie_ready movie = false) ->
  (forall k, 1 <= k <= 60 ->
     (delay k (GetMovieStatus movieId) + delay k (IsMovieDownloading movieId)
      < intervalDelay)%N) ->
  180 <= fuel ->
  let r := monitorAvailability movieId ratingKey originalFilePath movieDescription
             world delay fuel in
  ticks r = 60
  /\ elapsed r = 300000%Z
  /\ final r = {| attempts := 60; intervalActive := false;
                  resolveCalls := [WhenExhausted] |}
  /\ state_of (final r) = TimedOut
  /\ crashed r = None
  /\ outstanding r = 0
  /\ count is_stop_playback (effects r) = 0.
Proof.
  intros Hseq Htimely Hfuel.
  destruct (Hseq 60) as [movie [downloading [Hst Hnot]]]; [lia|].
  destruct (movieTick_waiting movieId originalFilePath (world 60) (bumps 59 started)
              _ _ Hst Hnot) as [t60 [E60 C60]].
  destruct (movieCallback_waiting_cost movieId originalFilePath (world 60) (delay 60)
              (bumps 59 started) _ _ Hst Hnot) as [A60 D60].
  rewrite <- movieCallback_atomically in E60.
  match goal with
  | |- context [monitorAvailability _ _ _ _ _ _ _] =>
      unfold monitorAvailability, start
  end.
  match goal with
  | |- context [runTimer _ _ _ _ {| closure := _; waiting := _; fired := _;
                                    output := ?l; failure := _ |}] =>
      set (before := l)
  end.
  destruct (movie_poller_waits 59 before
              (Datatypes.S (awaits (movieCallback movieId originalFilePath) (world 60)
                              (bumps 59 started) + (fuel - 180))))
    as [t [Ct Et]]; [lia|intros j Hj; apply Hseq; lia|intros j Hj; apply Htimely; lia|].
  rewrite (runTimer_last _ world delay 59 (bumps 59 started) _ t60 (before ++ t)%list
             (fuel - 180) eq_refl E60 eq_refl) in Et
    by (rewrite D60; apply Htimely; lia).
  replace fuel with
    (59 * 3 + Datatypes.S (awaits (movieCallback movieId originalFilePath) (world 60)
                             (bumps 59 started) + (fuel - 180)))
    by (rewrite A60; lia).
  rewrite Et. unfold elapsed; cbn [final effects ticks crashed outstanding].
  repeat split.
  rewrite !count_app, Ct, C60. reflexivity.
Qed.

(** C4, amended. If the movie has no file at the first 59 firings and at the
    60th has one whose relative path is not the placeholder sentinel, if the
    stop-playback call returns, and if the calls of each firing are answered,
    together, in less than the 5000 ms to the next firing, the poller runs 60
    ticks, the availability branch resolves the promise, once, the interval
    is cleared, and the only stop-playback call is
    [terminateStreamByFile(originalFilePath)]. The ceiling branch runs on
    that tick too, after the promise is settled. *)
Theorem movie_poller_satisfied_on_last_tick (fuel : nat) :
  (forall k, 1 <= k <= 59 ->
     exists movie downloading,
       movie_status movieId (world k) movie downloading /\ has_file movie = false) ->
  (exists movie downloading answer,
     movie_status movieId (world 60) movie downloading
     /\ has_file movie = true
     /\ is_str (relative_path movie) "dummy.mp4" = false
     /\ respond (world 60) (TerminateStreamByFile originalFilePath) = Returned answer) ->
  (forall k, 1 <= k <= 59 ->
     (delay k (GetMovieStatus movieId) + delay k (IsMovieDownloading movieId)
      < intervalDelay)%N) ->
  (delay 60 (GetMovieStatus movieId) + delay 60 (IsMovieDownloading movieId)
   + delay 60 (TerminateStreamByFile originalFilePath) < intervalDelay)%N ->
  181 <= fuel ->
  let r := monitorAvailability movieId ratingKey originalFilePath movieDescription
             world delay fuel in
  ticks r = 60
  /\ state_of (final r) = Satisfied
  /\ intervalActive (final r) = false
  /\ resolveCalls (final r) = [WhenAvailable; WhenExhausted]
  /\ crashed r = None
  /\ outstanding r = 0
  /\ filter is_stop_playback (calls (effects r))
     = [TerminateStreamByFile originalFilePath].
Proof.
  intros Hseq [movie [downloading [answer [Hst [Hfile [Hpath Hstop]]]]]]
    Htimely Hlast Hfuel.
  assert (Hready : movie_ready movie = true)
    by (unfold movie_ready; rewrite Hfile, Hpath; reflexivity).
  destruct (movieTick_ready movieId originalFilePath (world 60) (bumps 59 started)
              _ _ _ Hst Hready Hstop) as [t60 [E60 C60]].
  destruct (movieCallback_ready_cost movieId originalFilePath (world 60) (delay 60)
              (bumps 59 started) _ _ Hst Hready) as [A60 D60].
  rewrite <- movieCallback_atomically in E60.
  match goal with
  | |- context [monitorAvailability _ _ _ _ _ _ _] =>
      unfold monitorAvailability, start
  end.
  match goal with
  | |- context [runTimer _ _ _ _ {| closure := _; waiting := _; fired := _;
                                    output := ?l; failure := _ |}] =>
      set (before := l)
  end.
  destruct (movie_poller_waits 59 before
              (Datatypes.S (awaits (movieCallback movieId originalFilePath) (world 60)
                              (bumps 59 started) + (fuel - 181))))
    as [t [Ct Et]]; [lia| |intros j Hj; apply Htimely; lia|].
  { intros j Hj. destruct (Hseq j) as [m [d [Hs Hnot]]]; [lia|].
    exists m, d. split; [exact Hs|]. unfold movie_ready. rewrite Hnot. reflexivity. }
  rewrite (runTimer_last _ world delay 59 (bumps 59 started) _ t60 (before ++ t)%list
             (fuel - 181) eq_refl E60 eq_refl) in Et
    by (rewrite D60; exact Hlast).
  replace fuel with
    (59 * 3 + Datatypes.S (awaits (movieCallback movieId originalFilePath) (world 60)
                             (bumps 59 started) + (fuel - 181)))
    by (rewrite A60; lia).
  rewrite Et. cbn [final effects ticks crashed outstanding].
  repeat split.
  rewrite !calls_app, !filter_app, C60.
  unfold count in Ct. apply length_zero_iff_nil in Ct. rewrite Ct. reflexivity.
Qed.
End MovieRuns.

(** C3, counterexample. The movie stays on the placeholder; the status fetch
    of the 60th firing takes 7000 ms, every other call 100 ms. The timer
    fires a 61st time at 305000 ms, while the 60th callback still waits: the
    poller runs 61 ticks, and both the 61st callback and then the 60th run
    the ceiling branch. *)
Lemma movie_poller_fires_again :
  movie_ready (JObj [("hasFile", JBool false)]) = false
  /\ respond Sample.movie_pending (GetMovieStatus 27205)
     = Returned (JObj [("hasFile", JBool false)])
  /\ ticks (monitorAvailability 27205 "4711" "/plex/movies/Inception (2010)/dummy.mp4"
              "A thief who steals corporate secrets." (fun _ => Sample.movie_pending)
              Cases.slow_status 400) = 61
  /\ final (monitorAvailability 27205 "4711" "/plex/movies/Inception (2010)/dummy.mp4"
              "A thief who steals corporate secrets." (fun _ => Sample.movie_pending)
              Cases.slow_status 400)
     = {| attempts := 61; intervalActive := false;
          resolveCalls := [WhenExhausted; WhenExhausted] |}.
Proof. vm_compute. repeat split. Qed.

(** C4, counterexample. The movie's file arrives at the 60th firing; the
    stop-playback call of that firing takes 7000 ms. The timer fires a 61st
    time while it is outstanding, the 61st callback finds the movie ready as
    well and stops playback too: two stop-playback calls, and the
    availability branch runs twice. With a stop-playback call that is
    rejected, the 60th callback rejects: the interval stays active and the
    promise pending. *)
Lemma movie_poller_stops_playback_twice :
  (let r := monitorAvailability 27205 "4711" "/plex/movies/Inception (2010)/dummy.mp4"
              "A thief who steals corporate secrets." Sample.movie_arrives
              Cases.slow_stop 400 in
   ticks r = 61
   /\ filter is_stop_playback (calls (effects r))
      = [TerminateStreamByFile "/plex/movies/Inception (2010)/dummy.mp4";
         TerminateStreamByFile "/plex/movies/Inception (2010)/dummy.mp4"]
   /\ resolveCalls (final r)
      = [WhenAvailable; WhenExhausted; WhenAvailable; WhenExhausted])
  /\ (let r := monitorAvailability 27205 "4711" "/plex/movies/Inception (2010)/dummy.mp4"
                 "A thief who steals corporate secrets." Cases.movie_arrives_stop_down
                 Cases.prompt 400 in
      ticks r = 60
      /\ crashed r = Some (Rejection "connect ECONNREFUSED")
      /\ state_of (final r) = Polling
      /\ intervalActive (final r) = true).
Proof. vm_compute. repeat split. Qed.

(** ** Season mode *)

Section SeasonMode.
Variables (config : Config) (seriesId seasonNumber : Z).
Variables (ratingKey seasonDescription : string).

Lemma episodeUnavailable_pending (ep : value) (w : env) (p : poller) :
  nullish ep = false -> episodeUnavailable ep w p = (Ok (pending ep), p, []).
Proof.
  unfold episodeUnavailable, pending, prop, bind, ret, PLACEHOLDER.
  destruct ep as [| |b|n|str|items|fields]; simpl; try discriminate; try reflexivity.
  intros _. destruct (truthy (lookup "hasFile" fields)); simpl; [|reflexivity].
  destruct (lookup "episodeFile" fields) as [| |b|n|str|items|fs]; simpl;
    try reflexivity.
  - destruct b; reflexivity.
  - destruct (negb (n =? 0)%Z); reflexivity.
  - destruct (negb (str =? "")); reflexivity.
Qed.

Lemma filterM_pending (items : list value) (w : env) (p : poller) :
  episode_records items ->
  filterM episodeUnavailable items w p = (Ok (filter pending items), p, []).
Proof.
  induction 1 as [|ep items Hep _ IH]; [reflexivity|].
  simpl. unfold bind at 1. rewrite (episodeUnavailable_pending ep w p Hep).
  unfold bind at 1. rewrite IH. simpl. destruct (pending ep); reflexivity.
Qed.

Lemma episodeUnavailable_pure (ep : value) (w : env) (p : poller) :
  exists r, episodeUnavailable ep w p = (r, p, []).
Proof.
  unfold episodeUnavailable, prop, bind, ret, throw.
  destruct ep as [| |b|n|str|items|fields]; simpl; try (eexists; reflexivity).
  destruct (truthy (lookup "hasFile" fields)); simpl; [|eexists; reflexivity].
  destruct (lookup "episodeFile" fields) as [| |b|n|str|items|fs]; simpl;
    try (eexists; reflexivity).
  - destruct b; eexists; reflexivity.
  - destruct (negb (n =? 0)%Z); eexists; reflexivity.
  - destruct (negb (str =? "")); eexists; reflexivity.
Qed.

Lemma filterM_pure (items : list value) (w : env) (p : poller) :
  exists r, filterM episodeUnavailable items w p = (r, p, []).
Proof.
  induction items as [|ep items [r IH]]; [eexists; reflexivity|].
  simpl. unfold bind at 1.
  destruct (episodeUnavailable_pure ep w p) as [[b|e] E]; rewrite E;
    [|eexists; reflexivity].
  unfold bind at 1. rewrite IH. destruct r; eexists; reflexivity.
Qed.

Lemma unavailableEpisodes_pure (episodes : value) (w : env) (p : poller) :
  exists r, unavailableEpisodes episodes w p = (r, p, []).
Proof.
  destruct episodes; try (eexists; reflexivity). apply filterM_pure.
Qed.

(** A description update never throws and issues its one [PUT] where the URL
    can be built, whatever the media server answers. *)
Lemma updatePlexDescription_calls (line : string) (w : env) (p : poller) :
  exists t,
    updatePlexDescription config ratingKey seasonDescription line w p = (Ok tt, p, t)
    /\ calls t = update_calls config ratingKey seasonDescription line (currentDate w).
Proof.
  unfold updatePlexDescription, update_calls, try_catch, bind, invoke, emit, ask_date,
    built; simpl.
  destruct (description_url config ratingKey seasonDescription line (currentDate w))
    as [url|]; simpl; [|eexists; split; reflexivity].
  destruct (respond w _) as [v|e]; simpl.
  - destruct v; simpl; eexists; split; reflexivity.
  - eexists; split; reflexivity.
Qed.

Lemma updatePlexDescriptionAsync_atomically (line : string) (w : env) (p : poller) :
  atomically (updatePlexDescriptionAsync config ratingKey seasonDescription line) w p
  = updatePlexDescription config ratingKey seasonDescription line w p.
Proof.
  unfold updatePlexDescriptionAsync, updatePlexDescription, sync, await, try_catch,
    bind, invoke, emit, ask_date, built.
  cbn.
  destruct (description_url config ratingKey seasonDescription line (currentDate w))
    as [url|]; cbn; [|reflexivity].
  destruct (respond w (AxiosPut url)) as [v|e]; cbn; [|reflexivity].
  destruct v; reflexivity.
Qed.

Lemma atomically_andThen (q next : proc) (w : env) :
  forall p,
    atomically (andThen q next) w p
    = match atomically q w p with
      | (Ok _, p1, t1) =>
          match atomically next w p1 with
          | (r, p2, t2) => (r, p2, (t1 ++ t2)%list)
          end
      | (Throw e, p1, t1) => (Throw e, p1, t1)
      end.
Proof.
  induction q as [|e|A m kont IH|c kont IH]; intros p; cbn [andThen atomically].
  - destruct (atomically next w p) as [[r p2] t2]. reflexivity.
  - reflexivity.
  - destruct (m w p) as [[r p1] t1]. rewrite IH.
    destruct (atomically (kont r) w p1) as [[[u|e] p2] t2]; [|reflexivity].
    destruct (atomically next w p2) as [[r3 p3] t3]. rewrite app_assoc. reflexivity.
  - rewrite IH.
    destruct (atomically (kont (respond w c)) w p) as [[[u|e] p2] t2]; [|reflexivity].
    destruct (atomically next w p2) as [[r3 p3] t3]. reflexivity.
Qed.

Lemma awaits_andThen (q next : proc) (w : env) :
  forall p,
    awaits (andThen q next) w p
    = awaits q w p
      + match atomically q w p with
        | (Ok _, p1, _) => awaits next w p1
        | (Throw _, _, _) => 0
        end.
Proof.
  induction q as [|e|A m kont IH|c kont IH]; intros p;
    cbn [andThen awaits atomically].
  - reflexivity.
  - reflexivity.
  - destruct (m w p) as [[r p1] t1]. rewrite IH.
    destruct (atomically (kont r) w p1) as [[[u|e] p2] t2]; reflexivity.
  - rewrite IH.
    destruct (atomically (kont (respond w c)) w p) as [[[u|e] p2] t2]; reflexivity.
Qed.

Lemma duration_andThen (q next : proc) (w : env) (latency : call -> N) :
  forall p,
    duration (andThen q next) w latency p
    = (duration q w latency p
       + match atomically q w p with
         | (Ok _, p1, _) => duration next w latency p1
         | (Throw _, _, _) => 0
         end)%N.
Proof.
  induction q as [|e|A m kont IH|c kont IH]; intros p;
    cbn [andThen duration atomically].
  - reflexivity.
  - reflexivity.
  - destruct (m w p) as [[r p1] t1]. rewrite IH.
    destruct (atomically (kont r) w p1) as [[[u|e] p2] t2]; reflexivity.
  - rewrite IH.
    destruct (atomically (kont (respond w c)) w p) as [[[u|e] p2] t2]; lia.
Qed.

Lemma updatePlexDescriptionAsync_cost (line : string) (w : env) (latency : call -> N)
    (p : poller) :
  awaits (updatePlexDescriptionAsync config ratingKey seasonDescription line) w p
  = length (update_calls config ratingKey seasonDescription line (currentDate w))
  /\ duration (updatePlexDescriptionAsync config ratingKey seasonDescription line)
       w latency p
     = fold_right (fun c total => (latency c + total)%N) 0%N
         (update_calls config ratingKey seasonDescription line (currentDate w)).
Proof.
  unfold updatePlexDescriptionAsync, update_calls, sync, await, bind, ask_date, built, emit.
  cbn -[N.add].
  destruct (description_url config ratingKey seasonDescription line (currentDate w))
    as [url|]; cbn -[N.add]; [|split; reflexivity].
  destruct (respond w (AxiosPut url)) as [v|e]; cbn -[N.add]; [|split; reflexivity].
  destruct v; split; reflexivity.
Qed.

Lemma seasonCallback_atomically (w : env) (p : poller) :
  atomically (seasonCallback config seriesId seasonNumber ratingKey seasonDescription) w p
  = seasonTick config seriesId seasonNumber ratingKey seasonDescription w p.
Proof.
  unfold seasonCallback, seasonTick, sync, await, bind, invoke, incrementAttempts, modify.
  cbn -[Nat.leb Nat.eqb unavailableEpisodes updatePlexDescription
        updatePlexDescriptionAsync andThen String.append get_state debugLog
        clearInterval resolve].
  destruct (respond w (GetEpisodesBySeriesId seriesId seasonNumber)) as [episodes|e];
    [|reflexivity].
  cbn [atomically].
  destruct (unavailableEpisodes_pure episodes w (bump p)) as [r Hr].
  unfold bump in Hr. rewrite Hr.
  destruct r as [unavailable|e]; [|reflexivity].
  rewrite atomically_andThen.
  destruct (length unavailable =? 0)%nat.
  - unfold clearInterval, resolve, modify, get_state, debugLog.
    cbn -[Nat.leb].
    destruct (maxRetries <=? Datatypes.S (attempts p))%nat; reflexivity.
  - unfold debugLog.
    cbn -[Nat.leb updatePlexDescription updatePlexDescriptionAsync String.append
          get_state clearInterval resolve].
    rewrite updatePlexDescriptionAsync_atomically.
    destruct (updatePlexDescription_calls
                ("Waiting for " ++ string_of_nat (length unavailable) ++ " episodes...")
                w (bump p)) as [tu [Eu _]].
    unfold bump in Eu. rewrite Eu.
    unfold get_state, clearInterval, resolve, modify.
    cbn -[Nat.leb].
    destruct (maxRetries <=? Datatypes.S (attempts p))%nat; cbn; rewrite ?app_nil_r;
      reflexivity.
Qed.

Lemma seasonCallback_awaits (w : env) (p : poller) :
  awaits (seasonCallback config seriesId seasonNumber ratingKey seasonDescription) w p <= 2.
Proof.
  unfold seasonCallback, sync, await, bind, incrementAttempts, modify.
  cbn -[Nat.leb Nat.eqb unavailableEpisodes updatePlexDescriptionAsync andThen
        String.append get_state debugLog clearInterval resolve].
  destruct (respond w (GetEpisodesBySeriesId seriesId seasonNumber)) as [episodes|e];
    [|cbn; lia].
  cbn [awaits].
  destruct (unavailableEpisodes_pure episodes w (bump p)) as [r Hr].
  unfold bump in Hr. rewrite Hr.
  destruct r as [unavailable|e]; [|cbn; lia].
  rewrite awaits_andThen.
  destruct (length unavailable =? 0)%nat.
  - unfold clearInterval, resolve, modify, get_state, debugLog.
    cbn -[Nat.leb].
    destruct (maxRetries <=? Datatypes.S (attempts p))%nat; cbn; lia.
  - destruct (updatePlexDescription_calls
                ("Waiting for " ++ string_of_nat (length unavailable) ++ " episodes...")
                w (bump p)) as [tu [Eu _]].
    unfold bump in Eu.
    destruct (updatePlexDescriptionAsync_cost
                ("Waiting for " ++ string_of_nat (length unavailable) ++ " episodes...")
                w (fun _ => 0%N) (bump p)) as [Ea _].
    unfold bump in Ea.
    unfold debugLog. cbn -[Nat.leb updatePlexDescription updatePlexDescriptionAsync
                           String.append get_state clearInterval resolve].
    rewrite updatePlexDescriptionAsync_atomically.
    rewrite Ea, Eu.
    unfold get_state, debugLog, clearInterval, resolve, modify.
    cbn -[Nat.leb update_calls String.append].
    assert (Hl : length (update_calls config ratingKey seasonDescription
                           ("Waiting for " ++ string_of_nat (length unavailable)
                            ++ " episodes...") (currentDate w)) <= 1)
      by (unfold update_calls; destruct (description_url _ _ _ _ _); simpl; lia).
    destruct (maxRetries <=? Datatypes.S (attempts p))%nat; cbn -[update_calls String.append];
      lia.
Qed.

(** What a callback costs that finds episodes pending and sends the update:
    two awaits. *)
Lemma seasonCallback_waiting_cost (w : env) (latency : call -> N) (p : poller)
    (items : list value) (url : string) :
  respond w (GetEpisodesBySeriesId seriesId seasonNumber) = Returned (JArr items) ->
  episode_records items ->
  0 < pending_count items ->
  description_url config ratingKey seasonDescription (waiting_line (pending_count items))
    (currentDate w) = Some url ->
  awaits (seasonCallback config seriesId seasonNumber ratingKey seasonDescription) w p = 2
  /\ duration (seasonCallback config seriesId seasonNumber ratingKey seasonDescription)
       w latency p
     = (latency (GetEpisodesBySeriesId seriesId seasonNumber) + latency (AxiosPut url))%N.
Proof.
  intros Hfetch Hrec Hpending Hurl.
  unfold seasonCallback, sync, await, bind, incrementAttempts, modify, unavailableEpisodes.
  cbn -[Nat.leb Nat.eqb filterM updatePlexDescriptionAsync andThen
        String.append get_state debugLog clearInterval resolve N.add].
  rewrite Hfetch.
  cbn -[Nat.leb Nat.eqb filterM updatePlexDescriptionAsync andThen
        String.append get_state debugLog clearInterval resolve N.add].
  rewrite (filterM_pending items w _ Hrec).
  fold (pending_count items). fold (waiting_line (pending_count items)).
  rewrite awaits_andThen, duration_andThen.
  destruct (Nat.eqb_spec (pending_count items) 0) as [E|_]; [lia|].
  destruct (updatePlexDescription_calls (waiting_line (pending_count items)) w (bump p))
    as [tu [Eu _]].
  unfold bump in Eu.
  destruct (updatePlexDescriptionAsync_cost (waiting_line (pending_count items))
              w latency (bump p)) as [Ea Ed].
  unfold bump in Ea, Ed.
  unfold debugLog. cbn -[Nat.leb updatePlexDescription updatePlexDescriptionAsync
                         String.append get_state clearInterval resolve N.add
                         waiting_line].
  rewrite updatePlexDescriptionAsync_atomically.
  rewrite Ea, Ed, Eu. unfold update_calls. rewrite Hurl.
  unfold get_state, debugLog, clearInterval, resolve, modify.
  cbn -[Nat.leb String.append N.add].
  destruct (maxRetries <=? Datatypes.S (attempts p))%nat; cbn -[N.add]; split;
    (reflexivity || lia).
Qed.

(** What a callback costs that finds no episode pending: one await. *)
Lemma seasonCallback_ready_cost (w : env) (latency : call -> N) (p : poller)
    (items : list value) :
  respond w (GetEpisodesBySeriesId seriesId seasonNumber) = Returned (JArr items) ->
  episode_records items ->
  pending_count items = 0 ->
  awaits (seasonCallback config seriesId seasonNumber ratingKey seasonDescription) w p = 1
  /\ duration (seasonCallback config seriesId seasonNumber ratingKey seasonDescription)
       w latency p
     = latency (GetEpisodesBySeriesId seriesId seasonNumber).
Proof.
  intros Hfetch Hrec Hpending.
  unfold seasonCallback, sync, await, bind, incrementAttempts, modify, unavailableEpisodes.
  cbn -[Nat.leb Nat.eqb filterM updatePlexDescriptionAsync andThen
        String.append get_state debugLog clearInterval resolve N.add].
  rewrite Hfetch.
  cbn -[Nat.leb Nat.eqb filterM updatePlexDescriptionAsync andThen
        String.append get_state debugLog clearInterval resolve N.add].
  rewrite (filterM_pending items w _ Hrec).
  fold (pending_count items). rewrite Hpending.
  cbn -[Nat.leb N.add get_state debugLog clearInterval resolve].
  unfold get_state, debugLog, clearInterval, resolve, modify.
  cbn -[Nat.leb N.add].
  destruct (maxRetries <=? Datatypes.S (attempts p))%nat; cbn -[N.add]; split;
    (reflexivity || lia).
Qed.

Lemma seasonTick_waiting (w : env) (p : poller) (items : list value) :
  respond w (GetEpisodesBySeriesId seriesId seasonNumber) = Returned (JArr items) ->
  episode_records items ->
  0 < pending_count items ->
  exists t,
    seasonTick config seriesId seasonNumber ratingKey seasonDescription w p
      = (Ok tt, after_waiting p, t)
    /\ calls t = GetEpisodesBySeriesId seriesId seasonNumber
                 :: update_calls config ratingKey seasonDescription
                      (waiting_line (pending_count items)) (currentDate w).
Proof.
  intros Hfetch Hrec Hpending.
  destruct (updatePlexDescription_calls (waiting_line (pending_count items)) w (bump p))
    as [tu [Eu Cu]].
  unfold seasonTick, unavailableEpisodes, bind at 1 2, invoke,
    incrementAttempts, modify.
  rewrite Hfetch. unfold bind at 1. rewrite (filterM_pending items w _ Hrec).
  fold (pending_count items). unfold waiting_line in *.
  destruct (Nat.eqb_spec (pending_count items) 0) as [E|_]; [lia|].
  unfold bind, clearInterval, resolve, modify, get_state, debugLog, after_waiting.
  cbn -[Nat.leb updatePlexDescription String.append update_calls].
  change {| attempts := Datatypes.S (attempts p); intervalActive := intervalActive p;
            resolveCalls := resolveCalls p |} with (bump p).
  rewrite Eu. cbn -[Nat.leb update_calls String.append].
  destruct (maxRetries <=? Datatypes.S (attempts p))%nat; cbn -[update_calls String.append];
    (eexists; split; [reflexivity|]); cbn -[update_calls String.append];
    rewrite ?calls_app, Cu; cbn -[update_calls String.append];
    rewrite ?app_nil_r; reflexivity.
Qed.

Lemma seasonTick_ready (w : env) (p : poller) (items : list value) :
  respond w (GetEpisodesBySeriesId seriesId seasonNumber) = Returned (JArr items) ->
  episode_records items ->
  pending_count items = 0 ->
  exists t,
    seasonTick config seriesId seasonNumber ratingKey seasonDescription w p
      = (Ok tt, after_ready p, t)
    /\ calls t = [GetEpisodesBySeriesId seriesId seasonNumber].
Proof.
  intros Hfetch Hrec Hpending.
  unfold seasonTick, unavailableEpisodes, bind at 1 2, invoke,
    incrementAttempts, modify.
  rewrite Hfetch. unfold bind at 1. rewrite (filterM_pending items w _ Hrec).
  fold (pending_count items). rewrite Hpending.
  unfold bind, clearInterval, resolve, modify, get_state, debugLog, after_ready.
  cbn -[Nat.leb].
  destruct (maxRetries <=? Datatypes.S (attempts p))%nat; cbn;
    rewrite <- ?app_assoc; eexists; split; reflexivity.
Qed.

End SeasonMode.



Section SeasonRuns.
Variables (config : Config) (seriesId seasonNumber : Z).
Variables (ratingKey seasonDescription : string).
Variables (world : nat -> env) (delay : nat -> call -> N).

(** At the firing [k] some episode is pending, the text of the update can be
    encoded, and the listing and the update are answered, together, in less
    than the 5000 ms to the next firing. *)
Lemma season_poller_waits (n : nat) (before : trace) (fuel : nat) :
  n < 60 ->
  (forall j, 1 <= j <= n ->
     exists items url,
       respond (world j) (GetEpisodesBySeriesId seriesId seasonNumber)
         = Returned (JArr items)
       /\ episode_records items /\ 0 < pending_count items
       /\ description_url config ratingKey seasonDescription
            (waiting_line (pending_count items)) (currentDate (world j)) = Some url
       /\ (delay j (GetEpisodesBySeriesId seriesId seasonNumber)
           + delay j (AxiosPut url) < intervalDelay)%N) ->
  exists t,
    count is_put t = n
    /\ runTimer (seasonCallback config seriesId seasonNumber ratingKey seasonDescription)
         world delay (n * 3 + fuel)
         {| closure := started; waiting := []; fired := 0; output := before;
            failure := None |}
       = runTimer (seasonCallback config seriesId seasonNumber ratingKey seasonDescription)
           world delay fuel
           {| closure := bumps n started; waiting := []; fired := n;
              output := (before ++ t)%list; failure := None |}.
Proof.
  intros Hn Hseq.
  destruct (runTimer_waiting
              (seasonCallback config seriesId seasonNumber ratingKey seasonDescription)
              world delay is_put 1 2 n 0 started before fuel eq_refl) as [t [Ct Et]].
  { intros j q Hj Hq Hr Ha.
    destruct (Hseq j) as [items [url [Hfetch [Hrec [Hpending [Hurl Hd]]]]]]; [lia|].
    destruct (seasonTick_waiting config seriesId seasonNumber ratingKey
                seasonDescription (world j) q items Hfetch Hrec Hpending)
      as [tj [Ej Cj]].
    destruct (seasonCallback_waiting_cost config seriesId seasonNumber ratingKey
                seasonDescription (world j) (delay j) q items url
                Hfetch Hrec Hpending Hurl) as [Aj Dj].
    exists tj. rewrite seasonCallback_atomically, Ej, Dj.
    split; [rewrite after_waiting_below; [reflexivity|]|].
    - simpl in Ha. unfold maxRetries. lia.
    - split; [|split; [exact Aj|exact Hd]].
      unfold count. rewrite Cj. unfold update_calls. rewrite Hurl. reflexivity. }
  exists t. split; [rewrite Ct; lia|exact Et].
Qed.

(** C10, amended. If at each of the 60 firings some episode is still
    pending, the text of the update can be encoded, and the listing and the
    update are answered, together, in less than the 5000 ms to the next
    firing, the season poller runs 60 ticks, ends timed out and issues
    exactly 60 description updates: 59 before the last firing and one in the
    last firing itself, the one that times the poller out. *)
Theorem season_poller_updates_every_tick (fuel : nat) :
  (forall k, 1 <= k <= 60 ->
     exists items url,
       respond (world k) (GetEpisodesBySeriesId seriesId seasonNumber)
         = Returned (JArr items)
       /\ episode_records items /\ 0 < pending_count items
       /\ description_url config ratingKey seasonDescription
            (waiting_line (pending_count items)) (currentDate (world k)) = Some url
       /\ (delay k (GetEpisodesBySeriesId seriesId seasonNumber)
           + delay k (AxiosPut url) < intervalDelay)%N) ->
  180 <= fuel ->
  let r := monitorSeasonAvailability config seriesId seasonNumber ratingKey
             seasonDescription world delay fuel in
  let last := seasonTick config seriesId seasonNumber ratingKey seasonDescription
                (world 60)
                {| attempts := 59; intervalActive := true; resolveCalls := [] |} in
  ticks r = 60
  /\ state_of (final r) = TimedOut
  /\ intervalActive (final r) = false
  /\ crashed r = None
  /\ outstanding r = 0
  /\ count is_put (effects r) = 60
  /\ exists before,
       effects r = (before ++ snd last)%list
       /\ count is_put before = 59
       /\ count is_put (snd last) = 1
       /\ state_of (snd (fst last)) = TimedOut.
Proof.
  intros Hseq Hfuel.
  destruct (Hseq 60) as [items [url [Hfetch [Hrec [Hpending [Hurl Hd]]]]]]; [lia|].
  destruct (seasonTick_waiting config seriesId seasonNumber ratingKey
              seasonDescription (world 60) (bumps 59 started) items Hfetch Hrec Hpending)
    as [t60 [E60 C60]].
  destruct (seasonCallback_waiting_cost config seriesId seasonNumber ratingKey
              seasonDescription (world 60) (delay 60) (bumps 59 started) items url
              Hfetch Hrec Hpending Hurl) as [A60 D60].
  assert (C60' : count is_put t60 = 1)
    by (unfold count; rewrite C60; unfold update_calls; rewrite Hurl; reflexivity).
  cbv zeta.
  change {| attempts := 59; intervalActive := true; resolveCalls := [] |}
    with (bumps 59 started).
  rewrite E60.
  rewrite <- seasonCallback_atomically in E60.
  unfold monitorSeasonAvailability, start.
  match goal with
  | |- context [runTimer _ _ _ _ {| closure := _; waiting := _; fired := _;
                                    output := ?l; failure := _ |}] =>
      set (before := l)
  end.
  destruct (season_poller_waits 59 before
              (Datatypes.S
                 (awaits (seasonCallback config seriesId seasonNumber ratingKey
                            seasonDescription) (world 60) (bumps 59 started)
                  + (fuel - 180))))
    as [t [Ct Et]]; [lia|intros j Hj; apply Hseq; lia|].
  rewrite (runTimer_last _ world delay 59 (bumps 59 started) _ t60 (before ++ t)%list
             (fuel - 180) eq_refl E60 eq_refl) in Et
    by (rewrite D60; exact Hd).
  replace fuel with
    (59 * 3 + Datatypes.S
                (awaits (seasonCallback config seriesId seasonNumber ratingKey
                           seasonDescription) (world 60) (bumps 59 started)
                 + (fuel - 180)))
    by (rewrite A60; lia).
  rewrite Et. cbn [final effects ticks crashed outstanding fst snd].
  repeat split.
  - rewrite !count_app, Ct, C60'. reflexivity.
  - exists (before ++ t)%list. split; [reflexivity|].
    split; [rewrite count_app, Ct; reflexivity|]. split; [exact C60'|reflexivity].
Qed.
End SeasonRuns.

(** C10, counterexample. Three of ten episodes stay pending; the [PUT] of the
    60th firing takes 7000 ms. The timer fires a 61st time while it is
    outstanding, and the 61st callback issues an update of its own: 61
    description updates on 61 ticks. *)
Lemma season_poller_updates_once_more :
  pending_count Sample.ten_episodes = 3
  /\ ticks (monitorSeasonAvailability Sample.config 7 2 "4711" "Second season"
              (fun _ => Sample.season_pending) Cases.slow_update 400) = 61
  /\ count is_put (effects (monitorSeasonAvailability Sample.config 7 2 "4711"
                              "Second season" (fun _ => Sample.season_pending)
                              Cases.slow_update 400)) = 61.
Proof. vm_compute. repeat split. Qed.

(** ** Instances on the concrete inputs *)

Lemma healthy_filesystem (c : call) : is_filesystem c = true -> returns Sample.healthy c.
Proof. destruct c; intros H; try discriminate H; exists JUndefined; reflexivity. Defined.

(** C1 at the empty object. *)
Lemma missing_eventType_is_400_witness :
  (fst (fst (radarr_webhook (S := unit) Sample.config (JObj []) Sample.healthy tt))
   = Ok invalid_event
   /\ calls (snd (radarr_webhook (S := unit) Sample.config (JObj []) Sample.healthy tt)) = [])
  /\ (fst (fst (sonarr_webhook (S := unit) Sample.config (JObj []) Sample.healthy tt))
      = Ok invalid_event
      /\ calls (snd (sonarr_webhook (S := unit) Sample.config (JObj []) Sample.healthy tt))
         = []).
Proof.
  apply (missing_eventType_is_400 (S := unit) Sample.config (JObj []) Sample.healthy tt).
  reflexivity.
Defined.

(** C2 at the example of the specification. *)
Lemma movie_added_effects_witness :
  exists t,
    handleEvent (S := unit) Sample.config (JObj Sample.movie_added) Sample.healthy tt
      = (Ok tt, tt, t)
    /\ calls t = [EnsureDirectoryExists "/infiniteplexlibrary/movies/Inception (2010)";
                  CreateDummyFile "/infiniteplexlibrary/dummy.mp4"
                    "/infiniteplexlibrary/movies/Inception (2010)/dummy.mp4";
                  CreateSymlink "/infiniteplexlibrary/movies/Inception (2010)/dummy.mp4"
                    "/plex/movies/Inception (2010)";
                  AxiosGet "http://plex:32400/library/sections/1/refresh?X-Plex-Token=token&path=%2Fmedia%2FInception%20(2010)"]
    /\ "http://plex:32400/library/sections/1/refresh?X-Plex-Token=token&path=%2Fmedia%2FInception%20(2010)"
       = PLEX_URL Sample.config ++ "/library/sections/" ++ PLEX_LIBRARY_ID Sample.config
         ++ "/refresh?X-Plex-Token=" ++ PLEX_TOKEN Sample.config
         ++ "&path=" ++ percent_encode "/media/Inception (2010)".
Proof.
  exact (movie_added_effects (S := unit) Sample.config Sample.movie_added Sample.inception
           "/media/Inception (2010)"
           "http://plex:32400/library/sections/1/refresh?X-Plex-Token=token&path=%2Fmedia%2FInception%20(2010)"
           Sample.healthy tt
           eq_refl eq_refl eq_refl eq_refl eq_refl healthy_filesystem).
Defined.

(** C3 on a movie that stays on the placeholder, every call answered after
    100 ms. *)
Lemma movie_poller_times_out_witness :
  let r := monitorAvailability 27205 "4711" "/plex/movies/Inception (2010)/dummy.mp4"
             "A thief who steals corporate secrets." (fun _ => Sample.movie_pending)
             Cases.prompt 180 in
  ticks r = 60
  /\ elapsed r = 300000%Z
  /\ final r = {| attempts := 60; intervalActive := false; resolveCalls := [WhenExhausted] |}
  /\ state_of (final r) = TimedOut
  /\ crashed r = None
  /\ outstanding r = 0
  /\ count is_stop_playback (effects r) = 0.
Proof.
  apply (movie_poller_times_out 27205 "4711" "/plex/movies/Inception (2010)/dummy.mp4"
           "A thief who steals corporate secrets." (fun _ => Sample.movie_pending)
           Cases.prompt 180).
  - intros k _. exists (JObj [("hasFile", JBool false)]), (JBool true).
    split; [split; reflexivity|reflexivity].
  - intros k _. reflexivity.
  - lia.
Defined.

(** C4 on a movie whose file arrives at the 60th firing, every call answered
    after 100 ms. *)
Lemma movie_poller_satisfied_on_last_tick_witness :
  let r := monitorAvailability 27205 "4711" "/plex/movies/Inception (2010)/dummy.mp4"
             "A thief who steals corporate secrets." Sample.movie_arrives
             Cases.prompt 181 in
  ticks r = 60
  /\ state_of (final r) = Satisfied
  /\ intervalActive (final r) = false
  /\ resolveCalls (final r) = [WhenAvailable; WhenExhausted]
  /\ crashed r = None
  /\ outstanding r = 0
  /\ filter is_stop_playback (calls (effects r))
     = [TerminateStreamByFile "/plex/movies/Inception (2010)/dummy.mp4"].
Proof.
  apply (movie_poller_satisfied_on_last_tick 27205 "4711"
           "/plex/movies/Inception (2010)/dummy.mp4"
           "A thief who steals corporate secrets." Sample.movie_arrives Cases.prompt 181).
  - intros k Hk. exists (JObj [("hasFile", JBool false)]), (JBool true).
    unfold movie_status, Sample.movie_arrives; simpl.
    destruct (Nat.ltb_spec k 60); [repeat split|lia].
  - exists (JObj [("hasFile", JBool true);
                  ("movieFile", JObj [("relativePath", JStr "Inception (2010).mkv")])]),
      (JBool false), JUndefined.
    repeat split.
  - intros k _. reflexivity.
  - reflexivity.
  - lia.
Defined.

(** C9 at a series [Download] with an empty episode list. *)
Lemma series_download_without_episodes_witness :
  (exists what t,
      handleEvent (S := unit) Sample.config (JObj Sample.series_download_no_episodes)
        Sample.healthy tt = (Throw (TypeError what), tt, t)
      /\ calls t = [])
  /\ (fst (fst (radarr_webhook (S := unit) Sample.config
                  (JObj Sample.series_download_no_episodes) Sample.healthy tt))
      = Ok internal_error
      /\ calls (snd (radarr_webhook (S := unit) Sample.config
                       (JObj Sample.series_download_no_episodes) Sample.healthy tt)) = [])
  /\ (fst (fst (sonarr_webhook (S := unit) Sample.config
                  (JObj Sample.series_download_no_episodes) Sample.healthy tt))
      = Ok internal_error
      /\ calls (snd (sonarr_webhook (S := unit) Sample.config
                       (JObj Sample.series_download_no_episodes) Sample.healthy tt)) = []).
Proof.
  apply (series_download_without_episodes (S := unit) Sample.config
           Sample.series_download_no_episodes Sample.healthy tt).
  - reflexivity.
  - reflexivity.
  - reflexivity.
  - right. reflexivity.
Defined.

(** C9, counterexample. A [Download] event with a series payload, no
    [episodes], and a movie payload as well: the movie branch is taken, the
    handler does not throw, the placeholder of the movie is cleaned up, a
    rescan is requested and the endpoint answers 200. *)
Lemma series_download_with_movie_payload :
  truthy (lookup "series" Cases.download_with_both) = true
  /\ lookup "episodes" Cases.download_with_both = JUndefined
  /\ fst (fst (handleEvent (S := unit) Sample.config (JObj Cases.download_with_both)
                 Sample.healthy tt))
     = Ok tt
  /\ calls (snd (handleEvent (S := unit) Sample.config (JObj Cases.download_with_both)
                   Sample.healthy tt))
     = [CleanUpDummyFile "/media/Inception (2010)";
        RemoveDummyFolder "/infiniteplexlibrary/movies/Inception (2010)";
        AxiosGet "http://plex:32400/library/sections/1/refresh?X-Plex-Token=token&path=%2Fmedia%2FInception%20(2010)"]
  /\ fst (fst (radarr_webhook (S := unit) Sample.config (JObj Cases.download_with_both)
                 Sample.healthy tt))
     = Ok processed.
Proof. repeat split. Qed.

(** C10 on a season that keeps 3 of its 10 episodes pending, every call
    answered after 100 ms. *)
Lemma season_poller_updates_every_tick_witness :
  let r := monitorSeasonAvailability Sample.config 7 2 "4711" "Second season"
             (fun _ => Sample.season_pending) Cases.prompt 180 in
  let last := seasonTick Sample.config 7 2 "4711" "Second season" Sample.season_pending
                {| attempts := 59; intervalActive := true; resolveCalls := [] |} in
  ticks r = 60
  /\ state_of (final r) = TimedOut
  /\ intervalActive (final r) = false
  /\ crashed r = None
  /\ outstanding r = 0
  /\ count is_put (effects r) = 60
  /\ exists before,
       effects r = (before ++ snd last)%list
       /\ count is_put before = 59
       /\ count is_put (snd last) = 1
       /\ state_of (snd (fst last)) = TimedOut.
Proof.
  apply (season_poller_updates_every_tick Sample.config 7 2 "4711" "Second season"
           (fun _ => Sample.season_pending) Cases.prompt 180).
  - intros k _. exists Sample.ten_episodes. eexists.
    split; [reflexivity|]. split; [|split; [vm_compute; lia|]].
    + unfold episode_records, Sample.ten_episodes. repeat constructor.
    + split; reflexivity.
  - lia.
Defined.

(** The example of the specification through the endpoint: the request is
    answered with 200. *)
Lemma movie_added_is_processed :
  fst (fst (radarr_webhook (S := unit) Sample.config (JObj Sample.movie_added)
              Sample.healthy tt))
  = Ok processed.
Proof. reflexivity. Qed.

(** * Further properties *)

(** ** The library notifier never raises *)

Section Notifier.
Context {S : Type} (config : Config).

(** X1. A rescan request never throws and leaves the caller's state alone.
    For a folder path that can be encoded it issues exactly one [GET], on the
    refresh URL of the folder, and reports success on the console exactly
    when the media server answered with status 200. For a folder path with a
    lone surrogate the encoding throws inside the [try]: nothing is requested
    and the error is logged. *)
Theorem rescan_is_best_effort (folderPath : string) (w : env) (s : S) :
  exists t,
    notifyPlexFolderRefresh config folderPath w s = (Ok tt, s, t)
    /\ match refresh_url config folderPath with
       | Some url =>
           calls t = [AxiosGet url]
           /\ (In (ConsoleLog [Lit "✅ Plex folder scan started for folder: ";
                               Lit folderPath]) t
               <-> answered_200 w (AxiosGet url) = true)
       | None =>
           calls t = []
           /\ In (ConsoleError [Lit "❌ Error communicating with the Plex API:";
                                ErrObject (URIError "URI malformed")]) t
       end.
Proof.
  unfold notifyPlexFolderRefresh, answered_200, try_catch, bind, invoke, emit, built; simpl.
  destruct (refresh_url config folderPath) as [url|]; simpl.
  2:{ eexists; split; [reflexivity|]. split; [reflexivity|].
      simpl. right; left; reflexivity. }
  destruct (respond w (AxiosGet url)) as [r|e]; simpl.
  - destruct r; simpl;
      try (eexists; split; [reflexivity|]; split; [reflexivity|]; simpl;
           split; [intros [H|[H|[H|[]]]]; discriminate H|discriminate]).
    destruct (is_num (lookup "status" fields) 200); simpl.
    + eexists; (split; [reflexivity|]); (split; [reflexivity|]); simpl.
      split; [reflexivity|]. intros _. right; right; left; reflexivity.
    + unfold interpolate. destruct (to_string (lookup "status" fields)); simpl;
        eexists; (split; [reflexivity|]); (split; [reflexivity|]); simpl;
        (split; [intros [H|[H|[H|[]]]]; discriminate H|discriminate]).
  - eexists; split; [reflexivity|]; split; [reflexivity|]; simpl.
    split; [intros [H|[H|[H|[]]]]; discriminate H|discriminate].
Qed.

(** X2. A description update never throws and leaves the caller's state
    alone, whatever [axios.put] does. Where the text (the dated status line,
    a line break, the stored description) can be encoded, it issues exactly
    one [PUT], whose URL carries that text; where the text holds a lone
    surrogate, it issues none. *)
Theorem description_update_is_best_effort
    (ratingKey movieDescription newDescription : string) (w : env) (s : S) :
  exists t,
    updatePlexDescription config ratingKey movieDescription newDescription w s
      = (Ok tt, s, t)
    /\ match encodeURIComponent ("[" ++ currentDate w ++ "]: " ++ newDescription
                                  ++ newline ++ movieDescription) with
       | Some summary =>
           calls t = [AxiosPut (PLEX_URL config ++ "/library/metadata/" ++ ratingKey
                                ++ "?summary.value=" ++ summary
                                ++ "&X-Plex-Token=" ++ PLEX_TOKEN config)]
       | None => calls t = []
       end.
Proof.
  unfold updatePlexDescription, description_url, try_catch, bind, invoke, emit, ask_date,
    built; simpl.
  destruct (encodeURIComponent _) as [summary|]; simpl;
    [|eexists; split; reflexivity].
  destruct (respond w _) as [r|e]; simpl.
  - destruct r; simpl; eexists; split; reflexivity.
  - eexists; split; reflexivity.
Qed.

(** X3. A metadata refresh never throws and leaves the caller's state alone;
    it issues exactly one [PUT], on the item's refresh URL, and logs an error
    exactly when the request is rejected. *)
Theorem metadata_refresh_is_best_effort (ratingKey : string) (w : env) (s : S) :
  exists t,
    refreshPlexMetadata config ratingKey w s = (Ok tt, s, t)
    /\ calls t = [AxiosPut (PLEX_URL config ++ "/library/metadata/" ++ ratingKey
                            ++ "/refresh?X-Plex-Token=" ++ PLEX_TOKEN config)]
    /\ ((exists line, In (ConsoleError line) t)
        <-> exists e, respond w (AxiosPut (metadata_refresh_url config ratingKey)) = Raised e).
Proof.
  unfold refreshPlexMetadata, try_catch, bind, invoke, emit; simpl.
  fold (metadata_refresh_url config ratingKey).
  destruct (respond w (AxiosPut (metadata_refresh_url config ratingKey))) as [r|e]; simpl.
  - eexists; split; [reflexivity|]; split; [reflexivity|]. simpl. split.
    + intros [line [H|[H|[]]]]; discriminate H.
    + intros [e H]; discriminate H.
  - eexists; split; [reflexivity|]; split; [reflexivity|]. simpl. split.
    + intros _. exists e. reflexivity.
    + intros _. eexists. right; left; reflexivity.
Qed.
End Notifier.

(** ** The encoded path parameter *)

Lemma hex_digit_unreserved (k : nat) : k < 16 -> unreserved (hex_digit k) = true.
Proof.
  intros H. do 16 (destruct k as [|k]; [reflexivity|]). lia.
Qed.

Lemma hex_digit_code (k : nat) :
  k < 16 -> nat_of_ascii (hex_digit k) = if (k <? 10)%nat then 48 + k else 55 + k.
Proof.
  intros H. do 16 (destruct k as [|k]; [reflexivity|]). lia.
Qed.

Lemma hex_digit_inj (a b : nat) : a < 16 -> b < 16 -> hex_digit a = hex_digit b -> a = b.
Proof.
  intros Ha Hb E. apply (f_equal nat_of_ascii) in E.
  rewrite !hex_digit_code in E by assumption.
  destruct (Nat.ltb_spec a 10), (Nat.ltb_spec b 10); lia.
Qed.

Lemma ascii_code_split (c : ascii) :
  nat_of_ascii c / 16 < 16 /\ nat_of_ascii c mod 16 < 16.
Proof.
  pose proof (nat_ascii_bounded c) as B. split.
  - apply Nat.Div0.div_lt_upper_bound. lia.
  - apply Nat.mod_upper_bound. lia.
Qed.

Lemma percent_is_reserved : unreserved "%"%char = false.
Proof. reflexivity. Qed.

Lemma percent_encode_inj (s1 s2 : string) :
  percent_encode s1 = percent_encode s2 -> s1 = s2.
Proof.
  revert s2; induction s1 as [|c1 r1 IH]; intros [|c2 r2];
    cbn -[Nat.div Nat.modulo unreserved hex_digit].
  - reflexivity.
  - destruct (unreserved c2); discriminate.
  - destruct (unreserved c1); discriminate.
  - destruct (unreserved c1) eqn:U1, (unreserved c2) eqn:U2; intros E.
    + injection E as Ec Er. rewrite Ec, (IH _ Er). reflexivity.
    + injection E as Ec _. rewrite Ec, percent_is_reserved in U1. discriminate.
    + injection E as Ec _. rewrite <- Ec, percent_is_reserved in U2. discriminate.
    + injection E as Eh El Er.
      destruct (ascii_code_split c1) as [H1 L1], (ascii_code_split c2) as [H2 L2].
      assert (Eh' : nat_of_ascii c1 / 16 = nat_of_ascii c2 / 16)
        by (apply hex_digit_inj; assumption).
      assert (El' : nat_of_ascii c1 mod 16 = nat_of_ascii c2 mod 16)
        by (apply hex_digit_inj; assumption).
      assert (Ec : nat_of_ascii c1 = nat_of_ascii c2).
      { pose proof (Nat.div_mod_eq (nat_of_ascii c1) 16).
        pose proof (Nat.div_mod_eq (nat_of_ascii c2) 16). lia. }
      apply (f_equal ascii_of_nat) in Ec. rewrite !ascii_nat_embedding in Ec.
      rewrite Ec, (IH _ Er). reflexivity.
Qed.

Lemma append_inj_l (a b c : string) : a ++ b = a ++ c -> b = c.
Proof.
  induction a as [|x a IH]; simpl; [trivial|].
  intros E. injection E as E. exact (IH E).
Qed.

Lemma encodeURIComponent_encoded (s path : string) :
  encodeURIComponent s = Some path -> path = percent_encode s.
Proof.
  unfold encodeURIComponent. destruct (lone_surrogate s); [discriminate|].
  intros E. injection E as <-. reflexivity.
Qed.

Lemma refresh_url_built (config : Config) (folderPath url : string) :
  refresh_url config folderPath = Some url ->
  url = PLEX_URL config ++ "/library/sections/" ++ PLEX_LIBRARY_ID config
        ++ "/refresh?X-Plex-Token=" ++ PLEX_TOKEN config
        ++ "&path=" ++ percent_encode folderPath.
Proof.
  unfold refresh_url. destruct (encodeURIComponent folderPath) as [path|] eqn:E;
    [|discriminate].
  intros H. injection H as <-. rewrite (encodeURIComponent_encoded _ _ E). reflexivity.
Qed.

(** X4. Under one configuration, two folder paths with the same refresh URL
    are the same path: the encoding of the path parameter loses nothing. Only
    two paths for which no URL is built, each holding a lone surrogate, are
    not told apart. *)
Theorem refresh_url_identifies_folder (config : Config) (path1 path2 : string) :
  refresh_url config path1 = refresh_url config path2 ->
  path1 = path2
  \/ (refresh_url config path1 = None /\ refresh_url config path2 = None).
Proof.
  destruct (refresh_url config path1) as [url1|] eqn:E1,
           (refresh_url config path2) as [url2|] eqn:E2;
    intros E; try discriminate E; [left|right; split; reflexivity].
  injection E as <-.
  apply refresh_url_built in E1. apply refresh_url_built in E2.
  rewrite E1 in E2. do 6 apply append_inj_l in E2.
  exact (percent_encode_inj _ _ E2).
Qed.

(** X4 on two folders. *)
Lemma refresh_url_identifies_folder_witness :
  "/tv/Dark" = "/tv/Dark"
  \/ (refresh_url Sample.config "/tv/Dark" = None
      /\ refresh_url Sample.config "/tv/Dark" = None).
Proof.
  exact (refresh_url_identifies_folder Sample.config "/tv/Dark" "/tv/Dark" eq_refl).
Defined.

Lemma percent_encode_chars (s : string) (c : ascii) :
  In c (list_ascii_of_string (percent_encode s)) ->
  unreserved c = true \/ c = "%"%char.
Proof.
  induction s as [|x s IH]; cbn -[Nat.div Nat.modulo unreserved hex_digit];
    [intros []|].
  destruct (unreserved x) eqn:U; cbn -[Nat.div Nat.modulo unreserved hex_digit].
  - intros [E|H]; [left; rewrite <- E; exact U|exact (IH H)].
  - destruct (ascii_code_split x) as [Hh Hl].
    intros [E|[E|[E|H]]].
    + right. symmetry. exact E.
    + left. rewrite <- E. apply hex_digit_unreserved, Hh.
    + left. rewrite <- E. apply hex_digit_unreserved, Hl.
    + exact (IH H).
Qed.

(** X5. Whatever the folder path, the path parameter of a refresh URL holds
    only unreserved characters and [%]: none of the separators [& = ? # /],
    no space and no [+], so the payload's folder path cannot add or end a
    query parameter. *)
Theorem path_parameter_has_no_separator (folderPath path : string) (c : ascii) :
  encodeURIComponent folderPath = Some path ->
  In c (list_ascii_of_string path) ->
  (unreserved c = true \/ c = "%"%char) /\ ~ In c separators.
Proof.
  intros E H. rewrite (encodeURIComponent_encoded _ _ E) in H.
  pose proof (percent_encode_chars _ _ H) as [U|Ec].
  - split; [left; exact U|].
    intros [S|[S|[S|[S|[S|[S|[S|[]]]]]]]]; rewrite <- S in U; discriminate U.
  - split; [right; exact Ec|]. subst c.
    intros [S|[S|[S|[S|[S|[S|[S|[]]]]]]]]; discriminate S.
Qed.

(** X5 on the first character of an encoded path. *)
Lemma path_parameter_has_no_separator_witness :
  (unreserved "%"%char = true \/ "%"%char = "%"%char) /\ ~ In "%"%char separators.
Proof.
  apply (path_parameter_has_no_separator "/tv/Dark" "%2Ftv%2FDark" "%"%char).
  - reflexivity.
  - simpl. left. reflexivity.
Defined.

(** ** Events that only log *)

Section Quiet.
Context {S : Type}.

Lemma quiet_ret {A : Type} (a : A) : quiet (ret (S := S) a).
Proof. intros w s. reflexivity. Qed.

Lemma quiet_throw {A : Type} (e : exn) : quiet (throw (S := S) (A := A) e).
Proof. intros w s. reflexivity. Qed.

Lemma quiet_debugLog (line : list frag) : quiet (debugLog (S := S) line).
Proof. intros w s. reflexivity. Qed.

Lemma quiet_prop (v : value) (k : string) : quiet (prop (S := S) v k).
Proof. intros w s. destruct v; reflexivity. Qed.

Lemma quiet_index0 (v : value) : quiet (index0 (S := S) v).
Proof. intros w s. destruct v; reflexivity. Qed.

Lemma quiet_interpolate (v : value) : quiet (interpolate (S := S) v).
Proof. intros w s. unfold interpolate. destruct (to_string v); reflexivity. Qed.

Lemma quiet_bind {A B : Type} (m : M S A) (k : A -> M S B) :
  quiet m -> (forall a, quiet (k a)) -> quiet (bind m k).
Proof.
  intros Hm Hk w s. unfold bind. specialize (Hm w s).
  destruct (m w s) as [[[a|e] s1] t1]; simpl in *; [|exact Hm].
  specialize (Hk a w s1). destruct (k a w s1) as [[r2 s2] t2]; simpl in *.
  rewrite calls_app, Hm, Hk. reflexivity.
Qed.
End Quiet.

Ltac quiet_steps :=
  repeat first
    [ apply quiet_debugLog | apply quiet_ret | apply quiet_throw
    | apply quiet_prop | apply quiet_index0 | apply quiet_interpolate
    | apply quiet_bind; [|intros ?]
    | match goal with |- quiet (if ?b then _ else _) => destruct b end ].

Ltac case_split :=
  repeat (simpl;
    match goal with
    | |- context [if ?b then _ else _] => destruct b
    | |- context [match ?v with _ => _ end] =>
        match type of v with value => destruct v end
    end).

Section Observational.
Context {S : Type} {P : PathLib} (config : Config).

(** The handler's first read, on a body that passed the endpoint's check. *)
Lemma prop_of_truthy (v : value) (k : string) (w : env) (s : S) :
  truthy v = true -> prop v k w s = (Ok (field v k), s, []).
Proof. destruct v; simpl; try discriminate; reflexivity. Qed.

Lemma bind_prop {A : Type} (v : value) (k : string) (f : value -> M S A)
    (w : env) (s : S) :
  nullish v = false -> bind (prop v k) f w s = f (field v k) w s.
Proof.
  intros N. unfold bind.
  assert (E : prop v k w s = (Ok (field v k), s, []))
    by (destruct v; try discriminate N; reflexivity).
  rewrite E. destruct (f (field v k) w s) as [[r s'] t]. reflexivity.
Qed.

Lemma bind_interpolate {A : Type} (v : value) (text : string) (f : string -> M S A)
    (w : env) (s : S) :
  to_string v = Some text -> bind (interpolate v) f w s = f text w s.
Proof.
  intros E. unfold bind. rewrite (interpolate_of_text v text w s E).
  destruct (f text w s) as [[r s'] t]. reflexivity.
Qed.

Lemma bind_interpolate_fails {A : Type} (v : value) (f : string -> M S A)
    (w : env) (s : S) :
  converts v = false -> bind (interpolate v) f w s = (Throw cannot_convert, s, []).
Proof. intros E. unfold bind. rewrite (interpolate_fails v w s E). reflexivity. Qed.

Lemma calls_bind_debugLog {A : Type} (line : list frag) (f : unit -> M S A)
    (w : env) (s : S) :
  calls (snd (bind (debugLog line) f w s)) = calls (snd (f tt w s)).
Proof.
  unfold bind, debugLog; simpl. destruct (f tt w s) as [[r s'] t]. reflexivity.
Qed.

Lemma result_bind_debugLog {A : Type} (line : list frag) (f : unit -> M S A)
    (w : env) (s : S) :
  fst (fst (bind (debugLog line) f w s)) = fst (fst (f tt w s)).
Proof.
  unfold bind, debugLog; simpl. destruct (f tt w s) as [[r s'] t]. reflexivity.
Qed.

(** Outside [MovieAdded] and [Download] the handler issues no call. *)
Lemma handleEvent_quiet (event : value) :
  is_str (field event "eventType") "MovieAdded" = false ->
  is_str (field event "eventType") "Download" = false ->
  quiet (handleEvent (S := S) config event).
Proof.
  intros Hadded Hdownload w s.
  destruct (nullish event) eqn:N.
  - destruct event; try discriminate; reflexivity.
  - unfold handleEvent. rewrite calls_bind_debugLog, (bind_prop _ _ _ _ _ N).
    rewrite Hadded, Hdownload.
    match goal with |- calls (snd (?m w s)) = [] => assert (Q : quiet m) end.
    { unfold handleGrab, handleRename. quiet_steps. }
    exact (Q w s).
Qed.


Lemma truthy_not_nullish (v : value) : truthy v = true -> nullish v = false.
Proof. destruct v; simpl; try discriminate; reflexivity. Qed.

Lemma bind_prop_null {A : Type} (v : value) (k : string) (f : value -> M S A)
    (w : env) (s : S) :
  nullish v = true -> bind (prop v k) f w s = (Throw (TypeError k), s, []).
Proof. destruct v; try discriminate; reflexivity. Qed.

Lemma bind_index0 {A : Type} (v : value) (f : value -> M S A) (w : env) (s : S) :
  nullish v = false -> bind (index0 v) f w s = f (item0 v) w s.
Proof.
  intros N. unfold bind.
  assert (E : index0 v w s = (Ok (item0 v), s, []))
    by (destruct v; try discriminate N; reflexivity).
  rewrite E. destruct (f (item0 v) w s) as [[r s'] t]. reflexivity.
Qed.

Lemma bind_index0_null {A : Type} (v : value) (f : value -> M S A) (w : env) (s : S) :
  nullish v = true -> bind (index0 v) f w s = (Throw (TypeError "0"), s, []).
Proof. destruct v; try discriminate; reflexivity. Qed.

(** What either endpoint makes of the handler, on a body that passes its
    check. *)
Lemma endpoint_of_handler (event : value) (w : env) (s : S) :
  truthy event = true ->
  truthy (field event "eventType") = true ->
  (fst (fst (radarr_webhook config event w s))
   = reply (field event "eventType") (fst (fst (handleEvent config event w s)))
   /\ calls (snd (radarr_webhook config event w s))
      = calls (snd (handleEvent config event w s)))
  /\ (fst (fst (sonarr_webhook config event w s))
      = reply (field event "eventType") (fst (fst (handleEvent config event w s)))
      /\ calls (snd (sonarr_webhook config event w s))
         = calls (snd (handleEvent config event w s))).
Proof.
  intros Hevent Hkind.
  unfold radarr_webhook, sonarr_webhook, try_catch, bind, debugLog.
  cbn -[handleEvent prop interpolate]. rewrite Hevent. cbn -[handleEvent prop interpolate].
  rewrite !(prop_of_truthy event "eventType" w s Hevent), Hkind.
  cbn -[handleEvent prop interpolate].
  destruct (handleEvent config event w s) as [[[u|e] s1] t1]; cbn -[prop interpolate].
  - rewrite app_nil_r. repeat split.
  - rewrite !(prop_of_truthy event "eventType" w s1 Hevent).
    unfold interpolate, converts.
    destruct (to_string (field event "eventType")); cbn;
      rewrite ?calls_app; cbn; rewrite ?app_nil_r; repeat split.
Qed.

(** The handler's outcome on a [Grab] event. *)
Lemma handleGrab_outcome (event : value) (w : env) (s : S) :
  nullish event = false ->
  reply (JStr "Grab") (fst (fst (handleGrab event w s))) = Ok (grab_answer event).
Proof.
  intros N. unfold handleGrab, grab_answer.
  rewrite (bind_prop _ _ _ _ _ N).
  destruct (truthy (field event "movie")) eqn:Hmovie.
  - rewrite (bind_prop _ _ _ _ _ (truthy_not_nullish _ Hmovie)).
    destruct (converts (field (field event "movie") "title")) eqn:Ct;
      [|rewrite (bind_interpolate_fails _ _ _ _ Ct); reflexivity].
    destruct (converts_text _ Ct) as [text Et].
    rewrite (bind_interpolate _ _ _ _ _ Et), (bind_prop _ _ _ _ _ N).
    destruct (nullish (field event "release")) eqn:Hrelease;
      [rewrite (bind_prop_null _ _ _ _ _ Hrelease); reflexivity|].
    rewrite (bind_prop _ _ _ _ _ Hrelease).
    destruct (converts (field (field event "release") "title")) eqn:Cr;
      [|rewrite (bind_interpolate_fails _ _ _ _ Cr); reflexivity].
    destruct (converts_text _ Cr) as [text' Er].
    rewrite (bind_interpolate _ _ _ _ _ Er). reflexivity.
  - rewrite (bind_prop _ _ _ _ _ N).
    destruct (truthy (field event "series")) eqn:Hseries; [|reflexivity].
    rewrite (bind_prop _ _ _ _ _ (truthy_not_nullish _ Hseries)).
    destruct (converts (field (field event "series") "title")) eqn:Ct;
      [|rewrite (bind_interpolate_fails _ _ _ _ Ct); reflexivity].
    destruct (converts_text _ Ct) as [text Et].
    rewrite (bind_interpolate _ _ _ _ _ Et), (bind_prop _ _ _ _ _ N).
    destruct (nullish (field event "episodes")) eqn:Hepisodes.
    { rewrite (bind_index0_null _ _ _ _ Hepisodes).
      destruct (field event "episodes"); try discriminate Hepisodes; reflexivity. }
    rewrite (bind_index0 _ _ _ _ Hepisodes).
    destruct (nullish (item0 (field event "episodes"))) eqn:Hfirst;
      [rewrite (bind_prop_null _ _ _ _ _ Hfirst); reflexivity|].
    rewrite (bind_prop _ _ _ _ _ Hfirst).
    destruct (converts (field (item0 (field event "episodes")) "seasonNumber")) eqn:Cs;
      [|rewrite (bind_interpolate_fails _ _ _ _ Cs); reflexivity].
    destruct (converts_text _ Cs) as [season Es].
    rewrite (bind_interpolate _ _ _ _ _ Es), (bind_index0 _ _ _ _ Hepisodes).
    rewrite (bind_prop _ _ _ _ _ Hfirst).
    destruct (converts (field (item0 (field event "episodes")) "episodeNumber")) eqn:Ce;
      [|rewrite (bind_interpolate_fails _ _ _ _ Ce); reflexivity].
    destruct (converts_text _ Ce) as [number Ee].
    rewrite (bind_interpolate _ _ _ _ _ Ee). reflexivity.
Qed.

(** X6. Only [MovieAdded] and [Download] touch the filesystem or a
    collaborator: for an event of any other kind (also one without
    [eventType], also one whose handling throws) the handler issues no call
    at all. *)
Theorem other_kinds_only_log (event : value) :
  is_str (field event "eventType") "MovieAdded" = false ->
  is_str (field event "eventType") "Download" = false ->
  quiet (handleEvent (S := S) config event).
Proof. exact (handleEvent_quiet event). Qed.

Lemma handleRename_outcome (event : value) (w : env) (s : S) :
  nullish event = false ->
  is_str (field event "eventType") "Rename" = true ->
  fst (fst (handleRename event w s))
  = if converts (logged event) then Ok tt else Throw cannot_convert.
Proof.
  intros N Hkind. unfold handleRename, logged. rewrite Hkind.
  rewrite (bind_prop _ _ _ _ _ N).
  destruct (truthy (field event "movie")) eqn:Hmovie.
  - rewrite (bind_prop _ _ _ _ _ (truthy_not_nullish _ Hmovie)).
    destruct (converts (field (field event "movie") "title")) eqn:Ct;
      [|rewrite (bind_interpolate_fails _ _ _ _ Ct); reflexivity].
    destruct (converts_text _ Ct) as [text Et].
    rewrite (bind_interpolate _ _ _ _ _ Et). reflexivity.
  - rewrite (bind_prop _ _ _ _ _ N).
    destruct (truthy (field event "series")) eqn:Hseries; [|reflexivity].
    rewrite (bind_prop _ _ _ _ _ (truthy_not_nullish _ Hseries)).
    destruct (converts (field (field event "series") "title")) eqn:Ct;
      [|rewrite (bind_interpolate_fails _ _ _ _ Ct); reflexivity].
    destruct (converts_text _ Ct) as [text Et].
    rewrite (bind_interpolate _ _ _ _ _ Et). reflexivity.
Qed.

(** X7. An event of the kind [Rename], [HealthIssue] or [Test], or of a kind
    that the dispatcher does not know, calls nothing, and both endpoints
    answer it with 200 unless the value that its log line interpolates (the
    title of a renamed item, the message of a health issue) has no string
    conversion, in which case they answer 500. [Test] events and events of an
    unknown kind are always answered with 200. *)
Theorem harmless_kinds_answer_200 (event : value) (kind : string) (w : env) (s : S) :
  truthy event = true ->
  field event "eventType" = JStr kind ->
  kind <> "" ->
  existsb (String.eqb kind) payload_kinds = false ->
  let expected := if converts (logged event) then processed else internal_error in
  ((fst (fst (radarr_webhook config event w s)) = Ok expected
    /\ calls (snd (radarr_webhook config event w s)) = [])
   /\ (fst (fst (sonarr_webhook config event w s)) = Ok expected
       /\ calls (snd (sonarr_webhook config event w s)) = []))
  /\ (kind <> "Rename" -> kind <> "HealthIssue" -> expected = processed).
Proof.
  intros Hevent Hkind Hne Hnone expected.
  pose proof (truthy_not_nullish _ Hevent) as N.
  assert (Hkind' : truthy (field event "eventType") = true).
  { rewrite Hkind. simpl. destruct (String.eqb_spec kind ""); [contradiction|reflexivity]. }
  assert (Hnone' : existsb (is_str (field event "eventType")) payload_kinds = false)
    by (rewrite Hkind; exact Hnone).
  simpl in Hnone'.
  repeat (apply orb_false_elim in Hnone'; destruct Hnone' as [? Hnone']).
  destruct (endpoint_of_handler event w s Hevent Hkind') as [[R1 C1] [R2 C2]].
  rewrite R1, C1, R2, C2, (handleEvent_quiet event) by assumption.
  assert (E : fst (fst (handleEvent config event w s))
              = if converts (logged event) then Ok tt else Throw cannot_convert).
  { unfold handleEvent. rewrite result_bind_debugLog, (bind_prop _ _ _ _ _ N).
    repeat match goal with
           | H : is_str _ _ = false |- _ => rewrite H; clear H
           end.
    destruct (is_str (field event "eventType") "Rename") eqn:Hrename;
      [apply handleRename_outcome; assumption|].
    unfold logged. rewrite Hrename.
    destruct (is_str (field event "eventType") "HealthIssue").
    { rewrite (bind_prop _ _ _ _ _ N).
      destruct (converts (field event "message")) eqn:Cm;
        [|rewrite (bind_interpolate_fails _ _ _ _ Cm); reflexivity].
      destruct (converts_text _ Cm) as [text Et].
      rewrite (bind_interpolate _ _ _ _ _ Et). reflexivity. }
    destruct (is_str (field event "eventType") "Test"); [reflexivity|].
    rewrite Hkind. reflexivity. }
  rewrite E. unfold reply. rewrite Hkind.
  split.
  - unfold expected. destruct (converts (logged event)); repeat split.
  - intros Hr Hh. unfold expected, logged. rewrite Hkind. simpl.
    destruct (String.eqb_spec kind "Rename"); [contradiction|].
    destruct (String.eqb_spec kind "HealthIssue"); [contradiction|].
    destruct (String.eqb kind "Test"); reflexivity.
Qed.

(** X8. A [MovieDelete] event is answered with 200 when its [movie] is there
    and the title has a string conversion, and with 500 otherwise; so is a
    [SeriesDelete] event by its [series]. In every case nothing is called. *)
Theorem delete_events_need_their_payload
    (event : value) (kind payload : string) (w : env) (s : S) :
  truthy event = true ->
  In (kind, payload) [("MovieDelete", "movie"); ("SeriesDelete", "series")] ->
  field event "eventType" = JStr kind ->
  let expected :=
    if nullish (field event payload) then internal_error
    else if converts (field (field event payload) "title") then processed
    else internal_error in
  (fst (fst (radarr_webhook config event w s)) = Ok expected
   /\ calls (snd (radarr_webhook config event w s)) = [])
  /\ (fst (fst (sonarr_webhook config event w s)) = Ok expected
      /\ calls (snd (sonarr_webhook config event w s)) = []).
Proof.
  intros Hevent Hin Hkind expected.
  pose proof (truthy_not_nullish _ Hevent) as N.
  assert (Htruthy : truthy (field event "eventType") = true)
    by (rewrite Hkind; destruct Hin as [E|[E|[]]]; injection E as <- _; reflexivity).
  destruct (endpoint_of_handler event w s Hevent Htruthy) as [[R1 C1] [R2 C2]].
  rewrite R1, C1, R2, C2.
  rewrite (handleEvent_quiet event)
    by (rewrite Hkind; destruct Hin as [E|[E|[]]]; injection E as <- _; reflexivity).
  assert (E : reply (field event "eventType") (fst (fst (handleEvent config event w s)))
              = Ok expected).
  { unfold handleEvent, expected.
    rewrite result_bind_debugLog, (bind_prop _ _ _ _ _ N), Hkind.
    destruct Hin as [E|[E|[]]]; injection E as <- <-;
      cbn [is_str String.eqb Ascii.eqb Bool.eqb];
      rewrite (bind_prop _ _ _ _ _ N).
    - destruct (nullish (field event "movie")) eqn:Hp;
        [rewrite (bind_prop_null _ _ _ _ _ Hp); reflexivity|].
      rewrite (bind_prop _ _ _ _ _ Hp).
      destruct (converts (field (field event "movie") "title")) eqn:Ct;
        [|rewrite (bind_interpolate_fails _ _ _ _ Ct); reflexivity].
      destruct (converts_text _ Ct) as [text Et].
      rewrite (bind_interpolate _ _ _ _ _ Et). reflexivity.
    - destruct (nullish (field event "series")) eqn:Hp;
        [rewrite (bind_prop_null _ _ _ _ _ Hp); reflexivity|].
      rewrite (bind_prop _ _ _ _ _ Hp).
      destruct (converts (field (field event "series") "title")) eqn:Ct;
        [|rewrite (bind_interpolate_fails _ _ _ _ Ct); reflexivity].
      destruct (converts_text _ Ct) as [text Et].
      rewrite (bind_interpolate _ _ _ _ _ Et). reflexivity. }
  rewrite E. repeat split.
Qed.

(** X9. A [Grab] event is answered by what its payload holds. With a movie:
    200 exactly when the movie's title has a string conversion, [release] is
    there and its title has one. With a series: 200 exactly when the series'
    title has one, [episodes] has a first entry, and that entry's season and
    episode numbers have one. With neither: 200. In the other cases the
    answer is 500; nothing is ever called. *)
Theorem grab_answer_by_payload (event : value) (w : env) (s : S) :
  truthy event = true ->
  field event "eventType" = JStr "Grab" ->
  (fst (fst (radarr_webhook config event w s)) = Ok (grab_answer event)
   /\ calls (snd (radarr_webhook config event w s)) = [])
  /\ (fst (fst (sonarr_webhook config event w s)) = Ok (grab_answer event)
      /\ calls (snd (sonarr_webhook config event w s)) = []).
Proof.
  intros Hevent Hkind.
  pose proof (truthy_not_nullish _ Hevent) as N.
  assert (Htruthy : truthy (field event "eventType") = true) by (rewrite Hkind; reflexivity).
  destruct (endpoint_of_handler event w s Hevent Htruthy) as [[R1 C1] [R2 C2]].
  rewrite R1, C1, R2, C2.
  rewrite (handleEvent_quiet event) by (rewrite Hkind; reflexivity).
  assert (E : reply (field event "eventType") (fst (fst (handleEvent config event w s)))
              = Ok (grab_answer event)).
  { unfold handleEvent.
    rewrite result_bind_debugLog, (bind_prop _ _ _ _ _ N), Hkind.
    cbn [is_str String.eqb Ascii.eqb Bool.eqb].
    apply handleGrab_outcome, N. }
  rewrite E. repeat split.
Qed.

(** X10. A [Download] event with neither a movie nor a series payload is
    answered with 200 and nothing is called. *)
Theorem download_without_payload (event : value) (w : env) (s : S) :
  truthy event = true ->
  field event "eventType" = JStr "Download" ->
  truthy (field event "movie") = false ->
  truthy (field event "series") = false ->
  (fst (fst (radarr_webhook config event w s)) = Ok processed
   /\ calls (snd (radarr_webhook config event w s)) = [])
  /\ (fst (fst (sonarr_webhook config event w s)) = Ok processed
      /\ calls (snd (sonarr_webhook config event w s)) = []).
Proof.
  intros Hevent Hkind Hmovie Hseries.
  pose proof (truthy_not_nullish _ Hevent) as N.
  assert (Htruthy : truthy (field event "eventType") = true) by (rewrite Hkind; reflexivity).
  destruct (endpoint_of_handler event w s Hevent Htruthy) as [[R1 C1] [R2 C2]].
  rewrite R1, C1, R2, C2.
  assert (E : handleEvent config event w s
              = (Ok tt, s, [ConsoleLog [Lit "🐛 [DEBUG] "; Lit "Handling event: ";
                                        Stringify event]])).
  { unfold handleEvent. unfold bind at 1. unfold debugLog at 1. cbn [DEBUG_MODE emit].
    rewrite (bind_prop _ _ _ _ _ N), Hkind.
    cbn [is_str String.eqb Ascii.eqb Bool.eqb].
    rewrite (bind_prop _ _ _ _ _ N), Hmovie, (bind_prop _ _ _ _ _ N), Hseries.
    reflexivity. }
  rewrite E. repeat split.
Qed.
End Observational.

Lemma prop_of_present {S : Type} (v : value) (k : string) (w : env) (s : S) :
  nullish v = false -> prop v k w s = (Ok (field v k), s, []).
Proof. destruct v; simpl; try discriminate; reflexivity. Qed.

(** ** The cases that act *)

Section Acting.
Context {S : Type} {P : PathLib} (config : Config).

(** X11. A series [Download] whose first episode is a record, whose season
    number and series title have a string conversion and whose folder can be
    encoded, handled while the filesystem operations succeed, cleans and
    removes one folder, the dummy season folder [Season N] of the first
    episode's season (whatever the other episodes are), and then requests one
    rescan for the series folder. *)
Theorem series_download_effects
    (fields series : list (string * value)) (folder season url : string)
    (episode : value) (others : list value) (w : env) (s : S) :
  lookup "eventType" fields = JStr "Download" ->
  truthy (lookup "movie" fields) = false ->
  lookup "series" fields = JObj series ->
  lookup "path" series = JStr folder ->
  lookup "episodes" fields = JArr (episode :: others) ->
  nullish episode = false ->
  to_string (field episode "seasonNumber") = Some season ->
  converts (lookup "title" series) = true ->
  refresh_url config folder = Some url ->
  (forall c, is_filesystem c = true -> returns w c) ->
  let seasonFolder :=
    path_join [SERIES_FOLDER_DUMMY config; path_basename folder; "Season " ++ season] in
  exists t,
    handleEvent config (JObj fields) w s = (Ok tt, s, t)
    /\ calls t = [CleanUpDummyFile seasonFolder; RemoveDummyFolder seasonFolder;
                  AxiosGet url].
Proof.
  intros Hty Hmovie Hseries Hpath Hepisodes Hepisode Hseason Htitle Hurl Hfs seasonFolder.
  destruct (converts_text _ Htitle) as [text Etext].
  destruct (Hfs (CleanUpDummyFile seasonFolder) eq_refl) as [v1 E1].
  destruct (Hfs (RemoveDummyFolder seasonFolder) eq_refl) as [v2 E2].
  destruct (notifyPlexFolderRefresh_calls config folder w s) as [tn [En Cn]].
  rewrite (rescan_calls_of_url config folder url Hurl) in Cn.
  unfold handleEvent, handleDownloadSeries, call_notifyPlexFolderRefresh,
    bind, debugLog, invoke.
  cbn -[interpolate String.append notifyPlexFolderRefresh].
  rewrite Hty. cbn -[interpolate String.append notifyPlexFolderRefresh].
  rewrite Hmovie, Hseries. cbn -[interpolate String.append notifyPlexFolderRefresh].
  rewrite Hepisodes. cbn -[interpolate String.append notifyPlexFolderRefresh].
  rewrite (prop_of_present episode "seasonNumber" w s Hepisode), Hpath.
  cbn -[interpolate String.append notifyPlexFolderRefresh].
  rewrite !(interpolate_of_text _ season w s Hseason).
  cbn -[interpolate String.append notifyPlexFolderRefresh].
  rewrite (interpolate_of_text _ text w s Etext).
  cbn -[interpolate String.append notifyPlexFolderRefresh].
  rewrite !(interpolate_of_text _ season w s Hseason).
  cbn -[interpolate String.append notifyPlexFolderRefresh].
  fold seasonFolder. rewrite E1, E2, En.
  eexists; split; [reflexivity|].
  cbn -[String.append]. rewrite Cn. reflexivity.
Qed.

(** The secondary block follows the answer of the existence check. *)
Lemma secondaryBackend_decision
    (movie : list (string * value)) (exists_ details : value) (others : list value)
    (profile : numeric) (w : env) (s : S) :
  truthy (RADARR_4K_URL config) = true ->
  respond w (CheckMovieInRadarr (lookup "tmdbId" movie) (RADARR_4K_URL config)
               (RADARR_4K_API_KEY config))
    = Returned (JArr (exists_ :: details :: others)) ->
  (truthy exists_ = true -> nullish details = false) ->
  (truthy exists_ = false ->
   Number_of (RADARR_4K_QUALITY_PROFILE_ID config) = Some profile) ->
  (forall c, is_secondary c = true -> returns w c) ->
  exists t,
    secondaryBackend config (JObj movie) w s = (Ok tt, s, t)
    /\ calls t = secondary_calls config (lookup "tmdbId" movie) exists_ details profile.
Proof.
  intros Hurl Hcheck Hdetails Hprofile Hret.
  unfold secondaryBackend, secondary_calls, destructure2, bind, invoke, debugLog, toNumber.
  rewrite Hurl. cbn -[movie_ready]. rewrite Hcheck. cbn -[movie_ready].
  destruct (truthy exists_) eqn:Hexists.
  - specialize (Hdetails eq_refl).
    rewrite (prop_of_present details "hasFile" w s Hdetails).
    unfold movie_ready, has_file, relative_path, prop_opt, PLACEHOLDER.
    destruct details as [| |b|n|str|items|dfields]; try discriminate Hdetails;
      cbn -[String.eqb];
      repeat match goal with
        | |- context [respond w ?c] =>
            let v := fresh "v" in let E := fresh "E" in
            destruct (Hret c eq_refl) as [v E]; rewrite E; cbn -[String.eqb]
        | x : bool |- _ => destruct x; cbn -[String.eqb]
        | |- context [Z.eqb ?n 0] => destruct (Z.eqb n 0); cbn -[String.eqb]
        | |- context [String.eqb ?a ?b] => destruct (String.eqb a b); cbn -[String.eqb]
        | |- context [nullish ?v] => destruct v; cbn -[String.eqb]
        | |- context [match ?v with _ => _ end] =>
            match type of v with value => destruct v; cbn -[String.eqb] end
        | |- context [is_str ?v ?l] => destruct (is_str v l); cbn -[String.eqb]
        | |- context [truthy ?v] => destruct (truthy v); cbn -[String.eqb]
        end;
      eexists; split; reflexivity.
  - rewrite (Hprofile eq_refl). cbn.
    destruct (Hret (AddMovieToRadarr (lookup "tmdbId" movie) (RADARR_4K_MOVIE_FOLDER config)
                      profile true true
                      (RADARR_4K_URL config) (RADARR_4K_API_KEY config)
                      ["infiniteplexlibrary"]) eq_refl) as [v E].
    rewrite E. cbn. eexists; split; reflexivity.
Qed.

(** X12. Without a secondary backend configured, a movie [Download] whose
    title has a string conversion and whose folder can be encoded, handled
    while the filesystem operations succeed, issues exactly three calls:
    clean the movie's own folder of the dummy file, remove the dummy folder,
    request one rescan for the movie's folder. *)
Theorem movie_download_without_secondary
    (fields movie : list (string * value)) (folder url : string) (w : env) (s : S) :
  lookup "eventType" fields = JStr "Download" ->
  lookup "movie" fields = JObj movie ->
  lookup "folderPath" movie = JStr folder ->
  converts (lookup "title" movie) = true ->
  refresh_url config folder = Some url ->
  truthy (RADARR_4K_URL config) = false ->
  (forall c, is_filesystem c = true -> returns w c) ->
  let dummyFolder := path_join [MOVIE_FOLDER_DUMMY config; path_basename folder] in
  exists t,
    handleEvent config (JObj fields) w s = (Ok tt, s, t)
    /\ calls t = [CleanUpDummyFile folder; RemoveDummyFolder dummyFolder;
                  AxiosGet url].
Proof.
  intros Hty Hmovie Hfolder Htitle Hrescan Hurl Hfs dummyFolder.
  destruct (converts_text _ Htitle) as [text Etext].
  destruct (Hfs (CleanUpDummyFile folder) eq_refl) as [v1 E1].
  destruct (Hfs (RemoveDummyFolder dummyFolder) eq_refl) as [v2 E2].
  destruct (notifyPlexFolderRefresh_calls config folder w s) as [tn [En Cn]].
  rewrite (rescan_calls_of_url config folder url Hrescan) in Cn.
  unfold handleEvent, handleDownloadMovie, secondaryBackend,
    call_notifyPlexFolderRefresh, bind, debugLog, invoke.
  cbn -[notifyPlexFolderRefresh interpolate].
  rewrite Hty. cbn -[notifyPlexFolderRefresh interpolate].
  rewrite Hmovie. cbn -[notifyPlexFolderRefresh interpolate].
  rewrite Hfolder. cbn -[notifyPlexFolderRefresh interpolate].
  rewrite (interpolate_of_text _ text w s Etext). cbn -[notifyPlexFolderRefresh].
  fold dummyFolder. rewrite E1, E2, Hurl. cbn -[notifyPlexFolderRefresh].
  rewrite En. eexists; split; [reflexivity|]. cbn. rewrite Cn. reflexivity.
Qed.

(** X13. With a secondary backend configured and answering, a movie
    [Download] puts between the removal and the rescan the existence check and
    then: an add request tagged [infiniteplexlibrary], with the number of the
    configured quality profile, when the movie is not there; a search when it
    is there without a real file; nothing when it is there with a real
    file. *)
Theorem movie_download_with_secondary
    (fields movie : list (string * value)) (folder url : string)
    (exists_ details : value) (others : list value) (profile : numeric)
    (w : env) (s : S) :
  lookup "eventType" fields = JStr "Download" ->
  lookup "movie" fields = JObj movie ->
  lookup "folderPath" movie = JStr folder ->
  converts (lookup "title" movie) = true ->
  refresh_url config folder = Some url ->
  truthy (RADARR_4K_URL config) = true ->
  respond w (CheckMovieInRadarr (lookup "tmdbId" movie) (RADARR_4K_URL config)
               (RADARR_4K_API_KEY config))
    = Returned (JArr (exists_ :: details :: others)) ->
  (truthy exists_ = true -> nullish details = false) ->
  (truthy exists_ = false ->
   Number_of (RADARR_4K_QUALITY_PROFILE_ID config) = Some profile) ->
  (forall c, is_filesystem c || is_secondary c = true -> returns w c) ->
  let dummyFolder := path_join [MOVIE_FOLDER_DUMMY config; path_basename folder] in
  exists t,
    handleEvent config (JObj fields) w s = (Ok tt, s, t)
    /\ calls t = (CleanUpDummyFile folder :: RemoveDummyFolder dummyFolder
                  :: secondary_calls config (lookup "tmdbId" movie) exists_ details profile
                  ++ [AxiosGet url])%list.
Proof.
  intros Hty Hmovie Hfolder Htitle Hrescan Hurl Hcheck Hdetails Hprofile Hret dummyFolder.
  destruct (converts_text _ Htitle) as [text Etext].
  destruct (Hret (CleanUpDummyFile folder) eq_refl) as [v1 E1].
  destruct (Hret (RemoveDummyFolder dummyFolder) eq_refl) as [v2 E2].
  destruct (secondaryBackend_decision movie exists_ details others profile w s
              Hurl Hcheck Hdetails Hprofile) as [ts [Es Cs]].
  { intros c Hc. apply Hret. rewrite Hc. apply orb_true_r. }
  destruct (notifyPlexFolderRefresh_calls config folder w s) as [tn [En Cn]].
  rewrite (rescan_calls_of_url config folder url Hrescan) in Cn.
  unfold handleEvent, handleDownloadMovie, call_notifyPlexFolderRefresh,
    bind, debugLog, invoke.
  cbn -[notifyPlexFolderRefresh secondaryBackend interpolate].
  rewrite Hty. cbn -[notifyPlexFolderRefresh secondaryBackend interpolate].
  rewrite Hmovie. cbn -[notifyPlexFolderRefresh secondaryBackend interpolate].
  rewrite Hfolder. cbn -[notifyPlexFolderRefresh secondaryBackend interpolate].
  rewrite (interpolate_of_text _ text w s Etext).
  cbn -[notifyPlexFolderRefresh secondaryBackend].
  fold dummyFolder. rewrite E1, E2, Es, En.
  eexists; split; [reflexivity|].
  cbn. rewrite !calls_app, Cs, Cn. reflexivity.
Qed.

(** The steps of the [MovieAdded] case, up to the first that fails. *)
Lemma movie_added_steps
    (fields movie : list (string * value)) (folder url : string) (w : env) (s : S) :
  lookup "eventType" fields = JStr "MovieAdded" ->
  lookup "movie" fields = JObj movie ->
  lookup "folderPath" movie = JStr folder ->
  converts (lookup "title" movie) = true ->
  refresh_url config folder = Some url ->
  let dummyFolder := path_join [MOVIE_FOLDER_DUMMY config; path_basename folder] in
  let dummyFile := path_join [dummyFolder; "dummy.mp4"] in
  let libraryFolder := path_join [PLEX_MOVIE_FOLDER config; path_basename folder] in
  let steps := [EnsureDirectoryExists dummyFolder;
                CreateDummyFile (DUMMY_FILE_LOCATION config) dummyFile;
                CreateSymlink dummyFile libraryFolder;
                AxiosGet url] in
  exists r t n,
    handleEvent config (JObj fields) w s = (r, s, t)
    /\ 1 <= n <= 4
    /\ calls t = firstn n steps
    /\ (forall i, i < n - 1 -> returns w (nth i steps (AxiosGet "")))
    /\ match r with
       | Ok _ => n = 4
       | Throw e =>
           n < 4 /\ respond w (nth (n - 1) steps (AxiosGet "")) = Raised e
       end.
Proof.
  intros Hty Hmovie Hfolder Htitle Hurl dummyFolder dummyFile libraryFolder steps.
  destruct (converts_text _ Htitle) as [text Etext].
  destruct (notifyPlexFolderRefresh_calls config folder w s) as [tn [En Cn]].
  rewrite (rescan_calls_of_url config folder url Hurl) in Cn.
  unfold handleEvent, handleMovieAdded, call_notifyPlexFolderRefresh,
    bind, debugLog, invoke, PLACEHOLDER.
  cbn -[notifyPlexFolderRefresh interpolate].
  rewrite Hty. cbn -[notifyPlexFolderRefresh interpolate].
  rewrite Hmovie. cbn -[notifyPlexFolderRefresh interpolate].
  rewrite Hfolder. cbn -[notifyPlexFolderRefresh interpolate].
  rewrite (interpolate_of_text _ text w s Etext). cbn -[notifyPlexFolderRefresh].
  fold dummyFolder. fold dummyFile. fold libraryFolder.
  destruct (respond w (EnsureDirectoryExists dummyFolder)) as [v1|e1] eqn:E1;
    cbn -[notifyPlexFolderRefresh].
  2:{ exists (Throw e1). eexists. exists 1. split; [reflexivity|].
      split; [lia|]. split; [reflexivity|]. split; [intros i Hi; lia|].
      split; [lia|exact E1]. }
  destruct (respond w (CreateDummyFile (DUMMY_FILE_LOCATION config) dummyFile))
    as [v2|e2] eqn:E2; cbn -[notifyPlexFolderRefresh].
  2:{ exists (Throw e2). eexists. exists 2. split; [reflexivity|].
      split; [lia|]. split; [reflexivity|]. split.
      - intros i Hi. assert (i = 0) as -> by lia. exists v1. exact E1.
      - split; [lia|exact E2]. }
  destruct (respond w (CreateSymlink dummyFile libraryFolder)) as [v3|e3] eqn:E3;
    cbn -[notifyPlexFolderRefresh].
  2:{ exists (Throw e3). eexists. exists 3. split; [reflexivity|].
      split; [lia|]. split; [reflexivity|]. split.
      - intros i Hi. destruct i as [|[|i]]; [exists v1; exact E1|exists v2; exact E2|lia].
      - split; [lia|exact E3]. }
  rewrite En. exists (Ok tt). eexists. exists 4. split; [reflexivity|].
  split; [lia|]. split; [cbn; rewrite Cn; reflexivity|]. split; [|reflexivity].
  intros i Hi.
  destruct i as [|[|[|i]]];
    [exists v1; exact E1|exists v2; exact E2|exists v3; exact E3|lia].
Qed.

(** X14. Handling [MovieAdded], for a movie whose title has a string
    conversion and whose folder can be encoded, goes through its four calls
    in order and stops at the first that fails: the calls issued are the
    first [n] of create directory, create dummy file, create symlink, rescan;
    all but the last of them have returned; handling completes exactly when
    all four were issued, and otherwise throws the error that the last call
    issued was rejected with, the earlier effects left in place. *)
Theorem movie_added_stops_at_first_failure
    (fields movie : list (string * value)) (folder url : string) (w : env) (s : S) :
  lookup "eventType" fields = JStr "MovieAdded" ->
  lookup "movie" fields = JObj movie ->
  lookup "folderPath" movie = JStr folder ->
  converts (lookup "title" movie) = true ->
  refresh_url config folder = Some url ->
  let dummyFolder := path_join [MOVIE_FOLDER_DUMMY config; path_basename folder] in
  let dummyFile := path_join [dummyFolder; "dummy.mp4"] in
  let libraryFolder := path_join [PLEX_MOVIE_FOLDER config; path_basename folder] in
  let steps := [EnsureDirectoryExists dummyFolder;
                CreateDummyFile (DUMMY_FILE_LOCATION config) dummyFile;
                CreateSymlink dummyFile libraryFolder;
                AxiosGet url] in
  exists r t n,
    handleEvent config (JObj fields) w s = (r, s, t)
    /\ 1 <= n <= 4
    /\ calls t = firstn n steps
    /\ (forall i, i < n - 1 -> returns w (nth i steps (AxiosGet "")))
    /\ match r with
       | Ok _ => n = 4
       | Throw e =>
           n < 4 /\ respond w (nth (n - 1) steps (AxiosGet "")) = Raised e
       end.
Proof. exact (movie_added_steps fields movie folder url w s). Qed.

(** X15. A [MovieAdded] event whose movie payload is missing, or has no
    string [folderPath], is answered with 500 by both endpoints before
    anything is created or requested. *)
Theorem movie_added_needs_folder_path (event : value) (w : env) (s : S) :
  truthy event = true ->
  field event "eventType" = JStr "MovieAdded" ->
  (forall folder, field (field event "movie") "folderPath" <> JStr folder) ->
  (fst (fst (radarr_webhook config event w s)) = Ok internal_error
   /\ calls (snd (radarr_webhook config event w s)) = [])
  /\ (fst (fst (sonarr_webhook config event w s)) = Ok internal_error
      /\ calls (snd (sonarr_webhook config event w s)) = []).
Proof.
  intros Hevent Hkind Hpath.
  pose proof (truthy_not_nullish _ Hevent) as N.
  assert (Htruthy : truthy (field event "eventType") = true) by (rewrite Hkind; reflexivity).
  destruct (endpoint_of_handler config event w s Hevent Htruthy) as [[R1 C1] [R2 C2]].
  rewrite R1, C1, R2, C2.
  assert (E : exists e, handleEvent config event w s
                        = (Throw e, s, [ConsoleLog [Lit "🐛 [DEBUG] "; Lit "Handling event: ";
                                                    Stringify event]])).
  { unfold handleEvent. unfold bind at 1. unfold debugLog at 1. cbn [DEBUG_MODE emit].
    rewrite (bind_prop _ _ _ _ _ N), Hkind.
    cbn [is_str String.eqb Ascii.eqb Bool.eqb].
    unfold handleMovieAdded. rewrite (bind_prop _ _ _ _ _ N).
    destruct (nullish (field event "movie")) eqn:Hmovie.
    - rewrite (bind_prop_null _ _ _ _ _ Hmovie). eexists; reflexivity.
    - rewrite (bind_prop _ _ _ _ _ Hmovie).
      destruct (field (field event "movie") "folderPath") as [| | | |folder| |] eqn:Hf;
        try (eexists; reflexivity).
      destruct (Hpath folder eq_refl). }
  destruct E as [e E]. rewrite E, Hkind. repeat split.
Qed.

(** X16. For a body that passes the check, either endpoint issues the
    handler's calls and no other, and answers 200 exactly when the handler
    completes. When the handler throws, the [catch] block interpolates the
    event's kind into its log line: it answers 500 when the kind has a string
    conversion, and otherwise throws in its turn, so that the endpoint
    rejects and sends no response. *)
Theorem endpoints_answer_by_handler (event : value) (w : env) (s : S) :
  truthy event = true ->
  truthy (field event "eventType") = true ->
  (fst (fst (radarr_webhook config event w s))
   = reply (field event "eventType") (fst (fst (handleEvent config event w s)))
   /\ calls (snd (radarr_webhook config event w s))
      = calls (snd (handleEvent config event w s)))
  /\ (fst (fst (sonarr_webhook config event w s))
      = reply (field event "eventType") (fst (fst (handleEvent config event w s)))
      /\ calls (snd (sonarr_webhook config event w s))
         = calls (snd (handleEvent config event w s))).
Proof. exact (endpoint_of_handler config event w s). Qed.

(** An event whose kind has no string conversion makes the handler throw:
    no case of the [switch] matches it, and the default case interpolates
    it. *)
Lemma handleEvent_of_unprintable_kind (event : value) (w : env) (s : S) :
  truthy event = true ->
  converts (field event "eventType") = false ->
  fst (fst (handleEvent config event w s)) = Throw cannot_convert.
Proof.
  intros Hevent Hkind.
  pose proof (truthy_not_nullish _ Hevent) as N.
  unfold handleEvent. rewrite result_bind_debugLog, (bind_prop _ _ _ _ _ N).
  destruct (field event "eventType") as [| |b|n|str|items|fields];
    try discriminate Hkind; cbn [is_str];
    rewrite (bind_interpolate_fails _ _ _ _ Hkind); reflexivity.
Qed.

(** X17. Either endpoint answers with one of the three fixed responses,
    whatever the collaborators do, unless the event's kind is a value without
    string conversion: then, and only then, it rejects and sends no response.
    The answer is 400 exactly when the body or its [eventType] is falsy
    (absent, [null], [false], [0] or the empty string). *)
Theorem endpoints_always_answer (event : value) (w : env) (s : S) :
  (match fst (fst (radarr_webhook config event w s)) with
   | Ok resp =>
       converts (field event "eventType") = true
       /\ In resp [invalid_event; processed; internal_error]
       /\ (resp = invalid_event
           <-> truthy event && truthy (field event "eventType") = false)
   | Throw e => converts (field event "eventType") = false /\ e = cannot_convert
   end)
  /\ (match fst (fst (sonarr_webhook config event w s)) with
      | Ok resp =>
          converts (field event "eventType") = true
          /\ In resp [invalid_event; processed; internal_error]
          /\ (resp = invalid_event
              <-> truthy event && truthy (field event "eventType") = false)
      | Throw e => converts (field event "eventType") = false /\ e = cannot_convert
      end).
Proof.
  destruct (truthy event) eqn:Hevent;
    [destruct (truthy (field event "eventType")) eqn:Hkind|].
  - destruct (endpoint_of_handler config event w s Hevent Hkind) as [[R1 _] [R2 _]].
    rewrite R1, R2.
    destruct (converts (field event "eventType")) eqn:Hconv.
    + destruct (fst (fst (handleEvent config event w s))); simpl; rewrite ?Hconv;
        split; (split; [reflexivity|]); (split; [simpl; tauto|]); split; discriminate.
    + rewrite (handleEvent_of_unprintable_kind event w s Hevent Hconv).
      simpl. rewrite Hconv. repeat split.
  - assert (Hconv : converts (field event "eventType") = true)
      by (destruct (field event "eventType") as [| |[|]|n|str| |];
          try discriminate Hkind; reflexivity).
    unfold radarr_webhook, sonarr_webhook, bind, debugLog.
    cbn -[handleEvent prop]. rewrite Hevent. cbn -[handleEvent prop].
    rewrite !(prop_of_truthy event "eventType" w s Hevent), Hkind. cbn.
    split; (split; [exact Hconv|]); (split; [simpl; tauto|]); split; reflexivity.
  - assert (Hconv : converts (field event "eventType") = true)
      by (destruct event as [| |[|]|n|str| |]; try discriminate Hevent; reflexivity).
    unfold radarr_webhook, sonarr_webhook, bind, debugLog.
    cbn -[handleEvent prop]. rewrite Hevent. cbn.
    split; (split; [exact Hconv|]); (split; [simpl; tauto|]); split; reflexivity.
Qed.
End Acting.

(** ** Every poller ends *)

Section PollerSteps.
Variables (config : Config).

Lemma movieTick_step (movieId : Z) (originalFilePath : string) (w : env) (p : poller) :
  polling p ->
  exists r p' t,
    movieTick movieId originalFilePath w p = (r, p', t)
    /\ attempts p' = Datatypes.S (attempts p)
    /\ match r with
       | Ok _ => (polling p' /\ attempts p' < maxRetries) \/ settled p'
       | Throw _ => polling p'
       end.
Proof.
  intros [Hact Hres].
  unfold movieTick, bind, invoke, incrementAttempts, clearInterval, resolve,
    modify, get_state, debugLog, polling, settled.
  cbn -[Nat.leb movieAvailable].
  destruct (respond w (GetMovieStatus movieId)) as [movie|e]; cbn -[Nat.leb movieAvailable];
    [|do 3 eexists; split; [reflexivity|]; split; [reflexivity|]; split; assumption].
  destruct (respond w (IsMovieDownloading movieId)) as [downloading|e];
    cbn -[Nat.leb movieAvailable];
    [|do 3 eexists; split; [reflexivity|]; split; [reflexivity|]; split; assumption].
  destruct (truthy downloading); cbn -[Nat.leb movieAvailable];
    rewrite movieAvailable_ready; destruct (movie_ready movie); cbn -[Nat.leb];
    try (destruct (respond w (TerminateStreamByFile originalFilePath)) as [v|e];
         cbn -[Nat.leb]);
    try (destruct (Nat.leb_spec maxRetries (Datatypes.S (attempts p))); cbn);
    do 3 eexists; (split; [reflexivity|]); (split; [reflexivity|]); cbn;
    rewrite ?Hres, ?Hact;
    first [ split; assumption
          | split; reflexivity
          | right; split; [reflexivity|discriminate]
          | left; split; [split; reflexivity|assumption] ].
Qed.

Lemma seasonTick_step (seriesId seasonNumber : Z) (ratingKey seasonDescription : string)
    (w : env) (p : poller) :
  polling p ->
  exists r p' t,
    seasonTick config seriesId seasonNumber ratingKey seasonDescription w p = (r, p', t)
    /\ attempts p' = Datatypes.S (attempts p)
    /\ match r with
       | Ok _ => (polling p' /\ attempts p' < maxRetries) \/ settled p'
       | Throw _ => polling p'
       end.
Proof.
  intros [Hact Hres].
  unfold seasonTick, unavailableEpisodes, bind at 1 2, invoke, incrementAttempts, modify.
  destruct (respond w (GetEpisodesBySeriesId seriesId seasonNumber)) as [episodes|e];
    [|do 3 eexists; split; [reflexivity|]; split; [reflexivity|]; split; assumption].
  unfold bind at 1.
  assert (Hfilter : exists r,
             match episodes with
             | JArr items => filterM episodeUnavailable items
             | _ => throw (TypeError "filter")
             end w (bump p) = (r, bump p, [])).
  { destruct episodes; try (eexists; reflexivity). apply filterM_pure. }
  destruct Hfilter as [r Hfilter]. fold (bump p). rewrite Hfilter.
  destruct r as [unavailable|e];
    [|do 3 eexists; split; [reflexivity|]; split; [reflexivity|]; split; assumption].
  destruct (updatePlexDescription_calls config ratingKey seasonDescription
              ("Waiting for " ++ string_of_nat (length unavailable) ++ " episodes...")
              w (bump p)) as [tu [Eu _]].
  unfold bind, clearInterval, resolve, modify, get_state, debugLog, polling, settled.
  destruct (length unavailable =? 0)%nat;
    cbn -[Nat.leb updatePlexDescription String.append];
    rewrite ?Eu; cbn -[Nat.leb];
    destruct (Nat.leb_spec maxRetries (Datatypes.S (attempts p))); cbn;
    do 3 eexists; (split; [reflexivity|]); (split; [reflexivity|]); cbn;
    rewrite ?Hres, ?Hact;
    first [ right; split; [reflexivity|discriminate]
          | left; split; [split; reflexivity|assumption] ].
Qed.

(** The calls of one movie callback take no longer than its three calls
    together. *)
Lemma movieCallback_duration (movieId : Z) (originalFilePath : string)
    (w : env) (latency : call -> N) (p : poller) :
  (duration (movieCallback movieId originalFilePath) w latency p
   <= latency (GetMovieStatus movieId) + latency (IsMovieDownloading movieId)
      + latency (TerminateStreamByFile originalFilePath))%N.
Proof.
  unfold movieCallback, sync, await, bind, incrementAttempts, modify, debugLog.
  cbn -[Nat.leb movieAvailable N.add].
  destruct (respond w (GetMovieStatus movieId)) as [movie|e];
    cbn -[Nat.leb movieAvailable N.add]; [|lia].
  destruct (respond w (IsMovieDownloading movieId)) as [downloading|e];
    cbn -[Nat.leb movieAvailable N.add]; [|lia].
  destruct (truthy downloading); cbn -[Nat.leb movieAvailable N.add];
    rewrite !movieAvailable_ready; destruct (movie_ready movie); cbn -[Nat.leb N.add];
    try (destruct (respond w (TerminateStreamByFile originalFilePath)) as [v|e];
         cbn -[Nat.leb N.add]);
    try (destruct (maxRetries <=? Datatypes.S (attempts p))%nat; cbn -[N.add]);
    lia.
Qed.

(** The calls of one season callback take no longer than the listing and
    the update together. *)
Lemma seasonCallback_duration (seriesId seasonNumber : Z)
    (ratingKey seasonDescription : string) (w : env) (latency : call -> N) (p : poller)
    (limit : N) :
  (forall url,
     (latency (GetEpisodesBySeriesId seriesId seasonNumber) + latency (AxiosPut url)
      < limit)%N) ->
  (duration (seasonCallback config seriesId seasonNumber ratingKey seasonDescription)
     w latency p < limit)%N.
Proof.
  intros Hlimit.
  pose proof (Hlimit "") as H0.
  unfold seasonCallback, sync, await, bind, incrementAttempts, modify.
  cbn -[Nat.leb Nat.eqb unavailableEpisodes updatePlexDescriptionAsync andThen
        String.append get_state debugLog clearInterval resolve N.add].
  destruct (respond w (GetEpisodesBySeriesId seriesId seasonNumber)) as [episodes|e];
    [|cbn -[N.add]; lia].
  cbn [duration].
  destruct (unavailableEpisodes_pure episodes w (bump p)) as [r Hr].
  unfold bump in Hr. rewrite Hr.
  destruct r as [unavailable|e]; [|cbn -[N.add]; lia].
  rewrite duration_andThen.
  destruct (length unavailable =? 0)%nat.
  - unfold clearInterval, resolve, modify, get_state, debugLog.
    cbn -[Nat.leb N.add].
    destruct (maxRetries <=? Datatypes.S (attempts p))%nat; cbn -[N.add]; lia.
  - destruct (updatePlexDescription_calls config ratingKey seasonDescription
                ("Waiting for " ++ string_of_nat (length unavailable) ++ " episodes...")
                w (bump p)) as [tu [Eu _]].
    unfold bump in Eu.
    destruct (updatePlexDescriptionAsync_cost config ratingKey seasonDescription
                ("Waiting for " ++ string_of_nat (length unavailable) ++ " episodes...")
                w latency (bump p)) as [_ Ed].
    unfold bump in Ed.
    unfold debugLog. cbn -[Nat.leb updatePlexDescription updatePlexDescriptionAsync
                           String.append get_state clearInterval resolve N.add].
    rewrite updatePlexDescriptionAsync_atomically.
    rewrite Ed, Eu.
    unfold get_state, debugLog, clearInterval, resolve, modify.
    cbn -[Nat.leb update_calls String.append N.add].
    unfold update_calls.
    destruct (description_url config ratingKey seasonDescription _ (currentDate w))
      as [url|].
    + pose proof (Hlimit url).
      destruct (maxRetries <=? Datatypes.S (attempts p))%nat; cbn -[N.add]; lia.
    + destruct (maxRetries <=? Datatypes.S (attempts p))%nat; cbn -[N.add]; lia.
Qed.
End PollerSteps.

Lemma started_polling : polling started.
Proof. split; reflexivity. Qed.

(** X18. If the three calls of a movie callback are answered, together, in
    less than the 5000 ms to the next firing, the movie poller ends within 60
    firings whatever the collaborators answer: either a callback rejected
    (and the promise is left pending), or the interval is cleared and the
    promise resolved; no callback is left waiting, and time beyond that
    changes nothing. *)
Theorem movie_poller_ends
    (movieId : Z) (ratingKey originalFilePath movieDescription : string)
    (world : nat -> env) (delay : nat -> call -> N) (fuel : nat) :
  (forall k,
     (delay k (GetMovieStatus movieId) + delay k (IsMovieDownloading movieId)
      + delay k (TerminateStreamByFile originalFilePath) < intervalDelay)%N) ->
  240 <= fuel ->
  let r := monitorAvailability movieId ratingKey originalFilePath movieDescription
             world delay fuel in
  r = monitorAvailability movieId ratingKey originalFilePath movieDescription
        world delay 240
  /\ 1 <= ticks r <= 60
  /\ outstanding r = 0
  /\ match crashed r with
     | Some _ => polling (final r)
     | None => settled (final r)
     end.
Proof.
  intros Htimely Hfuel. cbv zeta. unfold monitorAvailability, start.
  match goal with
  | |- context [runTimer _ _ _ _ {| closure := _; waiting := _; fired := _;
                                    output := ?l; failure := _ |}] =>
      set (before := l)
  end.
  destruct (runTimer_settles (movieCallback movieId originalFilePath) world delay 3)
    with (n := 59) (k := 0) (p := started) (before := before)
    as [r0 [Hr [Hticks [Hout Hend]]]].
  - intros w p Hp. rewrite movieCallback_atomically.
    exact (movieTick_step movieId originalFilePath w p Hp).
  - intros w p. apply movieCallback_awaits.
  - intros k p.
    pose proof (movieCallback_duration movieId originalFilePath (world k) (delay k) p).
    pose proof (Htimely k). lia.
  - exact started_polling.
  - reflexivity.
  - assert (H240 : 60 * 4 <= 240) by lia.
    assert (Hf : 60 * 4 <= fuel) by lia.
    rewrite (Hr fuel Hf), (Hr 240 H240).
    split; [reflexivity|]. split; [lia|]. split; assumption.
Qed.

(** X19. If the listing and the description update of a season callback are
    answered, together, in less than the 5000 ms to the next firing, the
    season poller ends within 60 firings whatever the collaborators answer:
    either a callback rejected (and the promise is left pending), or the
    interval is cleared and the promise resolved; no callback is left
    waiting, and time beyond that changes nothing. *)
Theorem season_poller_ends
    (config : Config) (seriesId seasonNumber : Z) (ratingKey seasonDescription : string)
    (world : nat -> env) (delay : nat -> call -> N) (fuel : nat) :
  (forall k url,
     (delay k (GetEpisodesBySeriesId seriesId seasonNumber) + delay k (AxiosPut url)
      < intervalDelay)%N) ->
  180 <= fuel ->
  let r := monitorSeasonAvailability config seriesId seasonNumber ratingKey
             seasonDescription world delay fuel in
  r = monitorSeasonAvailability config seriesId seasonNumber ratingKey
        seasonDescription world delay 180
  /\ 1 <= ticks r <= 60
  /\ outstanding r = 0
  /\ match crashed r with
     | Some _ => polling (final r)
     | None => settled (final r)
     end.
Proof.
  intros Htimely Hfuel. cbv zeta. unfold monitorSeasonAvailability, start.
  match goal with
  | |- context [runTimer _ _ _ _ {| closure := _; waiting := _; fired := _;
                                    output := ?l; failure := _ |}] =>
      set (before := l)
  end.
  destruct (runTimer_settles
              (seasonCallback config seriesId seasonNumber ratingKey seasonDescription)
              world delay 2)
    with (n := 59) (k := 0) (p := started) (before := before)
    as [r0 [Hr [Hticks [Hout Hend]]]].
  - intros w p Hp. rewrite seasonCallback_atomically.
    exact (seasonTick_step config seriesId seasonNumber ratingKey seasonDescription
             w p Hp).
  - intros w p. apply seasonCallback_awaits.
  - intros k p. apply seasonCallback_duration. apply Htimely.
  - exact started_polling.
  - reflexivity.
  - assert (H180 : 60 * 3 <= 180) by lia.
    assert (Hf : 60 * 3 <= fuel) by lia.
    rewrite (Hr fuel Hf), (Hr 180 H180).
    split; [reflexivity|]. split; [lia|]. split; assumption.
Qed.

(** ** Pollers that find their target, and callbacks that reject *)

Lemma after_ready_below (n : nat) :
  Datatypes.S n < maxRetries ->
  after_ready (bumps n started)
  = {| attempts := Datatypes.S n; intervalActive := false;
       resolveCalls := [WhenAvailable] |}.
Proof.
  intros H. unfold after_ready.
  rewrite attempts_bumps, resolveCalls_bumps. simpl attempts. simpl resolveCalls.
  rewrite Nat.add_0_r.
  destruct (Nat.leb_spec maxRetries (Datatypes.S n)); [lia|reflexivity].
Qed.

Section Found.
Variables (world : nat -> env) (delay : nat -> call -> N).

(** X20. If the movie is not ready at the firings before the [k]-th and is
    ready at the [k]-th, with [k < 60], if the stop-playback call returns,
    and if the calls of each of these firings are answered, together, in less
    than the 5000 ms to the next firing, the movie poller stops right there:
    [k] ticks, [5000 * k] ms, one stop-playback call, on the original file
    path, the interval cleared and the promise resolved by the availability
    branch alone. *)
Theorem movie_poller_stops_when_ready
    (movieId : Z) (ratingKey originalFilePath movieDescription : string)
    (k fuel : nat) :
  1 <= k < 60 ->
  3 * k + 1 <= fuel ->
  (forall j, 1 <= j < k ->
     exists movie downloading,
       movie_status movieId (world j) movie downloading /\ movie_ready movie = false) ->
  (exists movie downloading answer,
     movie_status movieId (world k) movie downloading
     /\ movie_ready movie = true
     /\ respond (world k) (TerminateStreamByFile originalFilePath) = Returned answer) ->
  (forall j, 1 <= j <= k ->
     (delay j (GetMovieStatus movieId) + delay j (IsMovieDownloading movieId)
      + delay j (TerminateStreamByFile originalFilePath) < intervalDelay)%N) ->
  let r := monitorAvailability movieId ratingKey originalFilePath movieDescription
             world delay fuel in
  ticks r = k
  /\ elapsed r = (5000 * Z.of_nat k)%Z
  /\ final r = {| attempts := k; intervalActive := false;
                  resolveCalls := [WhenAvailable] |}
  /\ crashed r = None
  /\ outstanding r = 0
  /\ filter is_stop_playback (calls (effects r))
     = [TerminateStreamByFile originalFilePath].
Proof.
  intros Hk Hfuel Hbefore [movie [downloading [answer [Hst [Hready Hstop]]]]] Htimely.
  destruct k as [|n]; [lia|].
  destruct (movieTick_ready movieId originalFilePath (world (Datatypes.S n))
              (bumps n started) _ _ _ Hst Hready Hstop) as [tk [Ek Ck]].
  destruct (movieCallback_ready_cost movieId originalFilePath (world (Datatypes.S n))
              (delay (Datatypes.S n)) (bumps n started) _ _ Hst Hready) as [Ak Dk].
  rewrite <- movieCallback_atomically in Ek.
  cbv zeta. unfold monitorAvailability, start.
  match goal with
  | |- context [runTimer _ _ _ _ {| closure := _; waiting := _; fired := _;
                                    output := ?l; failure := _ |}] =>
      set (before := l)
  end.
  destruct (movie_poller_waits movieId originalFilePath world delay n before
              (Datatypes.S (awaits (movieCallback movieId originalFilePath)
                              (world (Datatypes.S n)) (bumps n started)
                            + (fuel - (3 * Datatypes.S n + 1)))))
    as [t [Ct Et]]; [lia|intros j Hj; apply Hbefore; lia| |].
  { intros j Hj. pose proof (Htimely j). lia. }
  rewrite (runTimer_last _ world delay n (bumps n started) _ tk (before ++ t)%list
             (fuel - (3 * Datatypes.S n + 1))
             (intervalActive_bumps n started) Ek eq_refl) in Et
    by (rewrite Dk; apply Htimely; lia).
  replace fuel with
    (n * 3 + Datatypes.S (awaits (movieCallback movieId originalFilePath)
                            (world (Datatypes.S n)) (bumps n started)
                          + (fuel - (3 * Datatypes.S n + 1))))
    by (rewrite Ak; lia).
  rewrite Et. unfold elapsed, intervalDelay.
  cbn [final effects ticks crashed outstanding].
  rewrite after_ready_below by (unfold maxRetries; lia).
  repeat split; try lia.
  rewrite !calls_app, !filter_app, Ck.
  unfold count in Ct. apply length_zero_iff_nil in Ct. rewrite Ct. reflexivity.
Qed.

(** X21. If some episode is pending at the firings before the [k]-th and
    none at the [k]-th, with [k < 60], if the texts of the updates can be
    encoded, and if the calls of each of these firings are answered,
    together, in less than the 5000 ms to the next firing, the season poller
    stops right there: [k] ticks, [k - 1] description updates, none of them
    in the last tick, the interval cleared and the promise resolved by the
    availability branch alone. An empty listing at the first firing
    satisfies it at once. *)
Theorem season_poller_stops_when_complete
    (config : Config) (seriesId seasonNumber : Z) (ratingKey seasonDescription : string)
    (k fuel : nat) :
  1 <= k < 60 ->
  3 * k <= fuel ->
  (forall j, 1 <= j < k ->
     exists items url,
       respond (world j) (GetEpisodesBySeriesId seriesId seasonNumber)
         = Returned (JArr items)
       /\ episode_records items /\ 0 < pending_count items
       /\ description_url config ratingKey seasonDescription
            (waiting_line (pending_count items)) (currentDate (world j)) = Some url
       /\ (delay j (GetEpisodesBySeriesId seriesId seasonNumber)
           + delay j (AxiosPut url) < intervalDelay)%N) ->
  (exists items,
     respond (world k) (GetEpisodesBySeriesId seriesId seasonNumber)
       = Returned (JArr items)
     /\ episode_records items /\ pending_count items = 0) ->
  (delay k (GetEpisodesBySeriesId seriesId seasonNumber) < intervalDelay)%N ->
  let r := monitorSeasonAvailability config seriesId seasonNumber ratingKey
             seasonDescription world delay fuel in
  ticks r = k
  /\ final r = {| attempts := k; intervalActive := false;
                  resolveCalls := [WhenAvailable] |}
  /\ crashed r = None
  /\ outstanding r = 0
  /\ count is_put (effects r) = k - 1.
Proof.
  intros Hk Hfuel Hbefore [items [Hfetch [Hrec Hnone]]] Hlast.
  destruct k as [|n]; [lia|].
  destruct (seasonTick_ready config seriesId seasonNumber ratingKey seasonDescription
              (world (Datatypes.S n)) (bumps n started) items Hfetch Hrec Hnone)
    as [tk [Ek Ck]].
  destruct (seasonCallback_ready_cost config seriesId seasonNumber ratingKey
              seasonDescription (world (Datatypes.S n)) (delay (Datatypes.S n))
              (bumps n started) items Hfetch Hrec Hnone) as [Ak Dk].
  rewrite <- seasonCallback_atomically in Ek.
  cbv zeta. unfold monitorSeasonAvailability, start.
  match goal with
  | |- context [runTimer _ _ _ _ {| closure := _; waiting := _; fired := _;
                                    output := ?l; failure := _ |}] =>
      set (before := l)
  end.
  destruct (season_poller_waits config seriesId seasonNumber ratingKey seasonDescription
              world delay n before
              (Datatypes.S
                 (awaits (seasonCallback config seriesId seasonNumber ratingKey
                            seasonDescription) (world (Datatypes.S n)) (bumps n started)
                  + (fuel - (3 * n + 2)))))
    as [t [Ct Et]]; [lia|intros j Hj; apply Hbefore; lia|].
  rewrite (runTimer_last _ world delay n (bumps n started) _ tk (before ++ t)%list
             (fuel - (3 * n + 2))
             (intervalActive_bumps n started) Ek eq_refl) in Et
    by (rewrite Dk; exact Hlast).
  replace fuel with
    (n * 3 + Datatypes.S
               (awaits (seasonCallback config seriesId seasonNumber ratingKey
                          seasonDescription) (world (Datatypes.S n)) (bumps n started)
                + (fuel - (3 * n + 2))))
    by (rewrite Ak; lia).
  rewrite Et. cbn [final effects ticks crashed outstanding].
  rewrite after_ready_below by (unfold maxRetries; lia).
  repeat split; try lia.
  rewrite !count_app, Ct. unfold count at 2. rewrite Ck. simpl. lia.
Qed.
End Found.

Section Rejections.
Variables (config : Config) (w : env) (p : poller).

(** X22. A status fetch that rejects is not caught inside the movie
    callback: the callback rejects with that error, the attempt is counted,
    and neither the stop-playback call nor [clearInterval] nor [resolve]
    runs, not even the ceiling check of the 60th attempt. *)
Theorem movie_tick_rejects_with_fetch
    (movieId : Z) (originalFilePath : string) (e : exn) :
  respond w (GetMovieStatus movieId) = Raised e
  \/ ((exists movie, respond w (GetMovieStatus movieId) = Returned movie)
      /\ respond w (IsMovieDownloading movieId) = Raised e) ->
  exists t,
    movieTick movieId originalFilePath w p = (Throw e, bump p, t)
    /\ count is_stop_playback t = 0.
Proof.
  unfold movieTick, bind, invoke, incrementAttempts, modify, bump.
  intros [E|[[movie Em] Ed]]; cbn -[Nat.leb movieAvailable].
  - rewrite E. eexists; split; reflexivity.
  - rewrite Em, Ed. eexists; split; reflexivity.
Qed.

(** X23. When the movie is ready and the stop-playback call rejects, the
    movie callback rejects after that one call: the attempt is counted, the
    interval is not cleared and the promise is not resolved. *)
Theorem movie_tick_rejects_with_stop
    (movieId : Z) (originalFilePath : string) (movie downloading : value) (e : exn) :
  movie_status movieId w movie downloading ->
  movie_ready movie = true ->
  respond w (TerminateStreamByFile originalFilePath) = Raised e ->
  exists t,
    movieTick movieId originalFilePath w p = (Throw e, bump p, t)
    /\ calls t = [GetMovieStatus movieId; IsMovieDownloading movieId;
                  TerminateStreamByFile originalFilePath].
Proof.
  intros [Hm Hd] Hready Hstop.
  unfold movieTick, bind, invoke, incrementAttempts, clearInterval, resolve,
    modify, get_state, debugLog, bump.
  cbn -[Nat.leb movieAvailable]. rewrite Hm, Hd.
  destruct (truthy downloading); cbn -[Nat.leb movieAvailable];
    rewrite movieAvailable_ready, Hready; cbn -[Nat.leb]; rewrite Hstop;
    eexists; split; reflexivity.
Qed.

(** X24. A listing that is not an array, or an array with a [null] entry,
    makes the season callback reject with a [TypeError] right after the
    fetch: the attempt is counted, no description update is issued, the
    interval is not cleared and the promise is not resolved. *)
Theorem season_tick_rejects_malformed_listing
    (seriesId seasonNumber : Z) (ratingKey seasonDescription : string)
    (listing : value) :
  respond w (GetEpisodesBySeriesId seriesId seasonNumber) = Returned listing ->
  (forall items, listing <> JArr items)
  \/ (exists items, listing = JArr items /\ Exists (fun ep => nullish ep = true) items) ->
  exists what t,
    seasonTick config seriesId seasonNumber ratingKey seasonDescription w p
      = (Throw (TypeError what), bump p, t)
    /\ calls t = [GetEpisodesBySeriesId seriesId seasonNumber].
Proof.
  intros Hfetch Hbad.
  unfold seasonTick, unavailableEpisodes, bind at 1 2, invoke, incrementAttempts, modify.
  rewrite Hfetch. fold (bump p). unfold bind at 1.
  destruct Hbad as [Hnot|[items [-> Hnull]]].
  - destruct listing; try (do 2 eexists; split; reflexivity).
    destruct (Hnot _ eq_refl).
  - assert (E : filterM episodeUnavailable items w (bump p)
                = (Throw (TypeError "hasFile"), bump p, [])).
    { clear Hfetch. revert Hnull. generalize (bump p). intros q Hnull.
      induction items as [|ep items IH]; [inversion Hnull|].
      simpl. unfold bind at 1. destruct (nullish ep) eqn:N.
      - destruct ep; try discriminate N; reflexivity.
      - rewrite (episodeUnavailable_pending ep w q N).
        unfold bind at 1. rewrite IH; [reflexivity|].
        inversion Hnull as [? ? Hhd|? ? Htl]; subst; [congruence|exact Htl]. }
    rewrite E. do 2 eexists; split; reflexivity.
Qed.
End Rejections.

(** ** The dummy folder from creation to removal *)

(** X25. For one movie payload whose title has a string conversion, the
    folder that the [Download] case removes (once the dummy file is cleaned)
    is the directory that the [MovieAdded] case creates first, whatever the
    collaborators answer otherwise. *)
Theorem download_removes_what_movie_added_created
    {S : Type} {P : PathLib} (config : Config)
    (added download movie : list (string * value)) (folder : string)
    (wA wD : env) (s : S) :
  lookup "eventType" added = JStr "MovieAdded" ->
  lookup "movie" added = JObj movie ->
  lookup "eventType" download = JStr "Download" ->
  lookup "movie" download = JObj movie ->
  lookup "folderPath" movie = JStr folder ->
  converts (lookup "title" movie) = true ->
  returns wD (CleanUpDummyFile folder) ->
  exists dir,
    hd_error (calls (snd (handleEvent config (JObj added) wA s)))
    = Some (EnsureDirectoryExists dir)
    /\ nth_error (calls (snd (handleEvent config (JObj download) wD s))) 1
       = Some (RemoveDummyFolder dir).
Proof.
  intros HtyA HmovieA HtyD HmovieD Hfolder Htitle [v Hclean].
  destruct (converts_text _ Htitle) as [text Etext].
  exists (path_join [MOVIE_FOLDER_DUMMY config; path_basename folder]). split.
  - unfold handleEvent, handleMovieAdded, call_notifyPlexFolderRefresh,
      bind, debugLog, invoke, PLACEHOLDER.
    cbn -[notifyPlexFolderRefresh interpolate].
    rewrite HtyA. cbn -[notifyPlexFolderRefresh interpolate].
    rewrite HmovieA. cbn -[notifyPlexFolderRefresh interpolate].
    rewrite Hfolder. cbn -[notifyPlexFolderRefresh interpolate].
    rewrite (interpolate_of_text _ text wA s Etext). cbn -[notifyPlexFolderRefresh].
    destruct (respond wA (EnsureDirectoryExists _)) as [v1|e1];
      cbn -[notifyPlexFolderRefresh]; [|reflexivity].
    destruct (respond wA (CreateDummyFile _ _)) as [v2|e2];
      cbn -[notifyPlexFolderRefresh]; [|reflexivity].
    destruct (respond wA (CreateSymlink _ _)) as [v3|e3];
      cbn -[notifyPlexFolderRefresh]; [|reflexivity].
    destruct (notifyPlexFolderRefresh config folder wA s) as [[r3 s3] t3]. reflexivity.
  - destruct (secondaryBackend_calls config movie wD s) as [rs [ts [Es _]]].
    unfold handleEvent, handleDownloadMovie, call_notifyPlexFolderRefresh,
      bind, debugLog, invoke.
    cbn -[notifyPlexFolderRefresh secondaryBackend interpolate].
    rewrite HtyD. cbn -[notifyPlexFolderRefresh secondaryBackend interpolate].
    rewrite HmovieD. cbn -[notifyPlexFolderRefresh secondaryBackend interpolate].
    rewrite Hfolder. cbn -[notifyPlexFolderRefresh secondaryBackend interpolate].
    rewrite (interpolate_of_text _ text wD s Etext).
    cbn -[notifyPlexFolderRefresh secondaryBackend].
    rewrite Hclean.
    destruct (respond wD (RemoveDummyFolder _)) as [v2|e2];
      cbn -[notifyPlexFolderRefresh secondaryBackend]; [|reflexivity].
    rewrite Es. destruct rs as [[]|e]; [|reflexivity].
    destruct (notifyPlexFolderRefresh config folder wD s) as [[r3 s3] t3]. reflexivity.
Qed.

(** ** Instances of the further properties *)

Lemma healthy_answers (c : call) : returns Sample.healthy c.
Proof. destruct c; eexists; reflexivity. Defined.

(** X6 on a [Grab] event without its [release]. *)
Lemma other_kinds_only_log_witness :
  quiet (handleEvent (S := unit) Sample.config Cases.grab_without_release).
Proof.
  apply (other_kinds_only_log (S := unit) Sample.config Cases.grab_without_release);
    reflexivity.
Defined.

(** X7 on a [Rename] event. *)
Lemma harmless_kinds_answer_200_witness :
  fst (fst (radarr_webhook (S := unit) Sample.config Cases.rename_movie Sample.healthy tt))
  = Ok processed
  /\ calls (snd (radarr_webhook (S := unit) Sample.config Cases.rename_movie
                   Sample.healthy tt)) = [].
Proof.
  exact (proj1 (proj1 (harmless_kinds_answer_200 (S := unit) Sample.config
                         Cases.rename_movie "Rename" Sample.healthy tt
                         eq_refl eq_refl
                         (fun H : "Rename" = "" => ltac:(discriminate H))
                         eq_refl))).
Defined.

(** X8 on a [MovieDelete] event without [movie]. *)
Lemma delete_events_need_their_payload_witness :
  fst (fst (radarr_webhook (S := unit) Sample.config Cases.delete_without_movie
              Sample.healthy tt))
  = Ok internal_error.
Proof.
  apply (delete_events_need_their_payload (S := unit) Sample.config
           Cases.delete_without_movie "MovieDelete" "movie" Sample.healthy tt).
  - reflexivity.
  - left. reflexivity.
  - reflexivity.
Defined.

(** X9 on a [Grab] event without its [release]. *)
Lemma grab_answer_by_payload_witness :
  fst (fst (radarr_webhook (S := unit) Sample.config Cases.grab_without_release
              Sample.healthy tt))
  = Ok internal_error.
Proof.
  exact (proj1 (proj1 (grab_answer_by_payload (S := unit) Sample.config
                         Cases.grab_without_release Sample.healthy tt
                         eq_refl eq_refl))).
Defined.

(** X10 on a bare [Download] event. *)
Lemma download_without_payload_witness :
  fst (fst (sonarr_webhook (S := unit) Sample.config Cases.download_without_payload
              Sample.healthy tt))
  = Ok processed.
Proof.
  apply (download_without_payload (S := unit) Sample.config
           Cases.download_without_payload Sample.healthy tt); reflexivity.
Defined.

(** X11 on the second season of a series. *)
Lemma series_download_effects_witness :
  exists t,
    handleEvent (S := unit) Sample.config (JObj Sample.series_download) Sample.healthy tt
      = (Ok tt, tt, t)
    /\ calls t = [CleanUpDummyFile "/infiniteplexlibrary/series/Dark/Season 2";
                  RemoveDummyFolder "/infiniteplexlibrary/series/Dark/Season 2";
                  AxiosGet "http://plex:32400/library/sections/1/refresh?X-Plex-Token=token&path=%2Ftv%2FDark"].
Proof.
  exact (series_download_effects (S := unit) Sample.config Sample.series_download
           Sample.show "/tv/Dark" "2"
           "http://plex:32400/library/sections/1/refresh?X-Plex-Token=token&path=%2Ftv%2FDark"
           Cases.first_episode [] Sample.healthy tt
           eq_refl eq_refl eq_refl eq_refl eq_refl eq_refl eq_refl eq_refl eq_refl
           healthy_filesystem).
Defined.

(** X12 on a movie, no secondary backend. *)
Lemma movie_download_without_secondary_witness :
  exists t,
    handleEvent (S := unit) Sample.config (JObj Sample.movie_download) Sample.healthy tt
      = (Ok tt, tt, t)
    /\ calls t = [CleanUpDummyFile "/media/Inception (2010)";
                  RemoveDummyFolder "/infiniteplexlibrary/movies/Inception (2010)";
                  AxiosGet "http://plex:32400/library/sections/1/refresh?X-Plex-Token=token&path=%2Fmedia%2FInception%20(2010)"].
Proof.
  exact (movie_download_without_secondary (S := unit) Sample.config Sample.movie_download
           Sample.inception "/media/Inception (2010)"
           "http://plex:32400/library/sections/1/refresh?X-Plex-Token=token&path=%2Fmedia%2FInception%20(2010)"
           Sample.healthy tt
           eq_refl eq_refl eq_refl eq_refl eq_refl eq_refl healthy_filesystem).
Defined.

(** X13 on a movie the secondary backend does not know: it is added, with
    the number 5 for the configured profile ["5"]. *)
Lemma movie_download_with_secondary_witness :
  exists t,
    handleEvent (S := unit) Sample.config4K (JObj Sample.movie_download) Sample.healthy tt
      = (Ok tt, tt, t)
    /\ calls t
       = [CleanUpDummyFile "/media/Inception (2010)";
          RemoveDummyFolder "/infiniteplexlibrary/movies/Inception (2010)";
          CheckMovieInRadarr (JNum 27205) (JStr "http://radarr4k:7878/api/v3") (JStr "key");
          AddMovieToRadarr (JNum 27205) (JStr "/media4k") (Finite 5) true true
            (JStr "http://radarr4k:7878/api/v3") (JStr "key") ["infiniteplexlibrary"];
          AxiosGet "http://plex:32400/library/sections/1/refresh?X-Plex-Token=token&path=%2Fmedia%2FInception%20(2010)"].
Proof.
  exact (movie_download_with_secondary (S := unit) Sample.config4K Sample.movie_download
           Sample.inception "/media/Inception (2010)"
           "http://plex:32400/library/sections/1/refresh?X-Plex-Token=token&path=%2Fmedia%2FInception%20(2010)"
           (JBool false) JNull [] (Finite 5)
           Sample.healthy tt eq_refl eq_refl eq_refl eq_refl eq_refl eq_refl eq_refl
           (fun H : truthy (JBool false) = true => ltac:(discriminate H))
           (fun _ => eq_refl)
           (fun c _ => healthy_answers c)).
Defined.

(** X14 on the example of the specification, all steps succeeding. *)
Lemma movie_added_stops_at_first_failure_witness :
  exists r t n,
    handleEvent (S := unit) Sample.config (JObj Sample.movie_added) Sample.healthy tt
      = (r, tt, t)
    /\ 1 <= n <= 4
    /\ calls t
       = firstn n
           [EnsureDirectoryExists "/infiniteplexlibrary/movies/Inception (2010)";
            CreateDummyFile "/infiniteplexlibrary/dummy.mp4"
              (path_join ["/infiniteplexlibrary/movies/Inception (2010)"; "dummy.mp4"]);
            CreateSymlink
              (path_join ["/infiniteplexlibrary/movies/Inception (2010)"; "dummy.mp4"])
              "/plex/movies/Inception (2010)";
            AxiosGet "http://plex:32400/library/sections/1/refresh?X-Plex-Token=token&path=%2Fmedia%2FInception%20(2010)"].
Proof.
  destruct (movie_added_stops_at_first_failure (S := unit) Sample.config Sample.movie_added
              Sample.inception "/media/Inception (2010)"
              "http://plex:32400/library/sections/1/refresh?X-Plex-Token=token&path=%2Fmedia%2FInception%20(2010)"
              Sample.healthy tt
              eq_refl eq_refl eq_refl eq_refl eq_refl) as [r [t [n [E [Hn [C _]]]]]].
  exists r, t, n. split; [exact E|]. split; [exact Hn|exact C].
Defined.

(** X15 on a [MovieAdded] event without [movie]. *)
Lemma movie_added_needs_folder_path_witness :
  fst (fst (radarr_webhook (S := unit) Sample.config Cases.added_without_movie
              Sample.healthy tt))
  = Ok internal_error.
Proof.
  apply (movie_added_needs_folder_path (S := unit) Sample.config Cases.added_without_movie
           Sample.healthy tt).
  - reflexivity.
  - reflexivity.
  - intros folder. discriminate.
Defined.

(** X16 on the example of the specification. *)
Lemma endpoints_answer_by_handler_witness :
  calls (snd (radarr_webhook (S := unit) Sample.config (JObj Sample.movie_added)
                Sample.healthy tt))
  = calls (snd (handleEvent (S := unit) Sample.config (JObj Sample.movie_added)
                  Sample.healthy tt)).
Proof.
  apply (endpoints_answer_by_handler (S := unit) Sample.config (JObj Sample.movie_added)
           Sample.healthy tt); reflexivity.
Defined.

(** X18 on a movie that stays on the placeholder, every call answered after
    100 ms. *)
Lemma movie_poller_ends_witness :
  1 <= ticks (monitorAvailability 27205 "4711" "/plex/movies/Inception (2010)/dummy.mp4"
                "A thief who steals corporate secrets." (fun _ => Sample.movie_pending)
                Cases.prompt 300)
    <= 60.
Proof.
  assert (H : 240 <= 300) by lia.
  exact (proj1 (proj2 (movie_poller_ends 27205 "4711"
                         "/plex/movies/Inception (2010)/dummy.mp4"
                         "A thief who steals corporate secrets."
                         (fun _ => Sample.movie_pending) Cases.prompt 300
                         (fun _ => eq_refl) H))).
Defined.

(** X19 on a season that keeps 3 of its 10 episodes pending, every call
    answered after 100 ms. *)
Lemma season_poller_ends_witness :
  1 <= ticks (monitorSeasonAvailability Sample.config 7 2 "4711" "Second season"
                (fun _ => Sample.season_pending) Cases.prompt 300)
    <= 60.
Proof.
  assert (H : 180 <= 300) by lia.
  exact (proj1 (proj2 (season_poller_ends Sample.config 7 2 "4711" "Second season"
                         (fun _ => Sample.season_pending) Cases.prompt 300
                         (fun _ _ => eq_refl) H))).
Defined.

(** X20 on a movie whose file arrives at the third firing, every call
    answered after 100 ms. *)
Lemma movie_poller_stops_when_ready_witness :
  ticks (monitorAvailability 27205 "4711" "/plex/movies/Inception (2010)/dummy.mp4"
           "A thief who steals corporate secrets." Cases.movie_arrives_third
           Cases.prompt 60)
  = 3.
Proof.
  apply (movie_poller_stops_when_ready Cases.movie_arrives_third Cases.prompt 27205 "4711"
           "/plex/movies/Inception (2010)/dummy.mp4"
           "A thief who steals corporate secrets." 3 60).
  - lia.
  - lia.
  - intros j Hj. exists (JObj [("hasFile", JBool false)]), JUndefined.
    unfold movie_status, Cases.movie_arrives_third; simpl.
    destruct (Nat.ltb_spec j 3); [repeat split|lia].
  - exists Cases.ready_movie, JUndefined, JUndefined. repeat split.
  - intros j _. reflexivity.
Defined.

(** X21 on a season whose last episodes arrive at the second firing, every
    call answered after 100 ms. *)
Lemma season_poller_stops_when_complete_witness :
  count is_put (effects (monitorSeasonAvailability Sample.config 7 2 "4711"
                           "Second season" Cases.season_arrives_second Cases.prompt 60))
  = 2 - 1.
Proof.
  apply (season_poller_stops_when_complete Cases.season_arrives_second Cases.prompt
           Sample.config 7 2 "4711" "Second season" 2 60).
  - lia.
  - lia.
  - intros j Hj. exists Sample.ten_episodes. eexists.
    unfold Cases.season_arrives_second; simpl.
    destruct (Nat.ltb_spec j 2); [|lia].
    split; [reflexivity|]. split; [|split; [vm_compute; lia|]].
    + unfold episode_records, Sample.ten_episodes. repeat constructor.
    + split; reflexivity.
  - exists [Sample.real_episode 1; Sample.real_episode 2].
    split; [reflexivity|]. split; [|reflexivity].
    unfold episode_records. repeat constructor.
  - reflexivity.
Defined.

(** X22 on a rejected status fetch at the 60th attempt. *)
Lemma movie_tick_rejects_with_fetch_witness :
  exists t,
    movieTick 27205 "/plex/movies/Inception (2010)/dummy.mp4" Cases.status_down
      Sample.before_last
    = (Throw (Rejection "connect ECONNREFUSED"), bump Sample.before_last, t)
    /\ count is_stop_playback t = 0.
Proof.
  apply (movie_tick_rejects_with_fetch Cases.status_down Sample.before_last 27205
           "/plex/movies/Inception (2010)/dummy.mp4" (Rejection "connect ECONNREFUSED")).
  left. reflexivity.
Defined.

(** X23 on a ready movie with the stop-playback call rejected. *)
Lemma movie_tick_rejects_with_stop_witness :
  exists t,
    movieTick 27205 "/plex/movies/Inception (2010)/dummy.mp4" Cases.stop_down started
    = (Throw (Rejection "connect ECONNREFUSED"), bump started, t)
    /\ calls t = [GetMovieStatus 27205; IsMovieDownloading 27205;
                  TerminateStreamByFile "/plex/movies/Inception (2010)/dummy.mp4"].
Proof.
  apply (movie_tick_rejects_with_stop Cases.stop_down started 27205
           "/plex/movies/Inception (2010)/dummy.mp4" Cases.ready_movie JUndefined
           (Rejection "connect ECONNREFUSED")).
  - split; reflexivity.
  - reflexivity.
  - reflexivity.
Defined.

(** X24 on a listing that comes back as [null]. *)
Lemma season_tick_rejects_malformed_listing_witness :
  exists what t,
    seasonTick Sample.config 7 2 "4711" "Second season" Cases.listing_null started
    = (Throw (TypeError what), bump started, t)
    /\ calls t = [GetEpisodesBySeriesId 7 2].
Proof.
  apply (season_tick_rejects_malformed_listing Sample.config Cases.listing_null started
           7 2 "4711" "Second season" JNull).
  - reflexivity.
  - left. intros items. discriminate.
Defined.

(** X25 on the example of the specification. *)
Lemma download_removes_what_movie_added_created_witness :
  exists dir,
    hd_error (calls (snd (handleEvent (S := unit) Sample.config (JObj Sample.movie_added)
                            Sample.healthy tt)))
    = Some (EnsureDirectoryExists dir)
    /\ nth_error (calls (snd (handleEvent (S := unit) Sample.config
                                (JObj Sample.movie_download) Sample.secondary_down tt))) 1
       = Some (RemoveDummyFolder dir).
Proof.
  apply (download_removes_what_movie_added_created (S := unit) Sample.config
           Sample.movie_added Sample.movie_download Sample.inception
           "/media/Inception (2010)" Sample.healthy Sample.secondary_down tt);
    try reflexivity.
  exists JUndefined. reflexivity.
Defined.
